(** * searchgoat-jupyter: token cache, job polling and NDJSON pager

    A shallow embedding of [auth.py], [client.py], [job.py] and
    [pagination.py] of the searchgoat_jupyter package, with the
    properties of its specification stated and proved over the embedding.

    Conventions of the embedding.
    - Python [str] is [string]; a character is a code point below 256.
    - Instants and durations ([time.time()], [timeout], [poll_interval],
      [expires_in]) are whole seconds in [Z].
    - The values [json.loads] produces are the inductive type [value].
    - An exception leaves every mutation made before it in place, so the
      monad [M] returns the state together with the raised exception.
    - The world outside the process is a clock, a deterministic server
      (a function of the requests made so far) and the trace of effects.
    - A call of the HTTP client gets a response or fails with
      [httpx.RequestError], the class the [except] clauses of the code
      name.  What [httpx] raises outside that class before a request
      leaves the process ([InvalidURL] for a malformed URL) has no
      counterpart: the URLs built from the settings are taken to be
      well-formed, and an exchange that gets no answer always means a
      [RequestError].  The trace records the call, not the arrival.
    - A [while True] loop is a [Fixpoint] on a fuel argument; running out
      of fuel is the outcome [OutOfFuel], never a result of the program.
    - An async generator is run to its end: its value is the list of the
      records it yielded, how it ended, and the state it left.
    - Floating-point values are kept as their literal; computing with one,
      and the few other steps the string and number model cannot follow,
      raise the marker [Unmodelled], which no property relies on. *)

From Stdlib Require Import ZArith List String Ascii Bool Lia DecimalString.
Import ListNotations.
Open Scope string_scope.
Open Scope Z_scope.

(* ===================================================================== *)
(** ** Python strings *)
(* ===================================================================== *)

Module PyStr.

(** [str.isspace] on one character (code points below 256):
    TAB..CR, FS..US, SPACE, NEL and NBSP. *)
Definition isspace (c : ascii) : bool :=
  let n := nat_of_ascii c in
  ((9 <=? n) && (n <=? 13) || (28 <=? n) && (n <=? 32)
   || (n =? 133) || (n =? 160))%nat.

Fixpoint lstrip_by (space : ascii -> bool) (s : string) : string :=
  match s with
  | EmptyString => EmptyString
  | String c r => if space c then lstrip_by space r else s
  end.

Fixpoint rstrip_by (space : ascii -> bool) (s : string) : string :=
  match s with
  | EmptyString => EmptyString
  | String c r =>
      match rstrip_by space r with
      | EmptyString => if space c then EmptyString else String c EmptyString
      | r' => String c r'
      end
  end.

Definition strip_by (space : ascii -> bool) (s : string) : string :=
  rstrip_by space (lstrip_by space s).

(** [s.strip()] *)
Definition strip (s : string) : string := strip_by isspace s.

(** [s.split(sep)] for a one-character separator: the pieces between the
    separators, empty pieces included; never the empty list. *)
Fixpoint split (sep : ascii) (s : string) : list string :=
  match s with
  | EmptyString => [EmptyString]
  | String c r =>
      if Ascii.eqb c sep then EmptyString :: split sep r
      else match split sep r with
           | h :: t => String c h :: t
           | [] => [String c EmptyString]
           end
  end.

(** Truth value of a string: non-empty. *)
Definition truthy (s : string) : bool :=
  match s with EmptyString => false | _ => true end.

Definition lower_char (c : ascii) : ascii :=
  let n := nat_of_ascii c in
  if ((65 <=? n) && (n <=? 90))%nat then ascii_of_nat (n + 32) else c.

Fixpoint lower (s : string) : string :=
  match s with
  | EmptyString => EmptyString
  | String c r => String (lower_char c) (lower r)
  end.

(** [sep.join(l)] *)
Fixpoint join (sep : string) (l : list string) : string :=
  match l with
  | [] => EmptyString
  | [x] => x
  | x :: r => x ++ sep ++ join sep r
  end.

Definition is_digit (c : ascii) : bool :=
  let n := nat_of_ascii c in ((48 <=? n) && (n <=? 57))%nat.

Definition digit_val (c : ascii) : Z := Z.of_nat (nat_of_ascii c) - 48.

(** Longest prefix of decimal digits, and the rest. *)
Fixpoint span_digits (s : string) : string * string :=
  match s with
  | String c r =>
      if is_digit c then let (d, t) := span_digits r in (String c d, t)
      else (EmptyString, s)
  | EmptyString => (EmptyString, EmptyString)
  end.

Fixpoint digits_value (acc : Z) (s : string) : Z :=
  match s with
  | EmptyString => acc
  | String c r => digits_value (10 * acc + digit_val c) r
  end.

(** Body of an [int(str)] literal after the sign: decimal digits, single
    underscores allowed between two digits only. *)
Fixpoint int_body (prev_digit : bool) (acc : Z) (s : string) : option Z :=
  match s with
  | EmptyString => if prev_digit then Some acc else None
  | String c r =>
      if is_digit c then int_body true (10 * acc + digit_val c) r
      else if Ascii.eqb c "_" then
             if prev_digit then
               match r with
               | String d _ => if is_digit d then int_body false acc r else None
               | EmptyString => None
               end
             else None
           else None
  end.

(** White space that [int] allows around a literal: the C library's
    (TAB..CR and SPACE), NEL and NBSP; not FS..US. *)
Definition int_space (c : ascii) : bool :=
  let n := nat_of_ascii c in
  ((9 <=? n) && (n <=? 13) || (n =? 32) || (n =? 133) || (n =? 160))%nat.

(** [int(s)] for a string, base 10; [None] stands for [ValueError]. *)
Definition int_of_str (s : string) : option Z :=
  match strip_by int_space s with
  | String "-" r => option_map Z.opp (int_body false 0 r)
  | String "+" r => int_body false 0 r
  | r => int_body false 0 r
  end.

(** [str(n)] for an int. *)
Definition str_of_int (n : Z) : string := NilZero.string_of_int (Z.to_int n).

(** [needle in hay] *)
Fixpoint prefix_of (p s : string) : bool :=
  match p, s with
  | EmptyString, _ => true
  | String a p', String b s' => Ascii.eqb a b && prefix_of p' s'
  | _, _ => false
  end.

Fixpoint contains (needle hay : string) : bool :=
  prefix_of needle hay ||
  match hay with
  | EmptyString => false
  | String _ r => contains needle r
  end.

End PyStr.

(* ===================================================================== *)
(** ** Python values, exceptions and results *)
(* ===================================================================== *)

#[local] Set Warnings "-register-all".

(** What [json.loads] builds: [None], [bool], [int], [float], [str],
    [list] and [dict].  A float keeps its literal text; a dict keeps its
    members in source order, the last binding of a key being the one in
    force. *)
Inductive value : Type :=
| VNone
| VBool (b : bool)
| VInt (n : Z)
| VFloat (literal : string)
| VStr (s : string)
| VList (items : list value)
| VDict (members : list (string * value)).

(** The exceptions of exceptions.py with what they carry, those of httpx
    and of the interpreter that the code lets through, and the marker
    [Unmodelled]. *)
Inductive exn : Type :=
| AuthenticationError (msg : string)
| QuerySyntaxError (msg : string)
| RateLimitError (msg : string) (retry_after : Z)
| JobTimeoutError (msg : string)
| JobFailedError (msg : value) (job_id : string)
| HTTPStatusError (status_code : Z) (text : string)
| RequestError (msg : string)
| JSONDecodeError
| KeyError
| IndexError
| TypeError
| AttributeError
| ValueError
| Unmodelled (what : string).

(** Outcome of a computation: a value, a raised exception, or a loop cut
    short by the model's fuel. *)
Inductive Result (A : Type) : Type :=
| Ok (a : A)
| Raise (e : exn)
| OutOfFuel.

Arguments Ok {A} a.
Arguments Raise {A} e.
Arguments OutOfFuel {A}.

Module PyVal.

(** Last binding of [k]. *)
Fixpoint assoc_last (k : string) (d : list (string * value)) : option value :=
  match d with
  | [] => None
  | (k', v) :: r =>
      match assoc_last k r with
      | Some v' => Some v'
      | None => if String.eqb k k' then Some v else None
      end
  end.

(** [d.get(k, default)]; only a dict has [get]. *)
Definition get (d : value) (k : string) (default : value) : Result value :=
  match d with
  | VDict m => Ok (match assoc_last k m with Some v => v | None => default end)
  | _ => Raise AttributeError
  end.

(** [v[k]] for a string key. *)
Definition getitem (v : value) (k : string) : Result value :=
  match v with
  | VDict m => match assoc_last k m with Some x => Ok x | None => Raise KeyError end
  | _ => Raise TypeError
  end.

(** [v[0]] *)
Definition getitem0 (v : value) : Result value :=
  match v with
  | VList (x :: _) => Ok x
  | VList [] => Raise IndexError
  | VStr (String c _) => Ok (VStr (String c EmptyString))
  | VStr EmptyString => Raise IndexError
  | VDict _ => Raise KeyError
  | _ => Raise TypeError
  end.

End PyVal.

(* ===================================================================== *)
(** ** json.loads *)
(* ===================================================================== *)

(** The decoder of Python's [json] module in its default (strict) mode:
    scanner, string, array and object readers, and the top-level
    [decode] that allows white space around the one document.  Escapes
    [\uXXXX] above code point 255 are outside the string model and are
    reported as [Unmodelled]. *)
Module Json.

(** The double quote character. *)
Definition dq : ascii := ascii_of_nat 34.

Definition is_ws (c : ascii) : bool :=
  let n := nat_of_ascii c in
  ((n =? 32) || (n =? 9) || (n =? 10) || (n =? 13))%nat.

Fixpoint skip_ws (s : string) : string :=
  match s with
  | String c r => if is_ws c then skip_ws r else s
  | EmptyString => EmptyString
  end.

(** [s] starts with [p]: the rest after it. *)
Fixpoint strip_prefix (p s : string) : option string :=
  match p, s with
  | EmptyString, _ => Some s
  | String a p', String b s' => if Ascii.eqb a b then strip_prefix p' s' else None
  | _, _ => None
  end.

Definition hex_val (c : ascii) : option nat :=
  let n := nat_of_ascii c in
  if ((48 <=? n) && (n <=? 57))%nat then Some (n - 48)%nat
  else if ((65 <=? n) && (n <=? 70))%nat then Some (n - 55)%nat
  else if ((97 <=? n) && (n <=? 102))%nat then Some (n - 87)%nat
  else None.

(** The code point spelt by the four hex digits of a [\u] escape. *)
Definition hex4 (a b c d : ascii) : option nat :=
  match hex_val a, hex_val b, hex_val c, hex_val d with
  | Some x, Some y, Some z, Some w =>
      Some (((x * 16 + y) * 16 + z) * 16 + w)%nat
  | _, _, _, _ => None
  end.

(** [py_scanstring], entered after the opening quote. *)
Fixpoint scan_string (s : string) : Result (string * string) :=
  match s with
  | EmptyString => Raise JSONDecodeError
  | String c r =>
      if Ascii.eqb c dq then Ok (EmptyString, r)
      else if Ascii.eqb c "\" then
        match r with
        | String e r' =>
            let simple (x : ascii) :=
              match scan_string r' with
              | Ok (t, rest) => Ok (String x t, rest)
              | other => other
              end in
            if Ascii.eqb e dq then simple dq
            else if Ascii.eqb e "\" then simple "\"%char
            else if Ascii.eqb e "/" then simple "/"%char
            else if Ascii.eqb e "b" then simple (ascii_of_nat 8)
            else if Ascii.eqb e "f" then simple (ascii_of_nat 12)
            else if Ascii.eqb e "n" then simple (ascii_of_nat 10)
            else if Ascii.eqb e "r" then simple (ascii_of_nat 13)
            else if Ascii.eqb e "t" then simple (ascii_of_nat 9)
            else if Ascii.eqb e "u" then
              match r' with
              | String a (String b (String c (String d r4))) =>
                  match hex4 a b c d with
                  | Some n =>
                      if (n <? 256)%nat then
                        match scan_string r4 with
                        | Ok (t, rest) => Ok (String (ascii_of_nat n) t, rest)
                        | other => other
                        end
                      else Raise (Unmodelled "code point above 255")
                  | None => Raise JSONDecodeError
                  end
              | _ => Raise JSONDecodeError
              end
            else Raise JSONDecodeError
        | EmptyString => Raise JSONDecodeError
        end
      else if (nat_of_ascii c <? 32)%nat then Raise JSONDecodeError
      else match scan_string r with
           | Ok (t, rest) => Ok (String c t, rest)
           | other => other
           end
  end.

(** The number pattern: an optional minus, then 0 or a digit string
    without leading zero, then optionally a dot with digits, then
    optionally e or E with an optional sign and digits.  An integer
    literal gives an [int], one with a fraction or exponent a [float]. *)
Definition scan_number (s : string) : option (value * string) :=
  let (neg, s1) :=
    match s with String "-" r => (true, r) | _ => (false, s) end in
  let int_part :=
    match s1 with
    | String "0" r => Some ("0", r)
    | String c r =>
        if PyStr.is_digit c
        then let (d, t) := PyStr.span_digits r in Some (String c d, t)
        else None
    | EmptyString => None
    end in
  match int_part with
  | None => None
  | Some (ip, s2) =>
      let (frac, s3) :=
        match s2 with
        | String "." r =>
            let (d, t) := PyStr.span_digits r in
            match d with
            | EmptyString => (EmptyString, s2)
            | _ => (String "." d, t)
            end
        | _ => (EmptyString, s2)
        end in
      let (ex, s4) :=
        match s3 with
        | String e r =>
            if Ascii.eqb e "e" || Ascii.eqb e "E" then
              let (sg, r1) :=
                match r with
                | String "-" q => ("-", q)
                | String "+" q => ("+", q)
                | _ => (EmptyString, r)
                end in
              let (d, t) := PyStr.span_digits r1 in
              match d with
              | EmptyString => (EmptyString, s3)
              | _ => (String e (sg ++ d), t)
              end
            else (EmptyString, s3)
        | EmptyString => (EmptyString, s3)
        end in
      let sign := if neg then "-" else EmptyString in
      match frac, ex with
      | EmptyString, EmptyString =>
          let n := PyStr.digits_value 0 ip in
          Some (VInt (if neg then - n else n), s4)
      | _, _ => Some (VFloat (sign ++ ip ++ frac ++ ex), s4)
      end
  end.

(** The scanner's [_scan_once] with [JSONArray] and [JSONObject]; each
    call consumes at least one character of [s], which bounds [fuel]. *)
Fixpoint scan_once (fuel : nat) (s : string) : Result (value * string) :=
  match fuel with
  | O => OutOfFuel
  | S fuel' =>
      let fix array_items (n : nat) (s : string) {struct n}
        : Result (list value * string) :=
        match n with
        | O => OutOfFuel
        | S n' =>
            match scan_once fuel' s with
            | Ok (v, r) =>
                match skip_ws r with
                | String "]" r' => Ok ([v], r')
                | String "," r' =>
                    match array_items n' (skip_ws r') with
                    | Ok (vs, rest) => Ok (v :: vs, rest)
                    | Raise e => Raise e
                    | OutOfFuel => OutOfFuel
                    end
                | _ => Raise JSONDecodeError
                end
            | Raise e => Raise e
            | OutOfFuel => OutOfFuel
            end
        end in
      let fix object_members (n : nat) (s : string) {struct n}
        : Result (list (string * value) * string) :=
        match n with
        | O => OutOfFuel
        | S n' =>
            match strip_prefix (String dq EmptyString) s with
            | Some r0 =>
                match scan_string r0 with
                | Ok (k, r1) =>
                    match skip_ws r1 with
                    | String ":" r2 =>
                        match scan_once fuel' (skip_ws r2) with
                        | Ok (v, r3) =>
                            match skip_ws r3 with
                            | String "}" r4 => Ok ([(k, v)], r4)
                            | String "," r4 =>
                                match object_members n' (skip_ws r4) with
                                | Ok (ms, rest) => Ok ((k, v) :: ms, rest)
                                | Raise e => Raise e
                                | OutOfFuel => OutOfFuel
                                end
                            | _ => Raise JSONDecodeError
                            end
                        | Raise e => Raise e
                        | OutOfFuel => OutOfFuel
                        end
                    | _ => Raise JSONDecodeError
                    end
                | Raise e => Raise e
                | OutOfFuel => OutOfFuel
                end
            | None => Raise JSONDecodeError
            end
        end in
      match s with
      | EmptyString => Raise JSONDecodeError
      | String c r =>
          if Ascii.eqb c dq then
            match scan_string r with
            | Ok (t, rest) => Ok (VStr t, rest)
            | Raise e => Raise e
            | OutOfFuel => OutOfFuel
            end
          else if Ascii.eqb c "{" then
            match skip_ws r with
            | String "}" r' => Ok (VDict [], r')
            | r' =>
                match object_members fuel' r' with
                | Ok (ms, rest) => Ok (VDict ms, rest)
                | Raise e => Raise e
                | OutOfFuel => OutOfFuel
                end
            end
          else if Ascii.eqb c "[" then
            match skip_ws r with
            | String "]" r' => Ok (VList [], r')
            | r' =>
                match array_items fuel' r' with
                | Ok (vs, rest) => Ok (VList vs, rest)
                | Raise e => Raise e
                | OutOfFuel => OutOfFuel
                end
            end
          else
            match strip_prefix "null" s, strip_prefix "true" s,
                  strip_prefix "false" s with
            | Some rest, _, _ => Ok (VNone, rest)
            | _, Some rest, _ => Ok (VBool true, rest)
            | _, _, Some rest => Ok (VBool false, rest)
            | None, None, None =>
                match scan_number s with
                | Some res => Ok res
                | None =>
                    match strip_prefix "NaN" s, strip_prefix "Infinity" s,
                          strip_prefix "-Infinity" s with
                    | Some rest, _, _ => Ok (VFloat "NaN", rest)
                    | _, Some rest, _ => Ok (VFloat "Infinity", rest)
                    | _, _, Some rest => Ok (VFloat "-Infinity", rest)
                    | None, None, None => Raise JSONDecodeError
                    end
                end
            end
      end
  end.

(** [json.loads(s)]: one document, white space allowed around it, any
    other trailing text is "Extra data". *)
Definition loads (s : string) : Result value :=
  match scan_once (S (String.length s)) (skip_ws s) with
  | Ok (v, rest) =>
      match skip_ws rest with
      | EmptyString => Ok v
      | _ => Raise JSONDecodeError
      end
  | Raise e => Raise e
  | OutOfFuel => OutOfFuel
  end.

End Json.

Definition nl : string := String (ascii_of_nat 10) EmptyString.

(** Test texts are written with ' for the double quote. *)
Fixpoint q (s : string) : string :=
  match s with
  | EmptyString => EmptyString
  | String c r => String (if Ascii.eqb c "'" then Json.dq else c) (q r)
  end.

Module PyFmt.

(** [str(v)], as an f-string field renders it. *)
Definition str (v : value) : Result string :=
  match v with
  | VStr s => Ok s
  | VNone => Ok "None"
  | VBool true => Ok "True"
  | VBool false => Ok "False"
  | VInt n => Ok (PyStr.str_of_int n)
  | VFloat _ => Raise (Unmodelled "str of a float")
  | VList _ => Raise (Unmodelled "str of a list")
  | VDict _ => Raise (Unmodelled "str of a dict")
  end.

End PyFmt.

(* ===================================================================== *)
(** ** The world: clock, server, trace *)
(* ===================================================================== *)

Inductive Method : Type := GET | POST.

Record Request : Type := mkRequest {
  method : Method;
  url : string;
  params : list (string * Z);
  req_headers : list (string * string);
  json_body : option value
}.

Record Response : Type := mkResponse {
  status_code : Z;
  text : string;
  headers : list (string * string)
}.

(** What comes back from one exchange: a response or a transport failure
    of the class [httpx.RequestError] (connection, timeout and protocol
    errors), after [latency] seconds.  An exception of the client outside
    that class, raised before anything is sent, is not among the
    outcomes. *)
Inductive Reply : Type :=
| Responded (r : Response)
| Failed (msg : string).

Record Exchange : Type := mkExchange {
  latency : N;
  reply : Reply
}.

Inductive Event : Type :=
| Sent (r : Request)
| Slept (d : Z).

Fixpoint requests (t : list Event) : list Request :=
  match t with
  | [] => []
  | Sent r :: t' => r :: requests t'
  | Slept _ :: t' => requests t'
  end.

Fixpoint sleeps (t : list Event) : list Z :=
  match t with
  | [] => []
  | Sent _ :: t' => sleeps t'
  | Slept d :: t' => d :: sleeps t'
  end.

(** The mutable state a call can touch: the clock, the trace of effects,
    and the two fields of the [TokenManager].  [server] never changes; it
    answers a request from the list of all requests sent so far, oldest
    first, the current one last. *)
Record State : Type := mkState {
  now : Z;
  server : list Request -> Exchange;
  trace : list Event;
  _token : value;
  _expires_at : Z
}.

Definition set_now (t : Z) (s : State) : State :=
  mkState t (server s) (trace s) (_token s) (_expires_at s).

Definition log (e : Event) (s : State) : State :=
  mkState (now s) (server s) (trace s ++ [e]) (_token s) (_expires_at s).

Definition set_token (v : value) (s : State) : State :=
  mkState (now s) (server s) (trace s) v (_expires_at s).

Definition set_expires_at (t : Z) (s : State) : State :=
  mkState (now s) (server s) (trace s) (_token s) t.

(* ===================================================================== *)
(** ** State and exception monad *)
(* ===================================================================== *)

Definition M (S A : Type) : Type := S -> Result A * S.

Definition ret {S A} (a : A) : M S A := fun s => (Ok a, s).

Definition bind {S A B} (m : M S A) (k : A -> M S B) : M S B :=
  fun s =>
    match m s with
    | (Ok a, s') => k a s'
    | (Raise e, s') => (Raise e, s')
    | (OutOfFuel, s') => (OutOfFuel, s')
    end.

Definition raise {S A} (e : exn) : M S A := fun s => (Raise e, s).

Definition gets {S A} (f : S -> A) : M S A := fun s => (Ok (f s), s).

Definition modify {S} (f : S -> S) : M S unit := fun s => (Ok tt, f s).

(** A pure step that may raise. *)
Definition lift {S A} (r : Result A) : M S A := fun s => (r, s).

(** [try: m  except ...: h e]; [h] answers [None] for the exceptions the
    clauses do not name. *)
Definition try_except {S A} (m : M S A) (h : exn -> option (M S A)) : M S A :=
  fun s =>
    match m s with
    | (Raise e, s') =>
        match h e with
        | Some handler => handler s'
        | None => (Raise e, s')
        end
    | other => other
    end.

Declare Scope monad_scope.
Delimit Scope monad_scope with monad.
Notation "x <- m ;; k" := (bind m (fun x => k))
  (at level 61, m at next level, right associativity) : monad_scope.
Notation "m ;; k" := (bind m (fun _ => k))
  (at level 61, right associativity) : monad_scope.
Open Scope monad_scope.

(* ===================================================================== *)
(** ** HTTP transport *)
(* ===================================================================== *)

(** [time.time()] *)
Definition time_time : M State Z := gets now.

(** [await asyncio.sleep(d)]: the clock moves by [d], not backwards. *)
Definition sleep (d : Z) : M State unit :=
  modify (fun s => log (Slept d) (set_now (now s + Z.max 0 d) s)).

(** One request/response exchange of the [httpx] client, for a request
    the client accepts: the call is logged, the server answers from the
    history, the clock moves by the latency. *)
Definition send (req : Request) : M State Response :=
  fun s =>
    let s1 := log (Sent req) s in
    let ex := server s (requests (trace s1)) in
    let s2 := set_now (now s + Z.of_N (latency ex)) s1 in
    match reply ex with
    | Responded r => (Ok r, s2)
    | Failed msg => (Raise (RequestError msg), s2)
    end.

Definition client_get (u : string) (ps : list (string * Z))
    (hs : list (string * string)) : M State Response :=
  send (mkRequest GET u ps hs None).

Definition client_post (u : string) (body : value)
    (hs : list (string * string)) : M State Response :=
  send (mkRequest POST u [] hs (Some body)).

(** [response.is_success] *)
Definition is_success (r : Response) : bool :=
  (200 <=? status_code r) && (status_code r <=? 299).

(** [response.raise_for_status()] *)
Definition raise_for_status {S} (r : Response) : M S unit :=
  if is_success r then ret tt
  else raise (HTTPStatusError (status_code r) (text r)).

(** [response.json()] *)
Definition response_json {S} (r : Response) : M S value :=
  lift (Json.loads (text r)).

(** [response.headers.get(name)]: names compare without case, repeated
    headers are joined with a comma and a space. *)
Definition headers_get (r : Response) (name : string) : option string :=
  match
    map snd
      (filter (fun kv => String.eqb (PyStr.lower (fst kv)) (PyStr.lower name))
         (headers r))
  with
  | [] => None
  | vs => Some (PyStr.join ", " vs)
  end.

(** [{**headers, key: val}] on string dicts kept as association lists. *)
Definition dict_set (d : list (string * string)) (k v : string)
  : list (string * string) :=
  if existsb (fun kv => String.eqb (fst kv) k) d
  then map (fun kv => if String.eqb (fst kv) k then (k, v) else kv) d
  else d ++ [(k, v)].

(* ===================================================================== *)
(** ** config.py *)
(* ===================================================================== *)

Record CriblSettings : Type := mkSettings {
  client_id : string;
  client_secret : string;
  org_id : string;
  workspace : string;
  auth_url : string
}.

Definition default_auth_url : string := "https://login.cribl.cloud/oauth/token".

Definition api_base_url (c : CriblSettings) : string :=
  "https://" ++ workspace c ++ "-" ++ org_id c
  ++ ".cribl.cloud/api/v1/m/default_search".

(* ===================================================================== *)
(** ** auth.py: TokenManager *)
(* ===================================================================== *)

Definition REFRESH_BUFFER_SECONDS : Z := 300.

(** Property [_is_token_valid]. *)
Definition _is_token_valid : M State bool :=
  tok <- gets _token ;;
  match tok with
  | VNone => ret false
  | _ =>
      t <- time_time ;;
      e <- gets _expires_at ;;
      ret (t <? e - REFRESH_BUFFER_SECONDS)
  end.

(** [t + v] for the instant [t] and a decoded JSON value. *)
Definition add_seconds (t : Z) (v : value) : Result Z :=
  match v with
  | VInt n => Ok (t + n)
  | VBool b => Ok (t + (if b then 1 else 0))
  | VFloat _ => Raise (Unmodelled "float arithmetic")
  | _ => Raise TypeError
  end.

Definition _authenticate (settings : CriblSettings) : M State unit :=
  let payload := VDict [
    ("grant_type", VStr "client_credentials");
    ("client_id", VStr (client_id settings));
    ("client_secret", VStr (client_secret settings));
    ("audience", VStr "https://api.cribl.cloud")] in
  response <-
    try_except
      (response <- client_post (auth_url settings) payload
                     [("Content-Type", "application/json")] ;;
       raise_for_status response ;;
       ret response)
      (fun e =>
         match e with
         | HTTPStatusError code body =>
             Some (raise (AuthenticationError
                            ("Authentication failed: " ++ PyStr.str_of_int code
                             ++ " - " ++ body)))
         | RequestError msg =>
             Some (raise (AuthenticationError
                            ("Authentication request failed: " ++ msg)))
         | _ => None
         end) ;;
  data <- response_json response ;;
  tok <- lift (PyVal.getitem data "access_token") ;;
  modify (set_token tok) ;;
  t <- time_time ;;
  ttl <- lift (PyVal.get data "expires_in" (VInt 86400)) ;;
  e <- lift (add_seconds t ttl) ;;
  modify (set_expires_at e).

Definition get_token (settings : CriblSettings) : M State value :=
  valid <- _is_token_valid ;;
  (if negb valid then _authenticate settings else ret tt) ;;
  gets _token.

Definition clear : M State unit :=
  modify (set_token VNone) ;;
  modify (set_expires_at 0).

(* ===================================================================== *)
(** ** job.py: JobStatus and SearchJob *)
(* ===================================================================== *)

Inductive JobStatus : Type := NEW | QUEUED | RUNNING | COMPLETED | FAILED | CANCELED.

Definition JobStatus_eqb (a b : JobStatus) : bool :=
  match a, b with
  | NEW, NEW | QUEUED, QUEUED | RUNNING, RUNNING
  | COMPLETED, COMPLETED | FAILED, FAILED | CANCELED, CANCELED => true
  | _, _ => false
  end.

(** [JobStatus(v)]: lookup of the member by value. *)
Definition JobStatus_of_value (v : value) : Result JobStatus :=
  match v with
  | VStr s =>
      if String.eqb s "new" then Ok NEW
      else if String.eqb s "queued" then Ok QUEUED
      else if String.eqb s "running" then Ok RUNNING
      else if String.eqb s "completed" then Ok COMPLETED
      else if String.eqb s "failed" then Ok FAILED
      else if String.eqb s "canceled" then Ok CANCELED
      else Raise ValueError
  | _ => Raise ValueError
  end.

(** The dataclass, without its back reference to the client.
    [record_count] is [VNone] until a poll sets it. *)
Record SearchJob : Type := mkJob {
  id : string;
  status : JobStatus;
  record_count : value
}.

Definition new_job (job_id : string) : SearchJob := mkJob job_id NEW VNone.

Definition set_status (st : JobStatus) (j : SearchJob) : SearchJob :=
  mkJob (id j) st (record_count j).

Definition set_record_count (v : value) (j : SearchJob) : SearchJob :=
  mkJob (id j) (status j) v.

(* ===================================================================== *)
(** ** client.py: SearchClient *)
(* ===================================================================== *)

Definition _get_headers (settings : CriblSettings)
  : M State (list (string * string)) :=
  token <- get_token settings ;;
  bearer <- lift (PyFmt.str token) ;;
  ret [("Authorization", "Bearer " ++ bearer);
       ("Content-Type", "application/json")].

(** [int(response.headers.get("Retry-After", 60))] *)
Definition retry_after_of (r : Response) : Result Z :=
  match headers_get r "Retry-After" with
  | None => Ok 60
  | Some v =>
      match PyStr.int_of_str v with
      | Some n => Ok n
      | None => Raise ValueError
      end
  end.

Definition submit_async (settings : CriblSettings)
    (query earliest latest : string) : M State SearchJob :=
  headers <- _get_headers settings ;;
  let payload := VDict [
    ("query", VStr query);
    ("earliest", VStr earliest);
    ("latest", VStr latest);
    ("sampleRate", VInt 1)] in
  let url := api_base_url settings ++ "/search/jobs" in
  response <- client_post url payload headers ;;
  (if status_code response =? 400
   then raise (QuerySyntaxError ("Invalid query: " ++ text response))
   else ret tt) ;;
  (if status_code response =? 429
   then retry_after <- lift (retry_after_of response) ;;
        raise (RateLimitError "Rate limit exceeded" retry_after)
   else ret tt) ;;
  raise_for_status response ;;
  data <- response_json response ;;
  items <- lift (PyVal.getitem data "items") ;;
  item <- lift (PyVal.getitem0 items) ;;
  job_id <- lift (PyVal.getitem item "id") ;;
  match job_id with
  | VStr s => ret (new_job s)
  | _ => raise (Unmodelled "job id that is not a string")
  end.

(** The two objects [_wait_for_job] works on: the client with its world,
    and the job it was handed. *)
Definition Poll : Type := (State * SearchJob)%type.

Definition on_client {A} (m : M State A) : M Poll A :=
  fun p =>
    let (r, s') := m (fst p) in (r, (s', snd p)).

Definition the_job : M Poll SearchJob := gets snd.

Definition update_job (f : SearchJob -> SearchJob) : M Poll unit :=
  modify (fun p => (fst p, f (snd p))).

Inductive LoopControl : Type := Continue | Return.

Definition status_url (settings : CriblSettings) (job_id : string) : string :=
  api_base_url settings ++ "/search/jobs/" ++ job_id ++ "/status".

Definition timeout_message (job_id : string) (timeout : Z) : string :=
  "Job " ++ job_id ++ " did not complete within "
  ++ PyStr.str_of_int timeout ++ " seconds".

(** Body of the [while True] loop of [_wait_for_job]. *)
Definition wait_iteration (url : string) (headers : list (string * string))
    (start_time poll_interval timeout : Z) : M Poll LoopControl :=
  t <- on_client time_time ;;
  job <- the_job ;;
  (if t - start_time >? timeout
   then raise (JobTimeoutError (timeout_message (id job) timeout))
   else ret tt) ;;
  response <- on_client (client_get url [] headers) ;;
  raise_for_status response ;;
  data <- response_json response ;;
  items <- lift (PyVal.getitem data "items") ;;
  item <- lift (PyVal.getitem0 items) ;;
  status_str <- lift (PyVal.getitem item "status") ;;
  st <- lift (JobStatus_of_value status_str) ;;
  update_job (set_status st) ;;
  match st with
  | COMPLETED =>
      n <- lift (PyVal.get item "numEvents" (VInt 0)) ;;
      update_job (set_record_count n) ;;
      ret Return
  | FAILED =>
      error_msg <- lift (PyVal.get item "error" (VStr "Unknown error")) ;;
      raise (JobFailedError error_msg (id job))
  | CANCELED =>
      raise (JobFailedError (VStr "Job was canceled") (id job))
  | _ =>
      on_client (sleep poll_interval) ;;
      ret Continue
  end.

Fixpoint wait_loop (fuel : nat) (url : string) (headers : list (string * string))
    (start_time poll_interval timeout : Z) : M Poll unit :=
  match fuel with
  | O => lift OutOfFuel
  | S fuel' =>
      c <- wait_iteration url headers start_time poll_interval timeout ;;
      match c with
      | Return => ret tt
      | Continue => wait_loop fuel' url headers start_time poll_interval timeout
      end
  end.

Definition _wait_for_job (settings : CriblSettings)
    (poll_interval timeout : Z) (fuel : nat) : M Poll unit :=
  start_time <- on_client time_time ;;
  headers <- on_client (_get_headers settings) ;;
  job <- the_job ;;
  let url := status_url settings (id job) in
  wait_loop fuel url headers start_time poll_interval timeout.

(* ===================================================================== *)
(** ** pagination.py *)
(* ===================================================================== *)

(** The [for line in lines[1:]] loop: the records yielded, in order, and
    how the loop ended.  A line that does not decode ends it with the
    decoder's exception, after the records before it were yielded. *)
Fixpoint yield_records (lines : list string) : list value * Result unit :=
  match lines with
  | [] => ([], Ok tt)
  | line :: rest =>
      if PyStr.truthy (PyStr.strip line) then
        match Json.loads line with
        | Ok v => let (ys, r) := yield_records rest in (v :: ys, r)
        | Raise e => ([], Raise e)
        | OutOfFuel => ([], OutOfFuel)
        end
      else yield_records rest
  end.

(** [total_count is None or offset >= total_count] *)
Definition exhausted (total_count : value) (offset : Z) : Result bool :=
  match total_count with
  | VNone => Ok true
  | VInt n => Ok (offset >=? n)
  | VBool b => Ok (offset >=? (if b then 1 else 0))
  | VFloat _ => Raise (Unmodelled "float comparison")
  | _ => Raise TypeError
  end.

(** [response.text.strip().split("\n")] *)
Definition page_lines (r : Response) : list string :=
  PyStr.split (ascii_of_nat 10) (PyStr.strip (text r)).

(** What the generator has done when it stops: the records it yielded, in
    order, how it ended, and the state it left. *)
Definition Generated : Type := (list value * Result unit * State)%type.

(** The async generator [paginate_results], consumed to its end.  The
    variable [total_count] of the source is assigned on every page before
    it is read, so the loop carries [offset] only. *)
Fixpoint paginate_loop (fuel : nat) (url : string)
    (headers : list (string * string)) (page_size offset : Z) (s : State)
  : Generated :=
  match fuel with
  | O => ([], OutOfFuel, s)
  | S fuel' =>
      let fetch :=
        response <- client_get url [("limit", page_size); ("offset", offset)]
                      (dict_set headers "Accept" "application/x-ndjson") ;;
        raise_for_status response ;;
        ret response in
      match fetch s with
      | (Raise e, s1) => ([], Raise e, s1)
      | (OutOfFuel, s1) => ([], OutOfFuel, s1)
      | (Ok response, s1) =>
          match page_lines response with
          | [] => ([], Ok tt, s1)
          | first :: rest =>
              match Json.loads first with
              | Raise e => ([], Raise e, s1)
              | OutOfFuel => ([], OutOfFuel, s1)
              | Ok metadata =>
                  match PyVal.get metadata "totalEventCount" (VInt 0) with
                  | Raise e => ([], Raise e, s1)
                  | OutOfFuel => ([], OutOfFuel, s1)
                  | Ok total_count =>
                      match yield_records rest with
                      | (ys, Raise e) => (ys, Raise e, s1)
                      | (ys, OutOfFuel) => (ys, OutOfFuel, s1)
                      | (ys, Ok _) =>
                          let offset' := offset + page_size in
                          match exhausted total_count offset' with
                          | Raise e => (ys, Raise e, s1)
                          | OutOfFuel => (ys, OutOfFuel, s1)
                          | Ok true => (ys, Ok tt, s1)
                          | Ok false =>
                              let '(ys', r, s2) :=
                                paginate_loop fuel' url headers page_size
                                  offset' s1 in
                              ((ys ++ ys')%list, r, s2)
                          end
                      end
                  end
              end
          end
      end
  end.

Definition paginate_results (fuel : nat) (url : string)
    (headers : list (string * string)) (page_size : Z) (s : State)
  : Generated :=
  paginate_loop fuel url headers page_size 0 s.

Definition default_page_size : Z := 1000.

(** [SearchClient._stream_by_id] of client.py, which sits on top of
    the pager. *)
(** The generator, consumed to its end. *)
Definition _stream_by_id (settings : CriblSettings) (job_id : string)
    (fuel : nat) (s : State) : Generated :=
  match _get_headers settings s with
  | (Ok headers, s1) =>
      paginate_results fuel
        (api_base_url settings ++ "/search/jobs/" ++ job_id ++ "/results")
        headers default_page_size s1
  | (Raise e, s1) => ([], Raise e, s1)
  | (OutOfFuel, s1) => ([], OutOfFuel, s1)
  end.

(* ===================================================================== *)
(** ** Fixtures: the servers of the test suite *)
(* ===================================================================== *)

Module Fixtures.

Definition settings : CriblSettings :=
  mkSettings "test-client-id" "test-client-secret" "test-org" "test-workspace"
    default_auth_url.

Definition respond (code : Z) (body : string) : Exchange :=
  mkExchange 0 (Responded (mkResponse code body [])).

(** A server that gives the same answer to every request. *)
Definition always (ex : Exchange) : list Request -> Exchange := fun _ => ex.

(** A server that plays a script, one entry per request, and fails the
    transport once the script is over. *)
Definition scripted (script : list Exchange) : list Request -> Exchange :=
  fun history =>
    nth (List.length history - 1)%nat script
      (mkExchange 0 (Failed "script exhausted")).

(** A fresh client at instant [t0]: nothing sent, no token cached. *)
Definition fresh (t0 : Z) (srv : list Request -> Exchange) : State :=
  mkState t0 srv [] VNone 0.

(** A client holding the token [tok], good until [expiry]. *)
Definition holding (t0 : Z) (srv : list Request -> Exchange)
    (tok : string) (expiry : Z) : State :=
  mkState t0 srv [] (VStr tok) expiry.

Definition token_body : string :=
  q "{'access_token': 'mock-token', 'expires_in': 86400}".

Definition page1 : string :=
  q "{'isFinished':false,'totalEventCount':3,'offset':0}" ++ nl
  ++ q "{'id':1}" ++ nl ++ q "{'id':2}" ++ nl.

Definition page2 : string :=
  q "{'isFinished':true,'totalEventCount':3,'offset':2}" ++ nl
  ++ q "{'id':3}" ++ nl.

Definition blank_lines_page : string :=
  q "{'isFinished':true,'totalEventCount':2,'offset':0}" ++ nl ++ nl
  ++ q "{'id':1}" ++ nl ++ nl ++ q "{'id':2}" ++ nl ++ nl.

Definition running_body : string := q "{'items': [{'status': 'running'}]}".

Definition completed_body : string :=
  q "{'items': [{'status': 'completed', 'numEvents': 10}]}".

Definition failed_body : string :=
  q "{'items': [{'status': 'failed', 'error': 'Dataset not found'}]}".

Definition canceled_body : string := q "{'items': [{'status': 'canceled'}]}".

Definition results_url : string := "https://api.example.com/results".

(** The server of the polling test: a token, then running, running,
    completed. *)
Definition polling_script : list Exchange :=
  [respond 200 token_body;
   respond 200 running_body;
   respond 200 running_body;
   respond 200 completed_body].

End Fixtures.

(* ********************************************************************* *)
(** * Vocabulary of the properties *)
(* ********************************************************************* *)

(* ===================================================================== *)
(** ** The requests the client sends *)
(* ===================================================================== *)

(** The request the pager sends for the page at [offset]. *)
Definition page_request (url : string) (headers : list (string * string))
    (page_size offset : Z) : Request :=
  mkRequest GET url [("limit", page_size); ("offset", offset)]
    (dict_set headers "Accept" "application/x-ndjson") None.

(* ===================================================================== *)
(** ** Pager: one page, and the walk over the pages *)
(* ===================================================================== *)

(** [line.strip()] is truthy. *)
Definition nonblank (line : string) : bool := PyStr.truthy (PyStr.strip line).

(** What the loop does once a page has been read, given the total its
    metadata reported, the records it yielded and the offset of the next
    page. *)
Definition after_page (fuel : nat) (url : string)
    (headers : list (string * string)) (page_size next_offset : Z)
    (total : value) (ys : list value) (s1 : State) : Generated :=
  match exhausted total next_offset with
  | Ok true => (ys, Ok tt, s1)
  | Ok false =>
      let '(ys', r, s2) := paginate_loop fuel url headers page_size next_offset s1 in
      ((ys ++ ys')%list, r, s2)
  | Raise e => (ys, Raise e, s1)
  | OutOfFuel => (ys, OutOfFuel, s1)
  end.

(* ===================================================================== *)
(** ** Token cache *)
(* ===================================================================== *)

(** The request [_authenticate] posts to the auth endpoint. *)
Definition auth_request (settings : CriblSettings) : Request :=
  mkRequest POST (auth_url settings) []
    [("Content-Type", "application/json")]
    (Some (VDict [
       ("grant_type", VStr "client_credentials");
       ("client_id", VStr (client_id settings));
       ("client_secret", VStr (client_secret settings));
       ("audience", VStr "https://api.cribl.cloud")])).

(** A token is cached and the clock is more than the refresh buffer away
    from its expiry. *)
Definition token_usable (s : State) : Prop :=
  _token s <> VNone /\ now s < _expires_at s - 300.

(* ===================================================================== *)
(** ** Submission *)
(* ===================================================================== *)

(** The request [submit_async] posts. *)
Definition submit_request (settings : CriblSettings)
    (query earliest latest : string) (headers : list (string * string))
  : Request :=
  mkRequest POST (api_base_url settings ++ "/search/jobs") [] headers
    (Some (VDict [
       ("query", VStr query);
       ("earliest", VStr earliest);
       ("latest", VStr latest);
       ("sampleRate", VInt 1)])).

(* ===================================================================== *)
(** ** Polling *)
(* ===================================================================== *)

(** The GET of one poll. *)
Definition status_request (url : string) (headers : list (string * string))
  : Request :=
  mkRequest GET url [] headers None.

Definition and_then {A B} (r : Result A) (k : A -> Result B) : Result B :=
  match r with
  | Ok a => k a
  | Raise e => Raise e
  | OutOfFuel => OutOfFuel
  end.

(** What a poll reads in a status response: [data["items"][0]] and the
    [JobStatus] its ["status"] names, or the exception the reading raises. *)
Definition status_report (resp : Response) : Result (value * JobStatus) :=
  if is_success resp then
    and_then (Json.loads (text resp)) (fun data =>
    and_then (PyVal.getitem data "items") (fun items =>
    and_then (PyVal.getitem0 items) (fun item =>
    and_then (PyVal.getitem item "status") (fun status_str =>
    and_then (JobStatus_of_value status_str) (fun st =>
    Ok (item, st))))))
  else Raise (HTTPStatusError (status_code resp) (text resp)).

(** What the loop body does with a report, in state [s1] reached after the
    exchange. *)
Definition after_report (poll_interval : Z) (s1 : State) (job : SearchJob)
    (report : Result (value * JobStatus)) : Result LoopControl * Poll :=
  match report with
  | Ok (item, COMPLETED) =>
      match PyVal.get item "numEvents" (VInt 0) with
      | Ok n => (Ok Return, (s1, mkJob (id job) COMPLETED n))
      | Raise e => (Raise e, (s1, set_status COMPLETED job))
      | OutOfFuel => (OutOfFuel, (s1, set_status COMPLETED job))
      end
  | Ok (item, FAILED) =>
      match PyVal.get item "error" (VStr "Unknown error") with
      | Ok msg => (Raise (JobFailedError msg (id job)), (s1, set_status FAILED job))
      | Raise e => (Raise e, (s1, set_status FAILED job))
      | OutOfFuel => (OutOfFuel, (s1, set_status FAILED job))
      end
  | Ok (_, CANCELED) =>
      (Raise (JobFailedError (VStr "Job was canceled") (id job)),
       (s1, set_status CANCELED job))
  | Ok (_, st) => (Ok Continue, (snd (sleep poll_interval s1), set_status st job))
  | Raise e => (Raise e, (s1, job))
  | OutOfFuel => (OutOfFuel, (s1, job))
  end.

(* ===================================================================== *)
(** ** What no operation does: change the server or rewrite the trace *)
(* ===================================================================== *)

(** [s'] comes after [s]: same server, the trace grown at its end. *)
Definition extends (s s' : State) : Prop :=
  server s' = server s /\ exists t, trace s' = (trace s ++ t)%list.

(** A computation every run of which ends in a state that extends the one
    it started in. *)
Definition steady {A} (m : M State A) : Prop :=
  forall s, extends s (snd (m s)).

(* ===================================================================== *)
(** ** Job status over a sequence of operations *)
(* ===================================================================== *)

Definition terminal (st : JobStatus) : bool :=
  match st with
  | COMPLETED | FAILED | CANCELED => true
  | _ => false
  end.

(** Place along NEW, QUEUED, RUNNING, then the terminal statuses. *)
Definition rank (st : JobStatus) : nat :=
  match st with
  | NEW => 0
  | QUEUED => 1
  | RUNNING => 2
  | COMPLETED | FAILED | CANCELED => 3
  end.

(** [b] is [a], or lies further along the line than [a]; a terminal status
    is before nothing. *)
Definition forward (a b : JobStatus) : bool :=
  JobStatus_eqb a b || (rank a <? rank b)%nat.

(** The operations a caller can run on a client and one of its jobs. *)
Inductive ClientOp : Type :=
| OpWait (poll_interval timeout : Z) (fuel : nat)
| OpStream (fuel : nat)
| OpSubmit (query earliest latest : string)
| OpClear.

Definition run_op (settings : CriblSettings) (op : ClientOp) (p : Poll) : Poll :=
  match op with
  | OpWait poll_interval timeout fuel =>
      snd (_wait_for_job settings poll_interval timeout fuel p)
  | OpStream fuel =>
      (snd (_stream_by_id settings (id (snd p)) fuel (fst p)), snd p)
  | OpSubmit query earliest latest =>
      (snd (submit_async settings query earliest latest (fst p)), snd p)
  | OpClear => (snd (clear (fst p)), snd p)
  end.

(** The states after each operation of a sequence, in order. *)
Fixpoint run_ops (settings : CriblSettings) (ops : list ClientOp) (p : Poll)
  : list Poll :=
  match ops with
  | [] => []
  | op :: rest =>
      let p' := run_op settings op p in
      p' :: run_ops settings rest p'
  end.

(** Each status of the list is the one before it or a later one, and a
    terminal status is followed by itself only. *)
Fixpoint moves_forward (l : list JobStatus) : Prop :=
  match l with
  | a :: (b :: _) as rest =>
      forward a b = true /\ (terminal a = true -> b = a) /\ moves_forward rest
  | _ => True
  end.

(** The statuses a server reports for the status URL [u] only move
    forward: a report made later in the history of requests is never
    behind one made earlier. *)
Definition reports_forward (srv : list Request -> Exchange) (u : string) : Prop :=
  forall h1 h2 r1 r2 resp1 resp2 item1 item2 st1 st2,
    url r1 = u -> url r2 = u ->
    reply (srv (h1 ++ [r1])%list) = Responded resp1 ->
    status_report resp1 = Ok (item1, st1) ->
    reply (srv (h1 ++ r1 :: h2 ++ [r2])%list) = Responded resp2 ->
    status_report resp2 = Ok (item2, st2) ->
    forward st1 st2 = true.

(** The job's status is NEW, or is what the server reported in answer to
    an earlier status request of the trace. *)
Definition tracked (u : string) (job : SearchJob) (s : State) : Prop :=
  status job = NEW
  \/ exists h r h2 resp item,
       requests (trace s) = (h ++ r :: h2)%list
       /\ url r = u
       /\ reply (server s (h ++ [r])%list) = Responded resp
       /\ status_report resp = Ok (item, status job).

(** What one step of an operation must keep for the status to follow the
    server. *)
Definition follows (u : string) (p p' : Poll) : Prop :=
  forward (status (snd p)) (status (snd p')) = true
  /\ tracked u (snd p') (fst p')
  /\ extends (fst p) (fst p')
  /\ id (snd p') = id (snd p).

(* ===================================================================== *)
(** ** A job that never finishes *)
(* ===================================================================== *)

(** Every answer of the server is a status report, and none reports a
    terminal status. *)
Definition never_done (srv : list Request -> Exchange) : Prop :=
  forall h, exists resp item st,
    reply (srv h) = Responded resp
    /\ status_report resp = Ok (item, st)
    /\ terminal st = false.

(* ===================================================================== *)
(** ** The walk over the pages of a result set *)
(* ===================================================================== *)

(** Every answer of the server is a well-formed 2xx page whose metadata
    reports the total [n]. *)
Definition serves_total (srv : list Request -> Exchange) (n : Z) : Prop :=
  forall h, exists resp first rest metadata ys,
    reply (srv h) = Responded resp
    /\ is_success resp = true
    /\ page_lines resp = first :: rest
    /\ Json.loads first = Ok metadata
    /\ PyVal.get metadata "totalEventCount" (VInt 0) = Ok (VInt n)
    /\ yield_records rest = (ys, Ok tt).

(* ===================================================================== *)
(** ** client.py and job.py: the calls built on the poll and the pager *)
(* ===================================================================== *)

(** [SearchClient._stream_results] *)
Definition _stream_results (settings : CriblSettings) (job : SearchJob)
    (fuel : nat) (s : State) : Generated :=
  _stream_by_id settings (id job) fuel s.

(** [records = []], [async for record in gen: records.append(record)],
    [return records]: an exception of the generator leaves the function
    before the return, and the list with it. *)
Definition collect (gen : State -> Generated) : M State (list value) :=
  fun s =>
    match gen s with
    | (records, Ok _, s') => (Ok records, s')
    | (_, Raise e, s') => (Raise e, s')
    | (_, OutOfFuel, s') => (OutOfFuel, s')
    end.

(** [SearchClient.stream] *)
Definition stream (settings : CriblSettings) (job_id : string) (fuel : nat)
  : M State (list value) :=
  collect (_stream_by_id settings job_id fuel).

(** [SearchJob.wait_async] *)
Definition wait_async (settings : CriblSettings) (poll_interval timeout : Z)
    (fuel : nat) : M Poll unit :=
  _wait_for_job settings poll_interval timeout fuel.

(** A call that works on the client and on the job [job], run from the
    client: it gives back the job as the call left it. *)
Definition with_job {A} (job : SearchJob) (m : M Poll A) : M State SearchJob :=
  fun s =>
    match m (s, job) with
    | (Ok _, (s', job')) => (Ok job', s')
    | (Raise e, (s', _)) => (Raise e, s')
    | (OutOfFuel, (s', _)) => (OutOfFuel, s')
    end.

Section Frames.

(** pandas is outside the embedding: a data frame is any type, and
    [records_to_dataframe] of _utils/dataframe.py any function from the
    list of records to a frame or an exception. *)
Variable DataFrame : Type.
Variable records_to_dataframe : list value -> Result DataFrame.

(** [SearchClient._get_results_as_dataframe] *)
Definition _get_results_as_dataframe (settings : CriblSettings)
    (job : SearchJob) (fuel : nat) : M State DataFrame :=
  records <- collect (_stream_results settings job fuel) ;;
  lift (records_to_dataframe records).

(** [SearchJob.to_dataframe_async] *)
Definition to_dataframe_async (settings : CriblSettings) (job : SearchJob)
    (fuel : nat) : M State DataFrame :=
  _get_results_as_dataframe settings job fuel.

(** [SearchClient.query_async]; the poll interval is the 2 seconds the
    source passes. *)
Definition query_async (settings : CriblSettings)
    (query earliest latest : string) (timeout : Z) (fuel : nat)
  : M State DataFrame :=
  job <- submit_async settings query earliest latest ;;
  job <- with_job job (_wait_for_job settings 2 timeout fuel) ;;
  _get_results_as_dataframe settings job fuel.

End Frames.

(* ===================================================================== *)
(** ** Vocabulary of the further properties *)
(* ===================================================================== *)

(** The URL [_stream_by_id] reads the results from. *)
Definition job_results_url (settings : CriblSettings) (job_id : string) : string :=
  api_base_url settings ++ "/search/jobs/" ++ job_id ++ "/results".

(** The headers [_get_headers] builds around the token text [bearer]. *)
Definition auth_headers (bearer : string) : list (string * string) :=
  [("Authorization", "Bearer " ++ bearer); ("Content-Type", "application/json")].

(** The requests a pager sends from [offset] on, [k] of them. *)
Definition page_requests (url : string) (headers : list (string * string))
    (page_size offset : Z) (k : nat) : list Request :=
  map (fun i : nat =>
         page_request url headers page_size (offset + Z.of_nat i * page_size))
    (seq 0 k).

(** The exceptions the JSON decoder raises. *)
Definition decoder_exn (e : exn) : Prop :=
  e = JSONDecodeError \/ exists w, e = Unmodelled w.

(** Not one of the two exceptions [_wait_for_job] raises itself. *)
Definition not_job_error (e : exn) : Prop :=
  match e with
  | JobFailedError _ _ | JobTimeoutError _ => False
  | _ => True
  end.

(** Every exception [m] raises satisfies [P]. *)
Definition raises_only {S A} (P : exn -> Prop) (m : M S A) : Prop :=
  forall s e, fst (m s) = Raise e -> P e.

(** The same for a pure step. *)
Definition fails_only {A} (P : exn -> Prop) (r : Result A) : Prop :=
  forall e, r = Raise e -> P e.

(** What a wait on [job0] with the outcome [r] leaves in the job. *)
Definition wait_post (job0 : SearchJob) (timeout : Z) (r : Result unit)
    (job' : SearchJob) : Prop :=
  (r = Ok tt -> status job' = COMPLETED)
  /\ (forall msg jid,
        r = Raise (JobFailedError msg jid) ->
        jid = id job0 /\ (status job' = FAILED \/ status job' = CANCELED))
  /\ (forall msg,
        r = Raise (JobTimeoutError msg) ->
        msg = timeout_message (id job0) timeout
        /\ (job' = job0 \/ terminal (status job') = false))
  /\ id job' = id job0
  /\ (record_count job' = record_count job0 \/ status job' = COMPLETED).

(** The job between two turns of the loop of a wait on [job0]. *)
Definition pending (job0 job : SearchJob) : Prop :=
  id job = id job0
  /\ record_count job = record_count job0
  /\ (job = job0 \/ terminal (status job) = false).



(** What [submit_async] does once its POST has been answered. *)
Definition after_submit (response : Response) : M State SearchJob :=
  (if status_code response =? 400
   then raise (QuerySyntaxError ("Invalid query: " ++ text response))
   else ret tt) ;;
  (if status_code response =? 429
   then retry_after <- lift (retry_after_of response) ;;
        raise (RateLimitError "Rate limit exceeded" retry_after)
   else ret tt) ;;
  raise_for_status response ;;
  data <- response_json response ;;
  items <- lift (PyVal.getitem data "items") ;;
  item <- lift (PyVal.getitem0 items) ;;
  job_id <- lift (PyVal.getitem item "id") ;;
  match job_id with
  | VStr s => ret (new_job s)
  | _ => raise (Unmodelled "job id that is not a string")
  end.



(* ********************************************************************* *)
(** * Properties *)
(* ********************************************************************* *)

(* ===================================================================== *)
(** ** json.loads *)
(* ===================================================================== *)

Example loads_meta :
  Json.loads (q "{'isFinished':false,'totalEventCount':3,'offset':0}")
  = Ok (VDict [("isFinished", VBool false); ("totalEventCount", VInt 3);
               ("offset", VInt 0)]).
Proof. vm_compute. reflexivity. Qed.

Example loads_nested :
  Json.loads (q " { 'items' : [ {'status':'completed', 'numEvents': 10, 'x': [1, -2.5e3, null, 'a\nAA']} ] } ")
  = Ok (VDict [("items", VList [VDict [("status", VStr "completed");
         ("numEvents", VInt 10);
         ("x", VList [VInt 1; VFloat "-2.5e3"; VNone;
                      VStr ("a" ++ nl ++ "AA")])]])]).
Proof. vm_compute. reflexivity. Qed.

Example loads_escapes :
  Json.loads (q "'a\u0041\tb\/'")
  = Ok (VStr (String "a" (String "A" (String (ascii_of_nat 9) "b/")))).
Proof. vm_compute. reflexivity. Qed.

Example loads_bare_words :
  Json.loads "[true, false, null, -0, NaN, -Infinity]"
  = Ok (VList [VBool true; VBool false; VNone; VInt 0; VFloat "NaN";
               VFloat "-Infinity"]).
Proof. vm_compute. reflexivity. Qed.

Example loads_last_binding :
  and_then (Json.loads (q "{'a': 1, 'b': 2, 'a': 3}"))
    (fun d => PyVal.get d "a" VNone)
  = Ok (VInt 3).
Proof. vm_compute. reflexivity. Qed.

Example loads_empty : Json.loads EmptyString = Raise JSONDecodeError.
Proof. reflexivity. Qed.

Example loads_trailing_comma : Json.loads "[1,]" = Raise JSONDecodeError.
Proof. reflexivity. Qed.

Example loads_extra : Json.loads "{} {}" = Raise JSONDecodeError.
Proof. reflexivity. Qed.

Example loads_leading_zero : Json.loads "012" = Raise JSONDecodeError.
Proof. reflexivity. Qed.

(* ===================================================================== *)
(** ** Python strings, by example *)
(* ===================================================================== *)

Example strip_both_ends :
  PyStr.strip ("  a b" ++ nl ++ nl) = "a b".
Proof. reflexivity. Qed.

Example split_keeps_empty_pieces :
  PyStr.split (ascii_of_nat 10) ("a" ++ nl ++ nl ++ "b") = ["a"; EmptyString; "b"].
Proof. reflexivity. Qed.

Example split_of_empty :
  PyStr.split (ascii_of_nat 10) EmptyString = [EmptyString].
Proof. reflexivity. Qed.

Example int_of_str_examples :
  PyStr.int_of_str "120" = Some 120
  /\ PyStr.int_of_str " -7 " = Some (-7)
  /\ PyStr.int_of_str "1_000" = Some 1000
  /\ PyStr.int_of_str "Wed, 21 Oct 2015 07:28:00 GMT" = None
  /\ PyStr.int_of_str EmptyString = None.
Proof. repeat split; reflexivity. Qed.

Example str_of_int_examples :
  PyStr.str_of_int 300 = "300" /\ PyStr.str_of_int (-5) = "-5"
  /\ PyStr.str_of_int 0 = "0".
Proof. repeat split; reflexivity. Qed.

(* ===================================================================== *)
(** ** Proof support *)
(* ===================================================================== *)

Ltac unfold_monad :=
  unfold bind, ret, raise, lift, gets, modify, try_except in *.

Lemma split_not_nil (sep : ascii) (s : string) : PyStr.split sep s <> [].
Proof.
  destruct s as [| c r]; simpl; [discriminate |].
  destruct (Ascii.eqb c sep); [discriminate |].
  destruct (PyStr.split sep r); discriminate.
Qed.

(** [str.split] never returns the empty list, so the guard
    [if not lines: break] of the pager is never taken. *)
Lemma page_lines_not_nil (r : Response) : page_lines r <> [].
Proof. apply split_not_nil. Qed.

(* ===================================================================== *)
(** ** Pager: the empty body *)
(* ===================================================================== *)

(** C1 (as the code behaves).  When the first page comes back with a 2xx
    status and an empty body, the pager does not stop quietly: the body
    splits into one empty line, the guard for a body without lines is
    skipped, and decoding that line as metadata raises [JSONDecodeError].
    No record is yielded. *)
Theorem C1_empty_body_raises :
  forall (fuel : nat) (url : string) (headers : list (string * string))
         (page_size : Z) (s : State) (resp : Response),
    fst (send (page_request url headers page_size 0) s) = Ok resp ->
    is_success resp = true ->
    text resp = EmptyString ->
    paginate_results (S fuel) url headers page_size s
    = ([], Raise JSONDecodeError,
       snd (send (page_request url headers page_size 0) s)).
Proof.
  intros fuel url headers page_size s resp Hsend Hok Hbody.
  unfold paginate_results, paginate_loop, client_get.
  fold (page_request url headers page_size 0).
  unfold bind at 1.
  destruct (send (page_request url headers page_size 0) s) as [r s1] eqn:E.
  simpl in Hsend. subst r.
  unfold bind, raise_for_status. rewrite Hok. unfold ret.
  unfold page_lines. rewrite Hbody. reflexivity.
Qed.

Lemma C1_empty_body_raises_witness :
  paginate_results 1 Fixtures.results_url [] 1000
    (Fixtures.fresh 0 (Fixtures.always (Fixtures.respond 200 EmptyString)))
  = ([], Raise JSONDecodeError,
     snd (send (page_request Fixtures.results_url [] 1000 0)
            (Fixtures.fresh 0 (Fixtures.always (Fixtures.respond 200 EmptyString))))).
Proof.
  apply (C1_empty_body_raises 0 Fixtures.results_url [] 1000
           (Fixtures.fresh 0 (Fixtures.always (Fixtures.respond 200 EmptyString)))
           (mkResponse 200 EmptyString [])); reflexivity.
Defined.

(* ===================================================================== *)
(** ** Pager: one page, and the walk over the pages *)
(* ===================================================================== *)

(** One turn of the loop on a well-formed page. *)
Lemma paginate_loop_page :
  forall fuel url headers page_size offset s resp first rest metadata total ys,
    fst (send (page_request url headers page_size offset) s) = Ok resp ->
    is_success resp = true ->
    page_lines resp = first :: rest ->
    Json.loads first = Ok metadata ->
    PyVal.get metadata "totalEventCount" (VInt 0) = Ok total ->
    yield_records rest = (ys, Ok tt) ->
    paginate_loop (S fuel) url headers page_size offset s
    = after_page fuel url headers page_size (offset + page_size) total ys
        (snd (send (page_request url headers page_size offset) s)).
Proof.
  intros fuel url headers page_size offset s resp first rest metadata total ys
         Hsend Hok Hlines Hmeta Htotal Hrecs.
  cbn [paginate_loop]. unfold client_get.
  fold (page_request url headers page_size offset).
  unfold bind at 1.
  destruct (send (page_request url headers page_size offset) s) as [r s1] eqn:E.
  simpl in Hsend. subst r.
  unfold bind, raise_for_status. rewrite Hok. unfold ret.
  rewrite Hlines, Hmeta, Htotal, Hrecs.
  unfold after_page. simpl snd.
  destruct (exhausted total (offset + page_size)) as [[|] | e |]; reflexivity.
Qed.

Lemma send_trace (req : Request) (s : State) :
  trace (snd (send req s)) = (trace s ++ [Sent req])%list.
Proof.
  unfold send. destruct (reply _); reflexivity.
Qed.

Lemma requests_app (t u : list Event) :
  requests (t ++ u) = (requests t ++ requests u)%list.
Proof.
  induction t as [| [r | d] t IH]; simpl; [reflexivity | now rewrite IH | exact IH].
Qed.

Lemma send_requests (req : Request) (s : State) :
  requests (trace (snd (send req s))) = (requests (trace s) ++ [req])%list.
Proof. rewrite send_trace, requests_app. reflexivity. Qed.

(** Every non-blank line that decodes is yielded, in order; blank lines
    yield nothing. *)
Lemma yield_records_all (lines : list string) :
  (forall line, In line lines -> nonblank line = true ->
                exists v, Json.loads line = Ok v) ->
  exists ys,
    yield_records lines = (ys, Ok tt)
    /\ Forall2 (fun line v => Json.loads line = Ok v) (filter nonblank lines) ys.
Proof.
  induction lines as [| line rest IH]; intros Hdec.
  - exists []. split; [reflexivity | constructor].
  - destruct IH as [ys [Hy Hf]].
    { intros l Hin. apply Hdec. now right. }
    cbn [yield_records filter]. fold (nonblank line).
    destruct (nonblank line) eqn:Hb.
    + destruct (Hdec line (or_introl eq_refl) Hb) as [v Hv].
      exists (v :: ys). rewrite Hv, Hy. split; [reflexivity |].
      constructor; assumption.
    + exists ys. split; assumption.
Qed.

(** C4.  On a 2xx page whose first line decodes to a JSON object and whose
    other non-blank lines all decode, the pager takes [totalEventCount]
    from that first line (0 when the key is absent) as the total that
    decides whether another page is fetched, and yields one record per
    non-blank later line, in file order, skipping the blank ones: a body
    of a metadata line and N record lines yields exactly N records. *)
Theorem C4_page_yields_records :
  forall fuel url headers page_size offset s resp first rest members,
    fst (send (page_request url headers page_size offset) s) = Ok resp ->
    is_success resp = true ->
    page_lines resp = first :: rest ->
    Json.loads first = Ok (VDict members) ->
    (forall line, In line rest -> nonblank line = true ->
                  exists v, Json.loads line = Ok v) ->
    exists ys,
      Forall2 (fun line v => Json.loads line = Ok v) (filter nonblank rest) ys
      /\ List.length ys = List.length (filter nonblank rest)
      /\ paginate_loop (S fuel) url headers page_size offset s
         = after_page fuel url headers page_size (offset + page_size)
             (match PyVal.assoc_last "totalEventCount" members with
              | Some n => n
              | None => VInt 0
              end)
             ys
             (snd (send (page_request url headers page_size offset) s)).
Proof.
  intros fuel url headers page_size offset s resp first rest members
         Hsend Hok Hlines Hmeta Hdec.
  destruct (yield_records_all rest Hdec) as [ys [Hy Hf]].
  exists ys. split; [exact Hf |]. split.
  - symmetry. eapply Forall2_length. exact Hf.
  - eapply paginate_loop_page; eauto.
Qed.

(** The page of the test suite with blank lines between its two records,
    read at the default page size: both records, in order, one request. *)
Lemma C4_page_yields_records_witness :
  exists ys,
    Forall2 (fun line v => Json.loads line = Ok v)
      [q "{'id':1}"; q "{'id':2}"] ys
    /\ List.length ys = 2%nat
    /\ paginate_loop 1 Fixtures.results_url [] 1000 0
         (Fixtures.fresh 0 (Fixtures.always (Fixtures.respond 200 Fixtures.blank_lines_page)))
       = (ys, Ok tt,
          snd (send (page_request Fixtures.results_url [] 1000 0)
                 (Fixtures.fresh 0 (Fixtures.always
                    (Fixtures.respond 200 Fixtures.blank_lines_page))))).
Proof.
  apply (C4_page_yields_records 0 Fixtures.results_url [] 1000 0
           (Fixtures.fresh 0 (Fixtures.always (Fixtures.respond 200 Fixtures.blank_lines_page)))
           (mkResponse 200 Fixtures.blank_lines_page [])
           (q "{'isFinished':true,'totalEventCount':2,'offset':0}")
           [EmptyString; q "{'id':1}"; EmptyString; q "{'id':2}"]
           [("isFinished", VBool true); ("totalEventCount", VInt 2);
            ("offset", VInt 0)]).
  - reflexivity.
  - reflexivity.
  - reflexivity.
  - vm_compute. reflexivity.
  - intros line [H | [H | [H | [H | []]]]] Hb; subst line;
      try discriminate Hb; eexists; vm_compute; reflexivity.
Defined.

(** C3.  With a page size of 2 and pages whose metadata reports
    [totalEventCount] = 3, the first page carrying two records and the
    second one: the pager sends exactly two GET requests, the first at
    offset 0 and the second at offset 0 + 2, stops after the second page
    because the next offset 4 has reached the total, and yields the three
    records in page order. *)
Theorem C3_two_pages_three_records :
  forall fuel url headers s resp1 resp2 first1 rest1 first2 rest2
         metadata1 metadata2 r1 r2 r3,
    let req0 := page_request url headers 2 0 in
    let req1 := page_request url headers 2 2 in
    let s1 := snd (send req0 s) in
    let s2 := snd (send req1 s1) in
    fst (send req0 s) = Ok resp1 ->
    fst (send req1 s1) = Ok resp2 ->
    is_success resp1 = true ->
    is_success resp2 = true ->
    page_lines resp1 = first1 :: rest1 ->
    page_lines resp2 = first2 :: rest2 ->
    Json.loads first1 = Ok metadata1 ->
    Json.loads first2 = Ok metadata2 ->
    PyVal.get metadata1 "totalEventCount" (VInt 0) = Ok (VInt 3) ->
    PyVal.get metadata2 "totalEventCount" (VInt 0) = Ok (VInt 3) ->
    yield_records rest1 = ([r1; r2], Ok tt) ->
    yield_records rest2 = ([r3], Ok tt) ->
    paginate_results (S (S fuel)) url headers 2 s = ([r1; r2; r3], Ok tt, s2)
    /\ requests (trace s2) = (requests (trace s) ++ [req0; req1])%list.
Proof.
  intros fuel url headers s resp1 resp2 first1 rest1 first2 rest2
         metadata1 metadata2 r1 r2 r3 req0 req1 s1 s2
         Hs1 Hs2 Hok1 Hok2 Hl1 Hl2 Hm1 Hm2 Ht1 Ht2 Hy1 Hy2.
  split.
  - unfold paginate_results.
    rewrite (paginate_loop_page (S fuel) url headers 2 0 s resp1 first1 rest1
               metadata1 (VInt 3) [r1; r2] Hs1 Hok1 Hl1 Hm1 Ht1 Hy1).
    fold req0. fold s1. unfold after_page.
    change (exhausted (VInt 3) (0 + 2)) with (@Ok bool false).
    change (0 + 2) with 2.
    rewrite (paginate_loop_page fuel url headers 2 2 s1 resp2 first2 rest2
               metadata2 (VInt 3) [r3] Hs2 Hok2 Hl2 Hm2 Ht2 Hy2).
    fold req1. fold s2. unfold after_page.
    change (exhausted (VInt 3) (2 + 2)) with (@Ok bool true).
    reflexivity.
  - unfold s2, s1. rewrite !send_requests, <- app_assoc. reflexivity.
Qed.

(** The two-page run of the test suite: ids 1, 2, 3 in order, two
    requests, at offsets 0 and 2. *)
Lemma C3_two_pages_three_records_witness :
  let s := Fixtures.fresh 0 (Fixtures.scripted
             [Fixtures.respond 200 Fixtures.page1;
              Fixtures.respond 200 Fixtures.page2]) in
  let req0 := page_request Fixtures.results_url [] 2 0 in
  let req1 := page_request Fixtures.results_url [] 2 2 in
  paginate_results 2 Fixtures.results_url [] 2 s
  = ([VDict [("id", VInt 1)]; VDict [("id", VInt 2)]; VDict [("id", VInt 3)]],
     Ok tt, snd (send req1 (snd (send req0 s))))
  /\ requests (trace (snd (send req1 (snd (send req0 s))))) = [req0; req1].
Proof.
  intros s req0 req1.
  apply (C3_two_pages_three_records 0 Fixtures.results_url [] s
           (mkResponse 200 Fixtures.page1 []) (mkResponse 200 Fixtures.page2 [])
           (q "{'isFinished':false,'totalEventCount':3,'offset':0}")
           [q "{'id':1}"; q "{'id':2}"]
           (q "{'isFinished':true,'totalEventCount':3,'offset':2}")
           [q "{'id':3}"]
           (VDict [("isFinished", VBool false); ("totalEventCount", VInt 3);
                   ("offset", VInt 0)])
           (VDict [("isFinished", VBool true); ("totalEventCount", VInt 3);
                   ("offset", VInt 2)]));
    vm_compute; reflexivity.
Defined.

(* ===================================================================== *)
(** ** Token cache *)
(* ===================================================================== *)

Lemma send_cache (req : Request) (s : State) :
  _token (snd (send req s)) = _token s
  /\ _expires_at (snd (send req s)) = _expires_at s.
Proof. unfold send. destruct (reply _); split; reflexivity. Qed.

(** Case analysis on a [match] or [if] whose scrutinee holds no other
    one: the innermost test first. *)
Ltac break_match :=
  match goal with
  | |- context [match ?x with _ => _ end] =>
      lazymatch x with
      | context [match _ with _ => _ end] => fail
      | _ => destruct x eqn:?
      end
  end.

(** [_authenticate] sends the auth request, once, and nothing else. *)
Lemma authenticate_trace (settings : CriblSettings) (s : State) :
  trace (snd (_authenticate settings s))
  = (trace s ++ [Sent (auth_request settings)])%list.
Proof.
  unfold _authenticate, client_post, response_json, raise_for_status, time_time.
  fold (auth_request settings). unfold_monad.
  pose proof (send_trace (auth_request settings) s) as Ht.
  destruct (send (auth_request settings) s) as [r s1]. simpl in Ht.
  repeat (break_match; simpl; try assumption).
Qed.

Lemma add_seconds_not_auth (t : Z) (v : value) (msg : string) :
  add_seconds t v <> Raise (AuthenticationError msg).
Proof. destruct v as [| [|] | | | | |]; discriminate. Qed.

Lemma get_not_auth (d : value) (k : string) (default : value) (msg : string) :
  PyVal.get d k default <> Raise (AuthenticationError msg).
Proof. destruct d; discriminate. Qed.

(** When [_authenticate] raises [AuthenticationError] it has not yet
    touched the cache. *)
Lemma authenticate_error_cache (settings : CriblSettings) (s : State) (msg : string) :
  fst (_authenticate settings s) = Raise (AuthenticationError msg) ->
  _token (snd (_authenticate settings s)) = _token s
  /\ _expires_at (snd (_authenticate settings s)) = _expires_at s.
Proof.
  unfold _authenticate, client_post, response_json, raise_for_status, time_time.
  fold (auth_request settings). unfold_monad.
  pose proof (send_cache (auth_request settings) s) as Hc.
  destruct (send (auth_request settings) s) as [[resp | e |] s1]; simpl in Hc;
    simpl.
  - destruct (is_success resp); simpl; [| intros _; exact Hc].
    destruct (Json.loads (text resp)) as [data | e |]; simpl;
      try (intros _; exact Hc).
    destruct (PyVal.getitem data "access_token") as [tok | e |]; simpl;
      try (intros _; exact Hc).
    destruct (PyVal.get data "expires_in" (VInt 86400)) as [ttl | e |] eqn:Hget;
      simpl; try discriminate.
    + destruct (add_seconds (now s1) ttl) as [t | e |] eqn:Hadd; simpl;
        try discriminate.
      intros He. injection He as ->. now elim (add_seconds_not_auth _ _ _ Hadd).
    + intros He. injection He as ->. now elim (get_not_auth _ _ _ _ Hget).
  - destruct e; simpl; intros _; exact Hc.
  - intros _. exact Hc.
Qed.

Lemma is_token_valid_state (s : State) : snd (_is_token_valid s) = s.
Proof. unfold _is_token_valid, time_time. unfold_monad. destruct (_token s); reflexivity. Qed.

Lemma is_token_valid_usable (s : State) :
  fst (_is_token_valid s) = Ok true <-> token_usable s.
Proof.
  unfold _is_token_valid, token_usable, time_time, REFRESH_BUFFER_SECONDS.
  unfold_monad.
  destruct (_token s) eqn:Htok; simpl;
    try (split; [intros H; injection H as H; apply Z.ltb_lt in H;
                 split; [discriminate | exact H]
                | intros [_ H]; apply Z.ltb_lt in H; now rewrite H]).
  split; [discriminate | intros [H _]; now elim H].
Qed.

Lemma is_token_valid_total (s : State) :
  exists b, _is_token_valid s = (Ok b, s).
Proof.
  unfold _is_token_valid, time_time. unfold_monad.
  destruct (_token s); eexists; reflexivity.
Qed.

Lemma get_token_usable (settings : CriblSettings) (s : State) :
  token_usable s -> get_token settings s = (Ok (_token s), s).
Proof.
  intros Hu. apply is_token_valid_usable in Hu.
  destruct (is_token_valid_total s) as [b Hb].
  rewrite Hb in Hu. simpl in Hu. injection Hu as ->.
  unfold get_token, bind. rewrite Hb. reflexivity.
Qed.

Lemma get_token_stale (settings : CriblSettings) (s : State) :
  ~ token_usable s ->
  get_token settings s
  = match _authenticate settings s with
    | (Ok _, s') => (Ok (_token s'), s')
    | (Raise e, s') => (Raise e, s')
    | (OutOfFuel, s') => (OutOfFuel, s')
    end.
Proof.
  intros Hn.
  destruct (is_token_valid_total s) as [b Hb].
  assert (b = false) as ->.
  { destruct b; [| reflexivity]. elim Hn. apply is_token_valid_usable.
    now rewrite Hb. }
  unfold get_token, bind. rewrite Hb. simpl.
  destruct (_authenticate settings s) as [[u | e |] s']; reflexivity.
Qed.




(** C10.  When [get_token] raises [AuthenticationError], the cached token
    and its expiry instant are what they were before the call. *)
Theorem C10_auth_error_keeps_cache :
  forall (settings : CriblSettings) (s : State) (msg : string),
    fst (get_token settings s) = Raise (AuthenticationError msg) ->
    _token (snd (get_token settings s)) = _token s
    /\ _expires_at (snd (get_token settings s)) = _expires_at s.
Proof.
  intros settings s msg.
  assert (Hdec : token_usable s \/ ~ token_usable s).
  { unfold token_usable.
    destruct (Z.lt_ge_cases (now s) (_expires_at s - 300)) as [Hlt | Hge];
      [| right; intros [_ H]; lia].
    destruct (_token s); try (left; split; [discriminate | exact Hlt]).
    right. intros [H _]. now elim H. }
  destruct Hdec as [Hu | Hn].
  - rewrite (get_token_usable settings s Hu). discriminate.
  - rewrite (get_token_stale settings s Hn).
    pose proof (authenticate_error_cache settings s msg) as Hc.
    destruct (_authenticate settings s) as [[u | e |] s']; simpl in *;
      try discriminate.
    intros He. injection He as ->. now apply Hc.
Qed.

(** A 401 from the auth endpoint: the stale token and its expiry stay. *)
Lemma C10_auth_error_keeps_cache_witness :
  let s := Fixtures.holding 1000
             (Fixtures.always (Fixtures.respond 401 (q "{'error': 'invalid_client'}")))
             "old-token" 1060 in
  _token (snd (get_token Fixtures.settings s)) = VStr "old-token"
  /\ _expires_at (snd (get_token Fixtures.settings s)) = 1060.
Proof.
  intros s.
  apply (C10_auth_error_keeps_cache Fixtures.settings s
           ("Authentication failed: 401 - " ++ q "{'error': 'invalid_client'}")).
  vm_compute. reflexivity.
Defined.

(* ===================================================================== *)
(** ** Running a computation step by step *)
(* ===================================================================== *)

Lemma bind_ok {S A B} (m : M S A) (k : A -> M S B) (s s' : S) (a : A) :
  m s = (Ok a, s') -> bind m k s = k a s'.
Proof. intros H. unfold bind. now rewrite H. Qed.

Lemma bind_raise {S A B} (m : M S A) (k : A -> M S B) (s s' : S) (e : exn) :
  m s = (Raise e, s') -> bind m k s = (Raise e, s').
Proof. intros H. unfold bind. now rewrite H. Qed.

Lemma bind_fuel {S A B} (m : M S A) (k : A -> M S B) (s s' : S) :
  m s = (OutOfFuel, s') -> bind m k s = (OutOfFuel, s').
Proof. intros H. unfold bind. now rewrite H. Qed.

Lemma pair_fst_snd {A B} (p : A * B) (a : A) :
  fst p = a -> p = (a, snd p).
Proof. destruct p. simpl. now intros ->. Qed.

Lemma prefix_of_app (x b : string) : PyStr.prefix_of x (x ++ b) = true.
Proof.
  induction x as [| c x IH]; simpl; [reflexivity |].
  now rewrite Ascii.eqb_refl, IH.
Qed.

Lemma contains_prefix (x h : string) :
  PyStr.prefix_of x h = true -> PyStr.contains x h = true.
Proof. intros H. destruct h; simpl; now rewrite H. Qed.

(** [x in a + x + b] *)
Lemma contains_app (a x b : string) : PyStr.contains x (a ++ x ++ b) = true.
Proof.
  induction a as [| c a IH].
  - change (EmptyString ++ x ++ b) with (x ++ b).
    apply contains_prefix, prefix_of_app.
  - change (String c a ++ x ++ b) with (String c (a ++ x ++ b)).
    cbn [PyStr.contains]. rewrite IH. apply orb_true_r.
Qed.

Lemma app_empty_r (s : string) : s ++ EmptyString = s.
Proof. induction s as [| c s IH]; simpl; [reflexivity | now rewrite IH]. Qed.

Lemma app_string_assoc (a b c : string) : (a ++ b) ++ c = a ++ b ++ c.
Proof. induction a as [| x a IH]; simpl; [reflexivity | now rewrite IH]. Qed.

Lemma contains_suffix (a x : string) : PyStr.contains x (a ++ x) = true.
Proof.
  rewrite <- (app_empty_r x) at 2. apply contains_app.
Qed.

(* ===================================================================== *)
(** ** Submission *)
(* ===================================================================== *)

(** C5.  Once the headers are in hand and the server has answered the
    submission: a 400 raises [QuerySyntaxError] whose message ends with
    the response text; a 429 raises [RateLimitError] with [retry_after]
    60 when there is no [Retry-After] header, and with the integer the
    header spells when there is one.  A 429 whose [Retry-After] does not
    spell an integer (an HTTP date, a decimal fraction) does not raise
    [RateLimitError]: [int()] raises [ValueError] before the error is
    built. *)
Theorem C5_submit_rejections :
  forall settings query earliest latest s hs s1 resp,
    _get_headers settings s = (Ok hs, s1) ->
    fst (send (submit_request settings query earliest latest hs) s1) = Ok resp ->
    (status_code resp = 400 ->
       fst (submit_async settings query earliest latest s)
       = Raise (QuerySyntaxError ("Invalid query: " ++ text resp))
       /\ PyStr.contains (text resp) ("Invalid query: " ++ text resp) = true)
    /\ (status_code resp = 429 ->
          (headers_get resp "Retry-After" = None ->
             fst (submit_async settings query earliest latest s)
             = Raise (RateLimitError "Rate limit exceeded" 60))
          /\ (forall v n,
                headers_get resp "Retry-After" = Some v ->
                PyStr.int_of_str v = Some n ->
                fst (submit_async settings query earliest latest s)
                = Raise (RateLimitError "Rate limit exceeded" n))
          /\ (forall v,
                headers_get resp "Retry-After" = Some v ->
                PyStr.int_of_str v = None ->
                fst (submit_async settings query earliest latest s)
                = Raise ValueError)).
Proof.
  intros settings query earliest latest s hs s1 resp Hh Hsend.
  apply pair_fst_snd in Hsend.
  assert (Hrun : forall (B : Type) (k : Response -> M State B),
            bind (_get_headers settings)
              (fun headers =>
                 bind (client_post (api_base_url settings ++ "/search/jobs")
                         (VDict [("query", VStr query);
                                 ("earliest", VStr earliest);
                                 ("latest", VStr latest);
                                 ("sampleRate", VInt 1)]) headers)
                   k) s
            = k resp (snd (send (submit_request settings query earliest latest hs) s1))).
  { intros B k. rewrite (bind_ok _ _ _ _ _ Hh).
    unfold client_post. fold (submit_request settings query earliest latest hs).
    now rewrite (bind_ok _ _ _ _ _ Hsend). }
  split.
  - intros H400. split; [| apply contains_suffix].
    unfold submit_async. rewrite Hrun. rewrite H400. reflexivity.
  - intros H429. split; [| split].
    + intros Hnone. unfold submit_async. rewrite Hrun. rewrite H429.
      unfold retry_after_of. rewrite Hnone. reflexivity.
    + intros v n Hsome Hint. unfold submit_async. rewrite Hrun. rewrite H429.
      unfold retry_after_of. rewrite Hsome, Hint. reflexivity.
    + intros v Hsome Hint. unfold submit_async. rewrite Hrun. rewrite H429.
      unfold retry_after_of. rewrite Hsome, Hint. reflexivity.
Qed.

(** The rate-limited submission of the test suite: [Retry-After: 120]
    gives [retry_after] 120; the rejected query; and a 429 whose
    [Retry-After] is an HTTP date, which ends in [ValueError]. *)
Lemma C5_submit_rejections_witness :
  let limited := mkExchange 0 (Responded (mkResponse 429 EmptyString
                                            [("Retry-After", "120")])) in
  let rejected := Fixtures.respond 400 "Invalid query syntax" in
  let dated := mkExchange 0 (Responded (mkResponse 429 EmptyString
                 [("Retry-After", "Wed, 21 Oct 2015 07:28:00 GMT")])) in
  let s ex := Fixtures.fresh 0
                (Fixtures.scripted [Fixtures.respond 200 Fixtures.token_body; ex]) in
  fst (submit_async Fixtures.settings "cribl dataset=logs" "-1h" "now" (s limited))
  = Raise (RateLimitError "Rate limit exceeded" 120)
  /\ fst (submit_async Fixtures.settings "bad query" "-1h" "now" (s rejected))
     = Raise (QuerySyntaxError "Invalid query: Invalid query syntax")
  /\ fst (submit_async Fixtures.settings "cribl dataset=logs" "-1h" "now" (s dated))
     = Raise ValueError.
Proof.
  intros limited rejected dated s. split; [| split].
  - apply (proj1 (proj2 (proj2 (C5_submit_rejections Fixtures.settings
                           "cribl dataset=logs" "-1h" "now" (s limited)
                           [("Authorization", "Bearer mock-token");
                            ("Content-Type", "application/json")]
                           (snd (_get_headers Fixtures.settings (s limited)))
                           (mkResponse 429 EmptyString [("Retry-After", "120")])
                           ltac:(vm_compute; reflexivity)
                           ltac:(vm_compute; reflexivity))
                        eq_refl))
             "120" 120); reflexivity.
  - apply (proj1 (proj1 (C5_submit_rejections Fixtures.settings
                           "bad query" "-1h" "now" (s rejected)
                           [("Authorization", "Bearer mock-token");
                            ("Content-Type", "application/json")]
                           (snd (_get_headers Fixtures.settings (s rejected)))
                           (mkResponse 400 "Invalid query syntax" [])
                           ltac:(vm_compute; reflexivity)
                           ltac:(vm_compute; reflexivity))
                        eq_refl)).
  - apply (proj2 (proj2 (proj2 (C5_submit_rejections Fixtures.settings
                           "cribl dataset=logs" "-1h" "now" (s dated)
                           [("Authorization", "Bearer mock-token");
                            ("Content-Type", "application/json")]
                           (snd (_get_headers Fixtures.settings (s dated)))
                           (mkResponse 429 EmptyString
                              [("Retry-After", "Wed, 21 Oct 2015 07:28:00 GMT")])
                           ltac:(vm_compute; reflexivity)
                           ltac:(vm_compute; reflexivity))
                        eq_refl))
             "Wed, 21 Oct 2015 07:28:00 GMT"); reflexivity.
Defined.

(* ===================================================================== *)
(** ** Polling *)
(* ===================================================================== *)

(** An iteration entered after the deadline raises at once: nothing is
    sent, nothing changes. *)
Lemma wait_iteration_timeout :
  forall url headers start_time poll_interval timeout s job,
    timeout < now s - start_time ->
    wait_iteration url headers start_time poll_interval timeout (s, job)
    = (Raise (JobTimeoutError (timeout_message (id job) timeout)), (s, job)).
Proof.
  intros url headers start_time poll_interval timeout s job Hlate.
  unfold wait_iteration, on_client, the_job, time_time. unfold_monad. simpl.
  apply Z.gtb_lt in Hlate. rewrite Hlate. reflexivity.
Qed.

(** An iteration entered in time sends the status GET; what follows is
    decided by the answer. *)
Lemma wait_iteration_poll :
  forall url headers start_time poll_interval timeout s job,
    now s - start_time <= timeout ->
    wait_iteration url headers start_time poll_interval timeout (s, job)
    = match send (status_request url headers) s with
      | (Ok resp, s1) => after_report poll_interval s1 job (status_report resp)
      | (Raise e, s1) => (Raise e, (s1, job))
      | (OutOfFuel, s1) => (OutOfFuel, (s1, job))
      end.
Proof.
  intros url headers start_time poll_interval timeout s job Hintime.
  assert (Hgt : (now s - start_time >? timeout) = false).
  { rewrite Z.gtb_ltb. apply Z.ltb_ge. exact Hintime. }
  unfold wait_iteration, on_client, the_job, time_time, update_job,
         client_get, raise_for_status, response_json, after_report,
         status_report, and_then.
  fold (status_request url headers). unfold_monad. simpl. rewrite Hgt. simpl.
  destruct (send (status_request url headers) s) as [[resp | e |] s1]; simpl;
    try reflexivity.
  destruct (is_success resp); simpl; [| reflexivity].
  destruct (Json.loads (text resp)) as [data | e |]; simpl; try reflexivity.
  destruct (PyVal.getitem data "items") as [items | e |]; simpl; try reflexivity.
  destruct (PyVal.getitem0 items) as [item | e |]; simpl; try reflexivity.
  destruct (PyVal.getitem item "status") as [v | e |]; simpl; try reflexivity.
  destruct (JobStatus_of_value v) as [st | e |]; simpl; try reflexivity.
  destruct st; reflexivity.
Qed.

Lemma sleep_state (d : Z) (s : State) :
  snd (sleep d s) = log (Slept d) (set_now (now s + Z.max 0 d) s).
Proof. reflexivity. Qed.

Lemma sleep_requests (d : Z) (s : State) :
  requests (trace (snd (sleep d s))) = requests (trace s).
Proof.
  rewrite sleep_state. simpl. rewrite requests_app. simpl.
  apply app_nil_r.
Qed.

(** Whatever the report, the state after it holds the requests of [s1]. *)
Lemma after_report_requests poll_interval s1 job report :
  requests (trace (fst (snd (after_report poll_interval s1 job report))))
  = requests (trace s1).
Proof.
  unfold after_report.
  destruct report as [[item st] | e |]; [| reflexivity | reflexivity].
  destruct st; try apply sleep_requests; try reflexivity.
  - destruct (PyVal.get item "numEvents" (VInt 0)); reflexivity.
  - destruct (PyVal.get item "error" (VStr "Unknown error")); reflexivity.
Qed.

(** C6.  Each turn of the polling loop compares the elapsed time with the
    timeout first.  Past the timeout it raises [JobTimeoutError] without
    sending anything, with a message that contains the job id and the
    timeout value; within the timeout it goes on to send the status GET,
    exactly one. *)
Theorem C6_timeout_checked_before_poll :
  forall url headers start_time poll_interval timeout s job,
    (timeout < now s - start_time ->
       wait_iteration url headers start_time poll_interval timeout (s, job)
       = (Raise (JobTimeoutError (timeout_message (id job) timeout)), (s, job))
       /\ (forall fuel,
             wait_loop (S fuel) url headers start_time poll_interval timeout (s, job)
             = (Raise (JobTimeoutError (timeout_message (id job) timeout)), (s, job)))
       /\ PyStr.contains (id job) (timeout_message (id job) timeout) = true
       /\ PyStr.contains (PyStr.str_of_int timeout)
            (timeout_message (id job) timeout) = true)
    /\ (now s - start_time <= timeout ->
          requests (trace (fst (snd
            (wait_iteration url headers start_time poll_interval timeout (s, job)))))
          = (requests (trace s) ++ [status_request url headers])%list).
Proof.
  intros url headers start_time poll_interval timeout s job. split.
  - intros Hlate.
    pose proof (wait_iteration_timeout url headers start_time poll_interval
                  timeout s job Hlate) as Hit.
    split; [exact Hit |]. split; [| split].
    + intros fuel. cbn [wait_loop]. now rewrite (bind_raise _ _ _ _ _ Hit).
    + unfold timeout_message. apply (contains_app "Job " (id job)).
    + unfold timeout_message.
      replace ("Job " ++ id job ++ " did not complete within "
               ++ PyStr.str_of_int timeout ++ " seconds")
        with (("Job " ++ id job ++ " did not complete within ")
              ++ PyStr.str_of_int timeout ++ " seconds").
      * apply contains_app.
      * rewrite !app_string_assoc. reflexivity.
  - intros Hintime.
    rewrite (wait_iteration_poll url headers start_time poll_interval timeout
               s job Hintime).
    pose proof (send_requests (status_request url headers) s) as Hreq.
    destruct (send (status_request url headers) s) as [[resp | e |] s1];
      simpl in Hreq; simpl; try exact Hreq.
    now rewrite after_report_requests.
Qed.

(** The timed-out poll of the test suite: job ["job-123"], timeout 5,
    entered 6 seconds after the start. *)
Lemma C6_timeout_checked_before_poll_witness :
  let s := Fixtures.holding 1006
             (Fixtures.always (Fixtures.respond 200 Fixtures.running_body))
             "mock-token" 90000 in
  wait_iteration "u" [] 1000 2 5 (s, new_job "job-123")
  = (Raise (JobTimeoutError "Job job-123 did not complete within 5 seconds"),
     (s, new_job "job-123"))
  /\ requests (trace (fst (snd (wait_iteration "u" [] 1006 2 5 (s, new_job "job-123")))))
     = [status_request "u" []].
Proof.
  intros s. split.
  - apply (proj1 (C6_timeout_checked_before_poll "u" [] 1000 2 5 s
                    (new_job "job-123"))).
    reflexivity.
  - apply (proj2 (C6_timeout_checked_before_poll "u" [] 1006 2 5 s
                    (new_job "job-123"))).
    discriminate.
Defined.

Lemma send_now_le (req : Request) (s : State) : now s <= now (snd (send req s)).
Proof. unfold send. destruct (reply _); simpl; lia. Qed.

Lemma sleep_now_le (d : Z) (s : State) : now s <= now (snd (sleep d s)).
Proof. rewrite sleep_state. simpl. lia. Qed.

Lemma sleeps_app (t u : list Event) :
  sleeps (t ++ u) = (sleeps t ++ sleeps u)%list.
Proof.
  induction t as [| [r | d] t IH]; simpl; [reflexivity | exact IH | now rewrite IH].
Qed.

Lemma send_sleeps (req : Request) (s : State) :
  sleeps (trace (snd (send req s))) = sleeps (trace s).
Proof. rewrite send_trace, sleeps_app. simpl. apply app_nil_r. Qed.

Lemma sleep_sleeps (d : Z) (s : State) :
  sleeps (trace (snd (sleep d s))) = (sleeps (trace s) ++ [d])%list.
Proof. rewrite sleep_state. simpl. now rewrite sleeps_app. Qed.

(** The item a report was read from is a dict. *)
Lemma status_report_dict (resp : Response) (item : value) (st : JobStatus) :
  status_report resp = Ok (item, st) -> exists members, item = VDict members.
Proof.
  unfold status_report, and_then.
  destruct (is_success resp); [| discriminate].
  destruct (Json.loads (text resp)) as [data | |]; try discriminate.
  destruct (PyVal.getitem data "items") as [items | |]; try discriminate.
  destruct (PyVal.getitem0 items) as [it | |]; try discriminate.
  destruct (PyVal.getitem it "status") as [v | |] eqn:Hv; try discriminate.
  destruct (JobStatus_of_value v); try discriminate.
  intros H. injection H as <- _.
  destruct it; try discriminate Hv. eexists; reflexivity.
Qed.

(** One turn of the loop that is not the last. *)
Lemma wait_loop_continue :
  forall fuel url headers start_time poll_interval timeout p p',
    wait_iteration url headers start_time poll_interval timeout p = (Ok Continue, p') ->
    wait_loop (S fuel) url headers start_time poll_interval timeout p
    = wait_loop fuel url headers start_time poll_interval timeout p'.
Proof.
  intros fuel url headers start_time poll_interval timeout p p' H.
  cbn [wait_loop]. now rewrite (bind_ok _ _ _ _ _ H).
Qed.

Lemma wait_loop_return :
  forall fuel url headers start_time poll_interval timeout p p',
    wait_iteration url headers start_time poll_interval timeout p = (Ok Return, p') ->
    wait_loop (S fuel) url headers start_time poll_interval timeout p = (Ok tt, p').
Proof.
  intros fuel url headers start_time poll_interval timeout p p' H.
  cbn [wait_loop]. now rewrite (bind_ok _ _ _ _ _ H).
Qed.

Lemma wait_loop_raise :
  forall fuel url headers start_time poll_interval timeout p p' e,
    wait_iteration url headers start_time poll_interval timeout p = (Raise e, p') ->
    wait_loop (S fuel) url headers start_time poll_interval timeout p = (Raise e, p').
Proof.
  intros fuel url headers start_time poll_interval timeout p p' e H.
  cbn [wait_loop]. now rewrite (bind_raise _ _ _ _ _ H).
Qed.

(** A poll in time whose answer reports a status that is not terminal. *)
Lemma wait_iteration_pending :
  forall url headers start_time poll_interval timeout s job resp item st,
    now s - start_time <= timeout ->
    fst (send (status_request url headers) s) = Ok resp ->
    status_report resp = Ok (item, st) ->
    st = NEW \/ st = QUEUED \/ st = RUNNING ->
    wait_iteration url headers start_time poll_interval timeout (s, job)
    = (Ok Continue,
       (snd (sleep poll_interval (snd (send (status_request url headers) s))),
        set_status st job)).
Proof.
  intros url headers start_time poll_interval timeout s job resp item st
         Hintime Hsend Hrep Hst.
  rewrite (wait_iteration_poll _ _ _ _ _ _ _ Hintime).
  rewrite (pair_fst_snd _ _ Hsend), Hrep.
  destruct Hst as [-> | [-> | ->]]; reflexivity.
Qed.

(** A poll in time whose answer reports COMPLETED. *)
Lemma wait_iteration_completed :
  forall url headers start_time poll_interval timeout s job resp item,
    now s - start_time <= timeout ->
    fst (send (status_request url headers) s) = Ok resp ->
    status_report resp = Ok (item, COMPLETED) ->
    exists members,
      item = VDict members
      /\ wait_iteration url headers start_time poll_interval timeout (s, job)
         = (Ok Return,
            (snd (send (status_request url headers) s),
             mkJob (id job) COMPLETED
               (match PyVal.assoc_last "numEvents" members with
                | Some n => n
                | None => VInt 0
                end))).
Proof.
  intros url headers start_time poll_interval timeout s job resp item
         Hintime Hsend Hrep.
  destruct (status_report_dict _ _ _ Hrep) as [members ->].
  exists members. split; [reflexivity |].
  rewrite (wait_iteration_poll _ _ _ _ _ _ _ Hintime).
  rewrite (pair_fst_snd _ _ Hsend), Hrep. reflexivity.
Qed.

(** C7.  A poll that observes COMPLETED stores [items[0].numEvents] (0 when
    the key is absent) as the job's [record_count] and the wait returns.
    When the answers to the polls report RUNNING, RUNNING and then COMPLETED
    with [numEvents] 10, the wait returns after exactly three status GETs,
    with [record_count] 10, having slept [poll_interval] after each of the
    two polls that were not terminal. *)
Theorem C7_completed_sets_record_count :
  forall settings poll_interval timeout fuel s job headers s1
         resp1 resp2 resp3 item1 item2 item3,
    let req := status_request (status_url settings (id job)) headers in
    let s2 := snd (sleep poll_interval (snd (send req s1))) in
    let s3 := snd (sleep poll_interval (snd (send req s2))) in
    let s4 := snd (send req s3) in
    (forall start_time s0 resp item,
        now s0 - start_time <= timeout ->
        fst (send req s0) = Ok resp ->
        status_report resp = Ok (item, COMPLETED) ->
        exists members,
          item = VDict members
          /\ wait_loop (S fuel) (status_url settings (id job)) headers
               start_time poll_interval timeout (s0, job)
             = (Ok tt,
                (snd (send req s0),
                 mkJob (id job) COMPLETED
                   (match PyVal.assoc_last "numEvents" members with
                    | Some n => n
                    | None => VInt 0
                    end))))
    /\ (_get_headers settings s = (Ok headers, s1) ->
        fst (send req s1) = Ok resp1 ->
        status_report resp1 = Ok (item1, RUNNING) ->
        fst (send req s2) = Ok resp2 ->
        status_report resp2 = Ok (item2, RUNNING) ->
        fst (send req s3) = Ok resp3 ->
        status_report resp3 = Ok (item3, COMPLETED) ->
        PyVal.get item3 "numEvents" (VInt 0) = Ok (VInt 10) ->
        now s3 - now s <= timeout ->
        _wait_for_job settings poll_interval timeout (3 + fuel) (s, job)
        = (Ok tt, (s4, mkJob (id job) COMPLETED (VInt 10)))
        /\ requests (trace s4) = (requests (trace s1) ++ [req; req; req])%list
        /\ sleeps (trace s4)
           = (sleeps (trace s1) ++ [poll_interval; poll_interval])%list).
Proof.
  intros settings poll_interval timeout fuel s job headers s1
         resp1 resp2 resp3 item1 item2 item3 req s2 s3 s4.
  split.
  - intros start_time s0 resp item Hintime Hsend Hrep.
    destruct (wait_iteration_completed (status_url settings (id job)) headers
                start_time poll_interval timeout s0 job resp item
                Hintime Hsend Hrep) as [members [Hitem Hit]].
    exists members. split; [exact Hitem |].
    now apply wait_loop_return.
  - intros Hh Hs1 Hr1 Hs2 Hr2 Hs3 Hr3 Hn Htime.
    assert (H12 : now s1 <= now s2).
    { unfold s2. etransitivity; [apply (send_now_le req) | apply sleep_now_le]. }
    assert (H23 : now s2 <= now s3).
    { unfold s3. etransitivity; [apply (send_now_le req) | apply sleep_now_le]. }
    assert (Ht1 : now s1 - now s <= timeout) by lia.
    assert (Ht2 : now s2 - now s <= timeout) by lia.
    split; [| split].
    + unfold _wait_for_job, on_client, the_job, time_time. unfold_monad.
      cbn [fst snd]. rewrite Hh. cbn [fst snd].
      fold (wait_loop (3 + fuel)).
      change (3 + fuel)%nat with (S (S (S fuel))).
      rewrite (wait_loop_continue _ _ _ _ _ _ _ _
                 (wait_iteration_pending _ _ _ poll_interval _ _ job _ _ _
                    Ht1 Hs1 Hr1 (or_intror (or_intror eq_refl)))).
      fold req. fold s2.
      rewrite (wait_loop_continue _ _ _ _ _ _ _ _
                 (wait_iteration_pending _ _ _ poll_interval _ _ _ _ _ _
                    Ht2 Hs2 Hr2 (or_intror (or_intror eq_refl)))).
      fold req. fold s3.
      destruct (wait_iteration_completed (status_url settings (id job)) headers
                  (now s) poll_interval timeout s3
                  (set_status RUNNING (set_status RUNNING job)) resp3 item3
                  Htime Hs3 Hr3) as [members [Hitem Hit]].
      rewrite (wait_loop_return _ _ _ _ _ _ _ _ Hit).
      subst item3. simpl in Hn. injection Hn as Hn. rewrite Hn. reflexivity.
    + unfold s4. rewrite send_requests.
      unfold s3. rewrite sleep_requests, send_requests.
      unfold s2. rewrite sleep_requests, send_requests.
      rewrite <- !app_assoc. reflexivity.
    + unfold s4. rewrite send_sleeps.
      unfold s3. rewrite sleep_sleeps, send_sleeps.
      unfold s2. rewrite sleep_sleeps, send_sleeps.
      rewrite <- app_assoc. reflexivity.
Qed.

(** The polling run of the test suite: the token is fetched, then the
    status answers are running, running, completed with 10 events. *)
Lemma C7_completed_sets_record_count_witness :
  let s := Fixtures.fresh 1000 (Fixtures.scripted
             [Fixtures.respond 200 Fixtures.token_body;
              Fixtures.respond 200 Fixtures.running_body;
              Fixtures.respond 200 Fixtures.running_body;
              Fixtures.respond 200 Fixtures.completed_body]) in
  let run := _wait_for_job Fixtures.settings 2 5 3 (s, new_job "job-123") in
  fst run = Ok tt
  /\ snd (snd run) = mkJob "job-123" COMPLETED (VInt 10)
  /\ sleeps (trace (fst (snd run))) = [2; 2]
  /\ List.length (requests (trace (fst (snd run)))) = 4%nat.
Proof.
  intros s run.
  destruct (proj2 (C7_completed_sets_record_count Fixtures.settings 2 5 0 s
                     (new_job "job-123")
                     [("Authorization", "Bearer mock-token");
                      ("Content-Type", "application/json")]
                     (snd (_get_headers Fixtures.settings s))
                     (mkResponse 200 Fixtures.running_body [])
                     (mkResponse 200 Fixtures.running_body [])
                     (mkResponse 200 Fixtures.completed_body [])
                     (VDict [("status", VStr "running")])
                     (VDict [("status", VStr "running")])
                     (VDict [("status", VStr "completed"); ("numEvents", VInt 10)]))
             ltac:(vm_compute; reflexivity) ltac:(vm_compute; reflexivity)
             ltac:(vm_compute; reflexivity) ltac:(vm_compute; reflexivity)
             ltac:(vm_compute; reflexivity) ltac:(vm_compute; reflexivity)
             ltac:(vm_compute; reflexivity) ltac:(vm_compute; reflexivity)
             ltac:(vm_compute; discriminate))
    as [Hrun [Hreq Hsleep]].
  unfold run. change (3 + 0)%nat with 3%nat in Hrun. rewrite Hrun.
  cbn [fst snd]. rewrite Hreq, Hsleep.
  repeat split; vm_compute; reflexivity.
Defined.

(** C8.  A poll that observes FAILED marks the job FAILED and raises
    [JobFailedError] with the ["error"] of the response item, or
    ["Unknown error"] when the item has none, and the job id; a poll that
    observes CANCELED marks the job CANCELED and raises [JobFailedError]
    with the message ["Job was canceled"] and the job id. *)
Theorem C8_failed_and_canceled_raise :
  forall fuel url headers start_time poll_interval timeout s job resp item,
    now s - start_time <= timeout ->
    fst (send (status_request url headers) s) = Ok resp ->
    (status_report resp = Ok (item, FAILED) ->
       exists members,
         item = VDict members
         /\ wait_loop (S fuel) url headers start_time poll_interval timeout (s, job)
            = (Raise (JobFailedError
                        (match PyVal.assoc_last "error" members with
                         | Some msg => msg
                         | None => VStr "Unknown error"
                         end)
                        (id job)),
               (snd (send (status_request url headers) s), set_status FAILED job)))
    /\ (status_report resp = Ok (item, CANCELED) ->
          wait_loop (S fuel) url headers start_time poll_interval timeout (s, job)
          = (Raise (JobFailedError (VStr "Job was canceled") (id job)),
             (snd (send (status_request url headers) s), set_status CANCELED job))
          /\ PyStr.contains "canceled" "Job was canceled" = true).
Proof.
  intros fuel url headers start_time poll_interval timeout s job resp item
         Hintime Hsend.
  pose proof (wait_iteration_poll url headers start_time poll_interval timeout
                s job Hintime) as Hit.
  rewrite (pair_fst_snd _ _ Hsend) in Hit.
  split.
  - intros Hrep.
    destruct (status_report_dict _ _ _ Hrep) as [members ->].
    exists members. split; [reflexivity |].
    apply wait_loop_raise. rewrite Hit, Hrep. reflexivity.
  - intros Hrep. split; [| reflexivity].
    apply wait_loop_raise. rewrite Hit, Hrep. reflexivity.
Qed.

(** The failed and the canceled job of the test suite. *)
Lemma C8_failed_and_canceled_raise_witness :
  let s body := Fixtures.holding 1000
                  (Fixtures.always (Fixtures.respond 200 body))
                  "mock-token" 90000 in
  fst (wait_loop 1 "u" [] 1000 2 5 (s Fixtures.failed_body, new_job "job-123"))
  = Raise (JobFailedError (VStr "Dataset not found") "job-123")
  /\ fst (wait_loop 1 "u" [] 1000 2 5 (s Fixtures.canceled_body, new_job "job-123"))
     = Raise (JobFailedError (VStr "Job was canceled") "job-123").
Proof.
  intros s. split.
  - destruct (proj1 (C8_failed_and_canceled_raise 0 "u" [] 1000 2 5
                       (s Fixtures.failed_body) (new_job "job-123")
                       (mkResponse 200 Fixtures.failed_body [])
                       (VDict [("status", VStr "failed");
                               ("error", VStr "Dataset not found")])
                       ltac:(vm_compute; discriminate)
                       ltac:(vm_compute; reflexivity))
               ltac:(vm_compute; reflexivity))
      as [members [Hitem Hrun]].
    injection Hitem as <-. rewrite Hrun. reflexivity.
  - destruct (proj2 (C8_failed_and_canceled_raise 0 "u" [] 1000 2 5
                       (s Fixtures.canceled_body) (new_job "job-123")
                       (mkResponse 200 Fixtures.canceled_body [])
                       (VDict [("status", VStr "canceled")])
                       ltac:(vm_compute; discriminate)
                       ltac:(vm_compute; reflexivity))
               ltac:(vm_compute; reflexivity))
      as [Hrun _].
    rewrite Hrun. reflexivity.
Defined.

(* ===================================================================== *)
(** ** What no operation does: change the server or rewrite the trace *)
(* ===================================================================== *)

Lemma extends_refl (s : State) : extends s s.
Proof. split; [reflexivity | exists []; now rewrite app_nil_r]. Qed.

Lemma extends_trans (a b c : State) : extends a b -> extends b c -> extends a c.
Proof.
  intros [Hs1 [t1 Ht1]] [Hs2 [t2 Ht2]]. split; [congruence |].
  exists (t1 ++ t2)%list. now rewrite Ht2, Ht1, app_assoc.
Qed.

Create HintDb steady.

Lemma steady_ret {A} (a : A) : steady (ret a).
Proof. intros s. apply extends_refl. Qed.

Lemma steady_raise {A} (e : exn) : steady (@raise State A e).
Proof. intros s. apply extends_refl. Qed.

Lemma steady_lift {A} (r : Result A) : steady (@lift State A r).
Proof. intros s. apply extends_refl. Qed.

Lemma steady_gets {A} (f : State -> A) : steady (gets f).
Proof. intros s. apply extends_refl. Qed.

Lemma steady_bind {A B} (m : M State A) (k : A -> M State B) :
  steady m -> (forall a, steady (k a)) -> steady (bind m k).
Proof.
  intros Hm Hk s. unfold bind. specialize (Hm s).
  destruct (m s) as [[a | e |] s1]; simpl in *; try exact Hm.
  eapply extends_trans; [exact Hm | apply Hk].
Qed.

Lemma steady_try_except {A} (m : M State A) (h : exn -> option (M State A)) :
  steady m -> (forall e handler, h e = Some handler -> steady handler) ->
  steady (try_except m h).
Proof.
  intros Hm Hh s. unfold try_except. specialize (Hm s).
  destruct (m s) as [[a | e |] s1]; simpl in *; try exact Hm.
  destruct (h e) as [handler |] eqn:He; [| exact Hm].
  eapply extends_trans; [exact Hm | eapply Hh; exact He].
Qed.

Lemma steady_send (req : Request) : steady (send req).
Proof.
  intros s. split.
  - unfold send. destruct (reply _); reflexivity.
  - exists [Sent req]. apply send_trace.
Qed.

Lemma steady_sleep (d : Z) : steady (sleep d).
Proof. intros s. split; [reflexivity | exists [Slept d]; reflexivity]. Qed.

Lemma steady_set_token (v : value) : steady (modify (set_token v)).
Proof.
  intros s. split; [reflexivity | exists []; simpl; now rewrite app_nil_r].
Qed.

Lemma steady_set_expires_at (t : Z) : steady (modify (set_expires_at t)).
Proof.
  intros s. split; [reflexivity | exists []; simpl; now rewrite app_nil_r].
Qed.

Lemma steady_raise_for_status (r : Response) : steady (@raise_for_status State r).
Proof.
  unfold raise_for_status. destruct (is_success r);
    [apply steady_ret | apply steady_raise].
Qed.

#[export] Hint Resolve steady_ret steady_raise steady_lift steady_gets
  steady_send steady_sleep steady_set_token steady_set_expires_at
  steady_raise_for_status : steady.

Ltac steady_steps :=
  repeat first
    [ apply steady_bind; [| intros ?]
    | apply steady_try_except; [| intros ? ? ?]
    | solve [auto with steady] ].

Lemma steady_is_token_valid : steady _is_token_valid.
Proof.
  unfold _is_token_valid, time_time.
  apply steady_bind; [auto with steady | intros tok].
  destruct tok; steady_steps.
Qed.

Lemma steady_authenticate (settings : CriblSettings) : steady (_authenticate settings).
Proof.
  unfold _authenticate, client_post, response_json, time_time.
  steady_steps.
  match goal with H : _ = Some _ |- _ => rename H into Hh end.
  destruct e; try discriminate Hh; injection Hh as <-; apply steady_raise.
Qed.

Lemma steady_get_token (settings : CriblSettings) : steady (get_token settings).
Proof.
  unfold get_token.
  apply steady_bind; [apply steady_is_token_valid | intros valid].
  apply steady_bind; [| intros _; auto with steady].
  destruct (negb valid); [apply steady_authenticate | apply steady_ret].
Qed.

Lemma steady_get_headers (settings : CriblSettings) : steady (_get_headers settings).
Proof.
  unfold _get_headers.
  apply steady_bind; [apply steady_get_token | intros token].
  steady_steps.
Qed.

Lemma steady_submit_async (settings : CriblSettings) (query earliest latest : string) :
  steady (submit_async settings query earliest latest).
Proof.
  unfold submit_async, client_post, response_json.
  apply steady_bind; [apply steady_get_headers | intros hs].
  apply steady_bind; [auto with steady | intros response].
  apply steady_bind; [destruct (_ =? 400); auto with steady | intros _].
  apply steady_bind; [destruct (_ =? 429); steady_steps | intros _].
  steady_steps.
  match goal with
  | |- steady (match ?v with _ => _ end) => destruct v
  end; auto with steady.
Qed.

Lemma steady_clear : steady clear.
Proof. unfold clear. steady_steps. Qed.

Lemma paginate_loop_extends :
  forall fuel url headers page_size offset s,
    extends s (snd (paginate_loop fuel url headers page_size offset s)).
Proof.
  induction fuel as [| fuel IH]; intros url headers page_size offset s.
  - apply extends_refl.
  - cbn [paginate_loop].
    assert (Hfetch : steady
              (response <- client_get url
                             [("limit", page_size); ("offset", offset)]
                             (dict_set headers "Accept" "application/x-ndjson") ;;
               raise_for_status response ;;
               ret response)).
    { unfold client_get. steady_steps. }
    specialize (Hfetch s).
    destruct ((response <- client_get url
                            [("limit", page_size); ("offset", offset)]
                            (dict_set headers "Accept" "application/x-ndjson") ;;
              raise_for_status response ;;
              ret response) s) as [[response | e |] s1];
      simpl in Hfetch; try exact Hfetch.
    destruct (page_lines response) as [| first rest]; [exact Hfetch |].
    destruct (Json.loads first) as [metadata | e |]; try exact Hfetch.
    destruct (PyVal.get metadata "totalEventCount" (VInt 0)) as [total | e |];
      try exact Hfetch.
    destruct (yield_records rest) as [ys [[] | e |]]; try exact Hfetch.
    destruct (exhausted total (offset + page_size)) as [[|] | e |];
      try exact Hfetch.
    specialize (IH url headers page_size (offset + page_size) s1).
    destruct (paginate_loop fuel url headers page_size (offset + page_size) s1)
      as [[ys' r] s2].
    simpl in *. eapply extends_trans; eassumption.
Qed.

Lemma stream_by_id_extends settings job_id fuel s :
  extends s (snd (_stream_by_id settings job_id fuel s)).
Proof.
  unfold _stream_by_id.
  pose proof (steady_get_headers settings s) as Hh.
  destruct (_get_headers settings s) as [[hs | e |] s1]; simpl in Hh;
    try exact Hh.
  eapply extends_trans; [exact Hh | apply paginate_loop_extends].
Qed.

(* ===================================================================== *)
(** ** Job status over a sequence of operations *)
(* ===================================================================== *)

Lemma forward_refl (a : JobStatus) : forward a a = true.
Proof. destruct a; reflexivity. Qed.

Lemma forward_trans (a b c : JobStatus) :
  forward a b = true -> forward b c = true -> forward a c = true.
Proof. destruct a, b, c; simpl; intros; reflexivity || discriminate. Qed.

Lemma forward_from_new (a : JobStatus) : forward NEW a = true.
Proof. destruct a; reflexivity. Qed.

Lemma forward_terminal (a b : JobStatus) :
  terminal a = true -> forward a b = true -> b = a.
Proof. destruct a, b; simpl; intros; reflexivity || discriminate. Qed.

Lemma tracked_extends (u : string) (job : SearchJob) (s s' : State) :
  tracked u job s -> extends s s' -> tracked u job s'.
Proof.
  intros [Hnew | [h [r [h2 [resp [item [Hreq [Hu [Hrep Hst]]]]]]]]] [Hsrv [t Ht]].
  - now left.
  - right. exists h, r, (h2 ++ requests t)%list, resp, item.
    rewrite Ht, requests_app, Hreq, Hsrv, <- app_assoc. simpl.
    repeat split; assumption.
Qed.

Lemma send_ok_reply (req : Request) (s : State) (resp : Response) :
  fst (send req s) = Ok resp ->
  reply (server s (requests (trace s) ++ [req])%list) = Responded resp.
Proof.
  unfold send. cbn [log trace]. rewrite requests_app. simpl.
  destruct (reply _); simpl; [now intros [= ->] | discriminate].
Qed.

(** After a report the state extends [s1], the job keeps its id, and its
    status is the reported one; without a report the job is untouched. *)
Lemma after_report_job poll_interval s1 job report :
  let p' := snd (after_report poll_interval s1 job report) in
  extends s1 (fst p')
  /\ id (snd p') = id job
  /\ match report with
     | Ok (_, st) => status (snd p') = st
     | _ => snd p' = job
     end.
Proof.
  unfold after_report.
  destruct report as [[item st] | e |];
    [| repeat split; apply extends_refl | repeat split; apply extends_refl].
  destruct st; cbn [fst snd];
    try (repeat split; apply (steady_sleep poll_interval s1)).
  - destruct (PyVal.get item "numEvents" (VInt 0));
      repeat split; apply extends_refl.
  - destruct (PyVal.get item "error" (VStr "Unknown error"));
      repeat split; apply extends_refl.
  - repeat split; apply extends_refl.
Qed.

Lemma follows_refl (u : string) (p : Poll) :
  tracked u (snd p) (fst p) -> follows u p p.
Proof.
  intros Ht. repeat split; try apply extends_refl; try assumption.
  apply forward_refl.
Qed.

Lemma follows_trans (u : string) (a b c : Poll) :
  follows u a b -> follows u b c -> follows u a c.
Proof.
  intros [Hf1 [_ [He1 Hi1]]] [Hf2 [Ht2 [He2 Hi2]]].
  repeat split; try assumption.
  - eapply forward_trans; eassumption.
  - apply (extends_trans _ _ _ He1 He2).
  - apply (extends_trans _ _ _ He1 He2).
  - congruence.
Qed.

(** A move of the client alone: the job is untouched. *)
Lemma follows_client (u : string) (s s' : State) (job : SearchJob) :
  tracked u job s -> extends s s' -> follows u (s, job) (s', job).
Proof.
  intros Ht He. repeat split; try apply He.
  - apply forward_refl.
  - apply (tracked_extends _ _ _ _ Ht He).
Qed.

(** One turn of the polling loop sets the status to what the server
    reported, or leaves it. *)
Lemma wait_iteration_follows :
  forall u headers start_time poll_interval timeout s job,
    reports_forward (server s) u ->
    tracked u job s ->
    follows u (s, job)
      (snd (wait_iteration u headers start_time poll_interval timeout (s, job))).
Proof.
  intros u headers start_time poll_interval timeout s job Hsrv Ht.
  destruct (Z.le_gt_cases (now s - start_time) timeout) as [Hin | Hlate].
  2:{ rewrite wait_iteration_timeout by lia. now apply follows_refl. }
  rewrite (wait_iteration_poll _ _ _ _ _ _ _ Hin).
  pose proof (steady_send (status_request u headers) s) as Hext.
  pose proof (send_requests (status_request u headers) s) as Hreq.
  pose proof (send_ok_reply (status_request u headers) s) as Hrep.
  destruct (send (status_request u headers) s) as [[resp | e |] s1];
    cbn [fst snd] in *;
    try (now apply follows_client).
  specialize (Hrep resp eq_refl).
  destruct (after_report_job poll_interval s1 job (status_report resp))
    as [He' [Hid Hst]].
  destruct (status_report resp) as [[item st] | e |] eqn:Hreport.
  - assert (Hnow : tracked u (snd (snd (after_report poll_interval s1 job
                                          (Ok (item, st)))))
                     (fst (snd (after_report poll_interval s1 job (Ok (item, st)))))).
    { apply (tracked_extends u _ s1); [| exact He'].
      right. exists (requests (trace s)), (status_request u headers), [], resp, item.
      destruct Hext as [Hs _]. rewrite Hs, Hst.
      repeat split; assumption. }
    repeat split.
    + cbn [snd]. rewrite Hst.
      destruct Ht as [Hnew | [h [r [h2 [resp0 [item0 [Hq [Hu [Hr0 Hs0]]]]]]]]].
      * cbn [snd]. rewrite Hnew. apply forward_from_new.
      * rewrite Hq, <- app_assoc in Hrep. simpl in Hrep.
        exact (Hsrv h h2 r (status_request u headers) resp0 resp item0 item
                 (status job) st Hu eq_refl Hr0 Hs0 Hrep Hreport).
    + exact Hnow.
    + apply (extends_trans _ _ _ Hext He').
    + apply (extends_trans _ _ _ Hext He').
    + exact Hid.
  - cbn [after_report]. now apply follows_client.
  - cbn [after_report]. now apply follows_client.
Qed.

Lemma wait_loop_follows :
  forall fuel u headers start_time poll_interval timeout s job,
    reports_forward (server s) u ->
    tracked u job s ->
    follows u (s, job)
      (snd (wait_loop fuel u headers start_time poll_interval timeout (s, job))).
Proof.
  induction fuel as [| fuel IH];
    intros u headers start_time poll_interval timeout s job Hsrv Ht.
  - now apply follows_refl.
  - cbn [wait_loop]. unfold bind.
    pose proof (wait_iteration_follows u headers start_time poll_interval
                  timeout s job Hsrv Ht) as Hit.
    destruct (wait_iteration u headers start_time poll_interval timeout (s, job))
      as [[[|] | e |] [s1 job1]]; cbn [snd] in Hit; try exact Hit.
    eapply follows_trans; [exact Hit |].
    destruct Hit as [_ [Ht1 [[Hs1 _] _]]]. cbn [fst snd] in *.
    apply IH; [now rewrite Hs1 | exact Ht1].
Qed.

Lemma wait_for_job_follows :
  forall settings poll_interval timeout fuel s job,
    reports_forward (server s) (status_url settings (id job)) ->
    tracked (status_url settings (id job)) job s ->
    follows (status_url settings (id job)) (s, job)
      (snd (_wait_for_job settings poll_interval timeout fuel (s, job))).
Proof.
  intros settings poll_interval timeout fuel s job Hsrv Ht.
  unfold _wait_for_job, on_client, the_job, time_time. unfold_monad.
  cbn [fst snd].
  pose proof (steady_get_headers settings s) as Hext.
  destruct (_get_headers settings s) as [[hs | e |] s1]; cbn [fst snd] in *;
    try (now apply follows_client).
  eapply follows_trans; [apply (follows_client _ s s1 job Ht Hext) |].
  apply wait_loop_follows.
  - destruct Hext as [Hs _]. now rewrite Hs.
  - apply (tracked_extends _ _ _ _ Ht Hext).
Qed.

Lemma run_op_follows :
  forall settings op p,
    reports_forward (server (fst p)) (status_url settings (id (snd p))) ->
    tracked (status_url settings (id (snd p))) (snd p) (fst p) ->
    follows (status_url settings (id (snd p))) p (run_op settings op p).
Proof.
  intros settings op [s job] Hsrv Ht. cbn [fst snd] in *.
  destruct op as [poll_interval timeout fuel | fuel | query earliest latest |];
    cbn [run_op fst snd].
  - now apply wait_for_job_follows.
  - apply follows_client; [exact Ht | apply stream_by_id_extends].
  - apply follows_client; [exact Ht | apply steady_submit_async].
  - apply follows_client; [exact Ht | apply steady_clear].
Qed.

Lemma run_ops_moves_forward :
  forall settings ops p,
    reports_forward (server (fst p)) (status_url settings (id (snd p))) ->
    tracked (status_url settings (id (snd p))) (snd p) (fst p) ->
    moves_forward
      (status (snd p) :: map (fun p' => status (snd p')) (run_ops settings ops p)).
Proof.
  intros settings ops. induction ops as [| op rest IH]; intros p Hsrv Ht.
  - exact I.
  - cbn [run_ops map moves_forward].
    destruct (run_op_follows settings op p Hsrv Ht) as [Hf [Ht' [[Hs _] Hid]]].
    split; [exact Hf |]. split.
    + intros Hterm. apply (forward_terminal _ _ Hterm Hf).
    + apply IH; rewrite Hid; [now rewrite Hs | exact Ht'].
Qed.

(** C9 (as the code behaves).  The client keeps no order of its own on the
    statuses: each poll stores the status the server's answer names.  For
    a job as [submit] creates it (status NEW) and any sequence of client
    operations, the job's status after each operation is the one before
    it or a later one along NEW, QUEUED, RUNNING, terminal, and a terminal
    status is never changed, provided the statuses the server reports for
    the job only move forward themselves. *)
Theorem C9_status_follows_server :
  forall settings ops s job,
    reports_forward (server s) (status_url settings (id job)) ->
    status job = NEW ->
    moves_forward
      (status job
       :: map (fun p => status (snd p)) (run_ops settings ops (s, job))).
Proof.
  intros settings ops s job Hsrv Hnew.
  apply (run_ops_moves_forward settings ops (s, job)); [exact Hsrv |].
  now left.
Qed.

(** C9, as first stated, fails: a job already COMPLETED is waited on again
    and the server answers "running"; the client stores RUNNING over the
    terminal status. *)
Lemma C9_terminal_status_overwritten :
  let s := Fixtures.holding 1000
             (Fixtures.always (Fixtures.respond 200 Fixtures.running_body))
             "mock-token" 90000 in
  let job := mkJob "job-123" COMPLETED (VInt 10) in
  let job' := snd (snd (_wait_for_job Fixtures.settings 2 5 1 (s, job))) in
  status job = COMPLETED
  /\ status job' = RUNNING
  /\ forward (status job) (status job') = false
  /\ ~ moves_forward [status job; status job'].
Proof.
  intros s job job'.
  assert (H : status job' = RUNNING) by (vm_compute; reflexivity).
  split; [reflexivity |]. split; [exact H |]. split.
  - rewrite H. reflexivity.
  - rewrite H. intros [Hf _]. discriminate Hf.
Qed.

Lemma polling_script_reports_forward (u : string) :
  reports_forward (Fixtures.scripted Fixtures.polling_script) u.
Proof.
  intros h1 h2 r1 r2 resp1 resp2 item1 item2 st1 st2 _ _ H1 R1 H2 R2.
  unfold Fixtures.scripted in H1, H2.
  rewrite length_app in H1, H2. cbn [List.length] in H1, H2.
  rewrite length_app in H2. cbn [List.length] in H2.
  replace (List.length h1 + 1 - 1)%nat with (List.length h1) in H1 by lia.
  replace (List.length h1 + S (List.length h2 + 1) - 1)%nat
    with (List.length h1 + S (List.length h2))%nat in H2 by lia.
  destruct (List.length h1) as [| [| [| [| n]]]];
    destruct (List.length h2) as [| [| [| m]]];
    cbn in H1, H2;
    try discriminate H1; try discriminate H2;
    try (destruct n; discriminate H1);
    try (destruct m; discriminate H2);
    injection H1 as <-; injection H2 as <-;
    vm_compute in R1; vm_compute in R2;
    try discriminate R1; try discriminate R2;
    injection R1 as _ <-; injection R2 as _ <-; reflexivity.
Qed.

(** Three waits on a fresh job against the polling server: the status goes
    NEW, RUNNING, RUNNING, COMPLETED. *)
Lemma C9_status_follows_server_witness :
  let s := Fixtures.fresh 1000 (Fixtures.scripted Fixtures.polling_script) in
  let ops := [OpWait 2 5 1; OpWait 2 5 1; OpWait 2 5 5] in
  map (fun p => status (snd p))
    (run_ops Fixtures.settings ops (s, new_job "job-123"))
  = [RUNNING; RUNNING; COMPLETED]
  /\ moves_forward
       (NEW :: map (fun p => status (snd p))
                 (run_ops Fixtures.settings ops (s, new_job "job-123"))).
Proof.
  intros s ops. split.
  - vm_compute. reflexivity.
  - apply (C9_status_follows_server Fixtures.settings ops s (new_job "job-123")).
    + apply polling_script_reports_forward.
    + reflexivity.
Defined.

(* ===================================================================== *)
(** ** A job that never finishes *)
(* ===================================================================== *)

(** X15.  Polling a job that never leaves the non-terminal statuses ends,
    for a poll interval of at least one second, in [JobTimeoutError] naming the
    job and the timeout: the loop does not run for ever, whatever the
    timeout. *)
Theorem wait_loop_times_out :
  forall url headers start_time poll_interval timeout,
    1 <= poll_interval ->
    forall (n : nat) s job,
      never_done (server s) ->
      timeout - (now s - start_time) < Z.of_nat n ->
      exists fuel p',
        wait_loop fuel url headers start_time poll_interval timeout (s, job)
        = (Raise (JobTimeoutError (timeout_message (id job) timeout)), p').
Proof.
  intros url headers start_time poll_interval timeout Hpoll.
  induction n as [| n IH]; intros s job Hsrv Hleft.
  - exists 1%nat, (s, job). apply wait_loop_raise.
    apply wait_iteration_timeout. lia.
  - destruct (Z.le_gt_cases (now s - start_time) timeout) as [Hin | Hlate].
    2:{ exists 1%nat, (s, job). apply wait_loop_raise.
        apply wait_iteration_timeout. lia. }
    destruct (Hsrv (requests (trace s) ++ [status_request url headers])%list)
      as [resp [item [st [Hreply [Hrep Hterm]]]]].
    assert (Hsend : fst (send (status_request url headers) s) = Ok resp).
    { unfold send. cbn [log trace]. rewrite requests_app. simpl.
      rewrite Hreply. reflexivity. }
    assert (Hst : st = NEW \/ st = QUEUED \/ st = RUNNING).
    { destruct st; try discriminate Hterm; auto. }
    pose proof (wait_iteration_pending url headers start_time poll_interval
                  timeout s job resp item st Hin Hsend Hrep Hst) as Hit.
    set (s2 := snd (sleep poll_interval (snd (send (status_request url headers) s))))
      in *.
    assert (Hext : extends s s2).
    { eapply extends_trans; [apply steady_send | apply steady_sleep]. }
    assert (Hnow : now s + 1 <= now s2).
    { unfold s2. rewrite sleep_state. simpl.
      pose proof (send_now_le (status_request url headers) s). lia. }
    destruct (IH s2 (set_status st job)) as [fuel [p' Hrun]].
    + destruct Hext as [Hs _]. now rewrite Hs.
    + lia.
    + exists (S fuel), p'.
      rewrite (wait_loop_continue _ _ _ _ _ _ _ _ Hit). exact Hrun.
Qed.

(* ===================================================================== *)
(** ** The walk over the pages of a result set *)
(* ===================================================================== *)

(** X8.  From offset [o] the pager asks for the pages at [o], [o + p],
    [o + 2p], ... and stops after the first page whose next offset has
    reached the total: [k] further pages when the offsets [o + p] to
    [o + k p] are below the total and [o + (k + 1) p] is not. *)
Theorem paginate_loop_walk :
  forall url headers page_size n (k : nat) offset fuel s,
    serves_total (server s) n ->
    (forall i : nat, (0 < i <= k)%nat -> offset + Z.of_nat i * page_size < n) ->
    n <= offset + (Z.of_nat k + 1) * page_size ->
    exists ys s',
      paginate_loop (S k + fuel) url headers page_size offset s = (ys, Ok tt, s')
      /\ requests (trace s')
         = (requests (trace s)
            ++ map (fun i : nat =>
                      page_request url headers page_size
                        (offset + Z.of_nat i * page_size))
                 (seq 0 (S k)))%list.
Proof.
  intros url headers page_size n.
  induction k as [| k IH]; intros offset fuel s Hsrv Hbelow Hreach.
  - destruct (Hsrv (requests (trace s)
                    ++ [page_request url headers page_size offset])%list)
      as [resp [first [rest [metadata [ys [Hreply [Hok [Hl [Hm [Ht Hy]]]]]]]]]].
    assert (Hsend : fst (send (page_request url headers page_size offset) s) = Ok resp).
    { unfold send. cbn [log trace]. rewrite requests_app. simpl.
      rewrite Hreply. reflexivity. }
    exists ys, (snd (send (page_request url headers page_size offset) s)).
    split.
    + change (1 + fuel)%nat with (S fuel).
      rewrite (paginate_loop_page _ _ _ _ _ _ _ _ _ _ _ _ Hsend Hok Hl Hm Ht Hy).
      unfold after_page, exhausted.
      replace (offset + page_size >=? n) with true; [reflexivity |].
      symmetry. rewrite Z.geb_leb. apply Z.leb_le.
      change (Z.of_nat 0) with 0 in Hreach. lia.
    + rewrite send_requests. cbn [seq map].
      change (Z.of_nat 0) with 0.
      replace (offset + 0 * page_size) with offset by lia. reflexivity.
  - destruct (Hsrv (requests (trace s)
                    ++ [page_request url headers page_size offset])%list)
      as [resp [first [rest [metadata [ys [Hreply [Hok [Hl [Hm [Ht Hy]]]]]]]]]].
    assert (Hsend : fst (send (page_request url headers page_size offset) s) = Ok resp).
    { unfold send. cbn [log trace]. rewrite requests_app. simpl.
      rewrite Hreply. reflexivity. }
    set (s1 := snd (send (page_request url headers page_size offset) s)).
    destruct (IH (offset + page_size) fuel s1) as [ys' [s' [Hrun Hreq]]].
    + unfold s1. destruct (steady_send (page_request url headers page_size offset) s)
        as [Hs _]. now rewrite Hs.
    + intros i Hi. specialize (Hbelow (S i) ltac:(lia)).
      rewrite Nat2Z.inj_succ in Hbelow. lia.
    + rewrite Nat2Z.inj_succ in Hreach. lia.
    + exists (ys ++ ys')%list, s'. split.
      * change (S (S k) + fuel)%nat with (S (S k + fuel)).
        rewrite (paginate_loop_page _ _ _ _ _ _ _ _ _ _ _ _ Hsend Hok Hl Hm Ht Hy).
        fold s1. unfold after_page, exhausted.
        replace (offset + page_size >=? n) with false.
        -- rewrite Hrun. reflexivity.
        -- symmetry. rewrite Z.geb_leb. apply Z.leb_gt.
           specialize (Hbelow 1%nat ltac:(lia)).
           change (Z.of_nat 1) with 1 in Hbelow. lia.
      * rewrite Hreq. unfold s1. rewrite send_requests, <- app_assoc.
        f_equal. change (seq 0 (S (S k))) with (0%nat :: seq 1 (S k)).
        rewrite <- seq_shift. cbn [map app]. rewrite map_map.
        change (Z.of_nat 0) with 0.
        replace (offset + 0 * page_size) with offset by lia.
        f_equal. apply map_ext. intros i.
        replace (offset + page_size + Z.of_nat i * page_size)
          with (offset + Z.of_nat (S i) * page_size)
          by (rewrite Nat2Z.inj_succ; lia).
        reflexivity.
Qed.


(* ===================================================================== *)
(** ** The test suite, replayed on the embedding *)
(* ===================================================================== *)

Module Replay.

Import Fixtures.

(** test_get_token_authenticates_on_first_call *)
Example get_token_first_call :
  let run := get_token settings (fresh 1000 (always (respond 200 token_body))) in
  fst run = Ok (VStr "mock-token")
  /\ _expires_at (snd run) = 1000 + 86400
  /\ requests (trace (snd run)) = [auth_request settings].
Proof. repeat split; vm_compute; reflexivity. Qed.

(** test_get_token_reuses_valid_token *)
Example get_token_twice_one_request :
  let run := (get_token settings ;; get_token settings)
               (fresh 1000 (always (respond 200 token_body))) in
  fst run = Ok (VStr "mock-token")
  /\ List.length (requests (trace (snd run))) = 1%nat.
Proof. repeat split; vm_compute; reflexivity. Qed.

(** test_clear_forces_reauthentication *)
Example clear_then_get_token_two_requests :
  let run := (get_token settings ;; clear ;; get_token settings)
               (fresh 1000 (always (respond 200 token_body))) in
  fst run = Ok (VStr "mock-token")
  /\ List.length (requests (trace (snd run))) = 2%nat.
Proof. repeat split; vm_compute; reflexivity. Qed.

(** test_authentication_error_on_network_failure *)
Example get_token_network_failure :
  fst (get_token settings
         (fresh 1000 (always (mkExchange 0 (Failed "Connection refused")))))
  = Raise (AuthenticationError
             "Authentication request failed: Connection refused").
Proof. vm_compute. reflexivity. Qed.

(** test_submit_async_returns_job *)
Example submit_returns_new_job :
  fst (submit_async settings "cribl dataset=logs" "-1h" "now"
         (fresh 1000 (scripted [respond 200 token_body;
                                respond 200 (q "{'items': [{'id': 'job-abc123'}]}")])))
  = Ok (new_job "job-abc123").
Proof. vm_compute. reflexivity. Qed.

(** A 429 whose [Retry-After] is an HTTP date, not a number of seconds:
    [int] raises [ValueError] before [RateLimitError] is built. *)
Example rate_limit_with_http_date :
  fst (submit_async settings "cribl dataset=logs" "-1h" "now"
         (fresh 1000 (scripted
            [respond 200 token_body;
             mkExchange 0 (Responded (mkResponse 429 EmptyString
                [("retry-after", "Wed, 21 Oct 2015 07:28:00 GMT")]))])))
  = Raise ValueError.
Proof. vm_compute. reflexivity. Qed.

(** test_handles_empty_results: a page of metadata alone. *)
Example metadata_only_page :
  let run := paginate_results 1 results_url [] default_page_size
               (fresh 1000 (always (respond 200
                  (q "{'isFinished':true,'totalEventCount':0,'offset':0}" ++ nl)))) in
  fst run = ([], Ok tt).
Proof. vm_compute. reflexivity. Qed.

(** test_includes_ndjson_accept_header *)
Example accept_header_added :
  req_headers (page_request results_url [("Authorization", "Bearer x")] 1000 0)
  = [("Authorization", "Bearer x"); ("Accept", "application/x-ndjson")].
Proof. reflexivity. Qed.

(** test_wait_for_job_raises_timeout, with a poll interval of 2 and a
    timeout of 5 seconds: three polls, then the deadline has passed. *)
Example wait_running_times_out :
  let run := _wait_for_job settings 2 5 10
               (holding 1000 (always (respond 200 running_body)) "mock-token" 90000,
                new_job "job-123") in
  fst run = Raise (JobTimeoutError "Job job-123 did not complete within 5 seconds")
  /\ status (snd (snd run)) = RUNNING
  /\ List.length (requests (trace (fst (snd run)))) = 3%nat.
Proof. repeat split; vm_compute; reflexivity. Qed.

End Replay.

(* ********************************************************************* *)
(** * Further properties of the code *)
(* ********************************************************************* *)

(* ===================================================================== *)
(** ** Token cache: what an authentication leaves behind *)
(* ===================================================================== *)

Lemma token_usable_dec (s : State) : token_usable s \/ ~ token_usable s.
Proof.
  unfold token_usable.
  destruct (Z.lt_ge_cases (now s) (_expires_at s - 300)) as [Hlt | Hge];
    [| right; intros [_ H]; lia].
  destruct (_token s); try (left; split; [discriminate | exact Hlt]).
  right. intros [H _]. now elim H.
Qed.

(** A 2xx answer with an ["access_token"] and a whole number of seconds
    to live: the token and [now + expires_in] are stored. *)
Lemma authenticate_ok :
  forall settings s resp data tok n,
    fst (send (auth_request settings) s) = Ok resp ->
    is_success resp = true ->
    Json.loads (text resp) = Ok data ->
    PyVal.getitem data "access_token" = Ok tok ->
    PyVal.get data "expires_in" (VInt 86400) = Ok (VInt n) ->
    _authenticate settings s
    = (Ok tt,
       set_expires_at (now (snd (send (auth_request settings) s)) + n)
         (set_token tok (snd (send (auth_request settings) s)))).
Proof.
  intros settings s resp data tok n Hsend Hok Hdata Htok Hn.
  apply pair_fst_snd in Hsend.
  unfold _authenticate, client_post, response_json, raise_for_status, time_time.
  fold (auth_request settings). unfold_monad.
  rewrite Hsend, Hok. cbn. rewrite Hdata, Htok. cbn. rewrite Hn. reflexivity.
Qed.

(** A non-2xx answer. *)
Lemma authenticate_rejected :
  forall settings s resp,
    fst (send (auth_request settings) s) = Ok resp ->
    is_success resp = false ->
    _authenticate settings s
    = (Raise (AuthenticationError
                ("Authentication failed: " ++ PyStr.str_of_int (status_code resp)
                 ++ " - " ++ text resp)),
       snd (send (auth_request settings) s)).
Proof.
  intros settings s resp Hsend Hok.
  apply pair_fst_snd in Hsend.
  unfold _authenticate, client_post, response_json, raise_for_status, time_time.
  fold (auth_request settings). unfold_monad.
  rewrite Hsend, Hok. reflexivity.
Qed.

(** No answer at all. *)
Lemma authenticate_unreachable :
  forall settings s msg,
    fst (send (auth_request settings) s) = Raise (RequestError msg) ->
    _authenticate settings s
    = (Raise (AuthenticationError ("Authentication request failed: " ++ msg)),
       snd (send (auth_request settings) s)).
Proof.
  intros settings s msg Hsend.
  apply pair_fst_snd in Hsend.
  unfold _authenticate, client_post, response_json, raise_for_status, time_time.
  fold (auth_request settings). unfold_monad.
  rewrite Hsend. reflexivity.
Qed.

Lemma send_outcome (req : Request) (s : State) :
  (exists resp, fst (send req s) = Ok resp)
  \/ (exists msg, fst (send req s) = Raise (RequestError msg)).
Proof.
  unfold send. destruct (reply _) as [r | msg]; [left | right]; eexists; reflexivity.
Qed.

Lemma clear_state (s : State) :
  clear s = (Ok tt, set_expires_at 0 (set_token VNone s)).
Proof. reflexivity. Qed.

(** X1.  [clear()] followed by [get_token] sends the authentication
    request, whatever the cache held: even a token with hours to live is
    dropped. *)
Theorem X1_clear_forces_reauthentication :
  forall (settings : CriblSettings) (s : State),
    _token (snd (clear s)) = VNone
    /\ _expires_at (snd (clear s)) = 0
    /\ trace (snd ((clear ;; get_token settings) s))
       = (trace s ++ [Sent (auth_request settings)])%list.
Proof.
  intros settings s. split; [reflexivity |]. split; [reflexivity |].
  rewrite (bind_ok _ _ _ _ _ (clear_state s)).
  rewrite get_token_stale.
  - pose proof (authenticate_trace settings (set_expires_at 0 (set_token VNone s)))
      as Ht.
    destruct (_authenticate settings (set_expires_at 0 (set_token VNone s)))
      as [[u | e |] s']; exact Ht.
  - intros [H _]. now apply H.
Qed.

(** X2.  When the cache is stale and the auth endpoint answers 2xx with a
    JSON object holding ["access_token"], [get_token] returns that token
    and caches it with the expiry [now + expires_in], the clock read after
    the exchange; an object without ["expires_in"] gives 86400 seconds. *)
Theorem X2_authentication_fills_cache :
  forall settings s resp members tok n,
    ~ token_usable s ->
    fst (send (auth_request settings) s) = Ok resp ->
    is_success resp = true ->
    Json.loads (text resp) = Ok (VDict members) ->
    PyVal.assoc_last "access_token" members = Some tok ->
    match PyVal.assoc_last "expires_in" members with
    | Some ttl => ttl
    | None => VInt 86400
    end = VInt n ->
    let s1 := snd (send (auth_request settings) s) in
    let run := get_token settings s in
    fst run = Ok tok
    /\ _token (snd run) = tok
    /\ _expires_at (snd run) = now s1 + n
    /\ now (snd run) = now s1
    /\ trace (snd run) = (trace s ++ [Sent (auth_request settings)])%list.
Proof.
  intros settings s resp members tok n Hstale Hsend Hok Hdata Htok Hn s1 run.
  unfold run. rewrite (get_token_stale settings s Hstale).
  rewrite (authenticate_ok settings s resp (VDict members) tok n Hsend Hok Hdata).
  - fold s1. cbn. repeat split. unfold s1. apply send_trace.
  - cbn. now rewrite Htok.
  - cbn. now rewrite Hn.
Qed.

Lemma X2_authentication_fills_cache_witness :
  let s := Fixtures.fresh 1000 (Fixtures.always (mkExchange 3
             (Responded (mkResponse 200 (q "{'access_token': 'abc'}") [])))) in
  fst (get_token Fixtures.settings s) = Ok (VStr "abc")
  /\ _token (snd (get_token Fixtures.settings s)) = VStr "abc"
  /\ _expires_at (snd (get_token Fixtures.settings s)) = 1003 + 86400.
Proof.
  intros s.
  destruct (X2_authentication_fills_cache Fixtures.settings s
              (mkResponse 200 (q "{'access_token': 'abc'}") [])
              [("access_token", VStr "abc")] (VStr "abc") 86400)
    as [H1 [H2 [H3 _]]]; try (vm_compute; reflexivity).
  - intros [H _]. now apply H.
  - repeat split; assumption.
Defined.

(** X3.  With a stale cache, a non-2xx answer of the auth endpoint makes
    [get_token] raise [AuthenticationError] with a message that holds the
    status code and the response text, and a transport failure makes it
    raise [AuthenticationError] with the transport's message; either way
    the auth request is the only thing sent. *)
Theorem X3_authentication_error_messages :
  forall settings s,
    ~ token_usable s ->
    (forall resp,
        fst (send (auth_request settings) s) = Ok resp ->
        is_success resp = false ->
        let msg := "Authentication failed: " ++ PyStr.str_of_int (status_code resp)
                   ++ " - " ++ text resp in
        get_token settings s
        = (Raise (AuthenticationError msg), snd (send (auth_request settings) s))
        /\ PyStr.contains (PyStr.str_of_int (status_code resp)) msg = true
        /\ PyStr.contains (text resp) msg = true)
    /\ (forall msg,
          fst (send (auth_request settings) s) = Raise (RequestError msg) ->
          get_token settings s
          = (Raise (AuthenticationError ("Authentication request failed: " ++ msg)),
             snd (send (auth_request settings) s))).
Proof.
  intros settings s Hstale. split.
  - intros resp Hsend Hok msg. split; [| split].
    + rewrite (get_token_stale settings s Hstale).
      now rewrite (authenticate_rejected settings s resp Hsend Hok).
    + apply (contains_app "Authentication failed: ").
    + unfold msg.
      replace ("Authentication failed: " ++ PyStr.str_of_int (status_code resp)
               ++ " - " ++ text resp)
        with (("Authentication failed: " ++ PyStr.str_of_int (status_code resp)
               ++ " - ") ++ text resp)
        by (rewrite !app_string_assoc; reflexivity).
      apply contains_suffix.
  - intros msg Hsend.
    rewrite (get_token_stale settings s Hstale).
    now rewrite (authenticate_unreachable settings s msg Hsend).
Qed.

Lemma X3_authentication_error_messages_witness :
  let refused := Fixtures.fresh 1000
                   (Fixtures.always (mkExchange 0 (Failed "Connection refused"))) in
  let denied := Fixtures.fresh 1000
                  (Fixtures.always (Fixtures.respond 401 "invalid_client")) in
  fst (get_token Fixtures.settings denied)
  = Raise (AuthenticationError "Authentication failed: 401 - invalid_client")
  /\ fst (get_token Fixtures.settings refused)
     = Raise (AuthenticationError "Authentication request failed: Connection refused").
Proof.
  intros refused denied. split.
  - destruct (proj1 (X3_authentication_error_messages Fixtures.settings denied
                       ltac:(intros [H _]; now apply H))
                (mkResponse 401 "invalid_client" []) eq_refl eq_refl)
      as [H _].
    rewrite H. reflexivity.
  - rewrite (proj2 (X3_authentication_error_messages Fixtures.settings refused
                      ltac:(intros [H _]; now apply H))
               "Connection refused" eq_refl).
    reflexivity.
Defined.

(** X4.  A token just obtained that is not [None] and lives longer than
    the 300-second buffer is served from the cache by the next call: two
    calls in a row do what one does. *)
Theorem X4_fresh_token_is_reused :
  forall settings s resp members tok n,
    ~ token_usable s ->
    fst (send (auth_request settings) s) = Ok resp ->
    is_success resp = true ->
    Json.loads (text resp) = Ok (VDict members) ->
    PyVal.assoc_last "access_token" members = Some tok ->
    match PyVal.assoc_last "expires_in" members with
    | Some ttl => ttl
    | None => VInt 86400
    end = VInt n ->
    tok <> VNone ->
    300 < n ->
    (get_token settings ;; get_token settings) s = get_token settings s.
Proof.
  intros settings s resp members tok n Hstale Hsend Hok Hdata Htok Hn Hsome Hlong.
  assert (Hrun : get_token settings s
                 = (Ok tok,
                    set_expires_at (now (snd (send (auth_request settings) s)) + n)
                      (set_token tok (snd (send (auth_request settings) s))))).
  { rewrite (get_token_stale settings s Hstale).
    rewrite (authenticate_ok settings s resp (VDict members) tok n Hsend Hok Hdata);
      [reflexivity | cbn; now rewrite Htok | cbn; now rewrite Hn]. }
  rewrite (bind_ok _ _ _ _ _ Hrun), Hrun.
  apply get_token_usable. split; cbn; [exact Hsome | lia].
Qed.

Lemma X4_fresh_token_is_reused_witness :
  let s := Fixtures.fresh 1000 (Fixtures.always (Fixtures.respond 200 Fixtures.token_body)) in
  (get_token Fixtures.settings ;; get_token Fixtures.settings) s
  = get_token Fixtures.settings s.
Proof.
  intros s.
  apply (X4_fresh_token_is_reused Fixtures.settings s
           (mkResponse 200 Fixtures.token_body [])
           [("access_token", VStr "mock-token"); ("expires_in", VInt 86400)]
           (VStr "mock-token") 86400);
    try (vm_compute; reflexivity).
  - intros [H _]. now apply H.
  - discriminate.
Defined.

(** X5.  A token that the server gives 300 seconds or less to live, or a
    null token, is never served from the cache: the call right after the
    one that fetched it authenticates again. *)
Theorem X5_short_lived_token_is_not_cached :
  forall settings s resp members tok n,
    ~ token_usable s ->
    fst (send (auth_request settings) s) = Ok resp ->
    is_success resp = true ->
    Json.loads (text resp) = Ok (VDict members) ->
    PyVal.assoc_last "access_token" members = Some tok ->
    match PyVal.assoc_last "expires_in" members with
    | Some ttl => ttl
    | None => VInt 86400
    end = VInt n ->
    tok = VNone \/ n <= 300 ->
    trace (snd ((get_token settings ;; get_token settings) s))
    = (trace s ++ [Sent (auth_request settings); Sent (auth_request settings)])%list.
Proof.
  intros settings s resp members tok n Hstale Hsend Hok Hdata Htok Hn Hshort.
  set (s1 := snd (send (auth_request settings) s)).
  set (s2 := set_expires_at (now s1 + n) (set_token tok s1)).
  assert (Hrun : get_token settings s = (Ok tok, s2)).
  { rewrite (get_token_stale settings s Hstale).
    rewrite (authenticate_ok settings s resp (VDict members) tok n Hsend Hok Hdata);
      [reflexivity | cbn; now rewrite Htok | cbn; now rewrite Hn]. }
  rewrite (bind_ok _ _ _ _ _ Hrun).
  assert (Hstale2 : ~ token_usable s2).
  { intros [H1 H2]. cbn in H1, H2. destruct Hshort as [-> | Hle]; [now apply H1 | lia]. }
  rewrite (get_token_stale settings s2 Hstale2).
  pose proof (authenticate_trace settings s2) as Ht.
  assert (Hs2 : trace s2 = (trace s ++ [Sent (auth_request settings)])%list).
  { unfold s2, s1. cbn. apply send_trace. }
  destruct (_authenticate settings s2) as [[u | e |] s3]; cbn in *;
    rewrite Ht, Hs2, <- app_assoc; reflexivity.
Qed.

Lemma X5_short_lived_token_is_not_cached_witness :
  let s := Fixtures.fresh 1000 (Fixtures.always (Fixtures.respond 200
             (q "{'access_token': 'brief', 'expires_in': 300}"))) in
  List.length (requests (trace (snd
    ((get_token Fixtures.settings ;; get_token Fixtures.settings) s)))) = 2%nat.
Proof.
  intros s.
  rewrite (X5_short_lived_token_is_not_cached Fixtures.settings s
             (mkResponse 200 (q "{'access_token': 'brief', 'expires_in': 300}") [])
             [("access_token", VStr "brief"); ("expires_in", VInt 300)]
             (VStr "brief") 300);
    try (vm_compute; reflexivity).
  - intros [H _]. now apply H.
  - right. discriminate.
Defined.

(** X6.  A 2xx answer of the auth endpoint without ["access_token"]
    raises [KeyError], and one whose body is not JSON raises the decoder's
    exception: neither is turned into [AuthenticationError], and the cache
    keeps what it held. *)
Theorem X6_malformed_token_response :
  forall settings s resp,
    ~ token_usable s ->
    fst (send (auth_request settings) s) = Ok resp ->
    is_success resp = true ->
    let s1 := snd (send (auth_request settings) s) in
    (forall members,
        Json.loads (text resp) = Ok (VDict members) ->
        PyVal.assoc_last "access_token" members = None ->
        get_token settings s = (Raise KeyError, s1))
    /\ (forall e,
          Json.loads (text resp) = Raise e ->
          get_token settings s = (Raise e, s1))
    /\ _token s1 = _token s
    /\ _expires_at s1 = _expires_at s.
Proof.
  intros settings s resp Hstale Hsend Hok s1.
  pose proof (send_cache (auth_request settings) s) as [Hc1 Hc2].
  apply pair_fst_snd in Hsend. fold s1 in Hsend.
  assert (Hrun : forall e,
            and_then (Json.loads (text resp))
              (fun data => PyVal.getitem data "access_token") = Raise e ->
            get_token settings s = (Raise e, s1)).
  { intros e He. rewrite (get_token_stale settings s Hstale).
    unfold _authenticate, client_post, response_json, raise_for_status, time_time.
    fold (auth_request settings). unfold_monad.
    rewrite Hsend, Hok. cbn.
    destruct (Json.loads (text resp)) as [data | e' |]; cbn in He |- *;
      try discriminate.
    - rewrite He. reflexivity.
    - injection He as ->. reflexivity. }
  repeat split; try assumption.
  - intros members Hdata Hnone. apply Hrun. rewrite Hdata. cbn. now rewrite Hnone.
  - intros e Hdata. apply Hrun. now rewrite Hdata.
Qed.

Lemma X6_malformed_token_response_witness :
  let s body := Fixtures.holding 1000 (Fixtures.always (Fixtures.respond 200 body))
                  "old-token" 1100 in
  get_token Fixtures.settings (s (q "{'token': 'abc'}"))
  = (Raise KeyError, snd (send (auth_request Fixtures.settings) (s (q "{'token': 'abc'}"))))
  /\ fst (get_token Fixtures.settings (s "<html>")) = Raise JSONDecodeError.
Proof.
  intros s. split.
  - apply (proj1 (X6_malformed_token_response Fixtures.settings
                    (s (q "{'token': 'abc'}"))
                    (mkResponse 200 (q "{'token': 'abc'}") [])
                    ltac:(intros [_ H]; vm_compute in H; discriminate H)
                    eq_refl eq_refl)
             [("token", VStr "abc")]); vm_compute; reflexivity.
  - rewrite (proj1 (proj2 (X6_malformed_token_response Fixtures.settings
                             (s "<html>") (mkResponse 200 "<html>" [])
                             ltac:(intros [_ H]; vm_compute in H; discriminate H)
                             eq_refl eq_refl))
               JSONDecodeError ltac:(vm_compute; reflexivity)).
    reflexivity.
Defined.

(** X7.  A 2xx answer whose ["expires_in"] is not a number (a string, a
    list, an object or null) raises [TypeError] after the new token was
    stored: the cache is left with the new token and the old expiry. *)
Theorem X7_bad_expires_in_half_updates_cache :
  forall settings s resp members tok ttl,
    ~ token_usable s ->
    fst (send (auth_request settings) s) = Ok resp ->
    is_success resp = true ->
    Json.loads (text resp) = Ok (VDict members) ->
    PyVal.assoc_last "access_token" members = Some tok ->
    PyVal.assoc_last "expires_in" members = Some ttl ->
    match ttl with
    | VInt _ | VBool _ | VFloat _ => False
    | _ => True
    end ->
    let run := get_token settings s in
    fst run = Raise TypeError
    /\ _token (snd run) = tok
    /\ _expires_at (snd run) = _expires_at s.
Proof.
  intros settings s resp members tok ttl Hstale Hsend Hok Hdata Htok Httl Hbad run.
  pose proof (send_cache (auth_request settings) s) as [_ Hc2].
  apply pair_fst_snd in Hsend.
  unfold run. rewrite (get_token_stale settings s Hstale).
  unfold _authenticate, client_post, response_json, raise_for_status, time_time.
  fold (auth_request settings). unfold_monad.
  rewrite Hsend, Hok. cbn. rewrite Hdata. cbn. rewrite Htok. cbn. rewrite Httl.
  destruct ttl; cbn; try contradiction; repeat split; exact Hc2.
Qed.

Lemma X7_bad_expires_in_half_updates_cache_witness :
  let s := Fixtures.holding 1000
             (Fixtures.always (Fixtures.respond 200
                (q "{'access_token': 'new', 'expires_in': '3600'}")))
             "old-token" 1100 in
  fst (get_token Fixtures.settings s) = Raise TypeError
  /\ _token (snd (get_token Fixtures.settings s)) = VStr "new"
  /\ _expires_at (snd (get_token Fixtures.settings s)) = 1100.
Proof.
  intros s.
  apply (X7_bad_expires_in_half_updates_cache Fixtures.settings s
           (mkResponse 200 (q "{'access_token': 'new', 'expires_in': '3600'}") [])
           [("access_token", VStr "new"); ("expires_in", VStr "3600")]
           (VStr "new") (VStr "3600"));
    try (vm_compute; reflexivity).
  intros [_ H]. vm_compute in H. discriminate H.
Defined.

(* ===================================================================== *)
(** ** Pager: failures, stopping, and what is sent *)
(* ===================================================================== *)

Lemma page_requests_succ url headers page_size offset (k : nat) :
  page_requests url headers page_size offset (S k)
  = page_request url headers page_size offset
    :: page_requests url headers page_size (offset + page_size) k.
Proof.
  unfold page_requests.
  change (seq 0 (S k)) with (0%nat :: seq 1 k).
  rewrite <- seq_shift. cbn [map]. rewrite map_map.
  change (Z.of_nat 0) with 0.
  replace (offset + 0 * page_size) with offset by lia.
  f_equal. apply map_ext. intros i.
  replace (offset + page_size + Z.of_nat i * page_size)
    with (offset + Z.of_nat (S i) * page_size)
    by (rewrite Nat2Z.inj_succ; lia).
  reflexivity.
Qed.

(** A page that is not answered 2xx, or not answered at all. *)
Lemma paginate_loop_failed_fetch :
  forall fuel url headers page_size offset s e,
    (forall resp,
        fst (send (page_request url headers page_size offset) s) = Ok resp ->
        is_success resp = false /\ e = HTTPStatusError (status_code resp) (text resp)) ->
    (forall msg,
        fst (send (page_request url headers page_size offset) s)
        = Raise (RequestError msg) -> e = RequestError msg) ->
    paginate_loop (S fuel) url headers page_size offset s
    = ([], Raise e, snd (send (page_request url headers page_size offset) s)).
Proof.
  intros fuel url headers page_size offset s e Hresp Hfail.
  cbn [paginate_loop]. unfold client_get.
  fold (page_request url headers page_size offset). unfold bind, raise_for_status.
  destruct (send_outcome (page_request url headers page_size offset) s)
    as [[resp Hs] | [msg Hs]].
  - destruct (Hresp resp Hs) as [Hok ->].
    rewrite (pair_fst_snd _ _ Hs), Hok. reflexivity.
  - rewrite (Hfail msg Hs). rewrite (pair_fst_snd _ _ Hs). reflexivity.
Qed.

(** X9.  A page answered with a status outside 2xx raises
    [HTTPStatusError], and a page not answered at all raises the
    transport's error; the request is not repeated.  When that happens on
    the page after a good one, the records of the good page have been
    yielded and nothing more is. *)
Theorem X9_failed_page_aborts :
  forall fuel url headers page_size offset s,
    let req := page_request url headers page_size offset in
    let s1 := snd (send req s) in
    (forall resp,
        fst (send req s) = Ok resp -> is_success resp = false ->
        paginate_loop (S fuel) url headers page_size offset s
        = ([], Raise (HTTPStatusError (status_code resp) (text resp)), s1))
    /\ (forall msg,
          fst (send req s) = Raise (RequestError msg) ->
          paginate_loop (S fuel) url headers page_size offset s
          = ([], Raise (RequestError msg), s1))
    /\ requests (trace s1) = (requests (trace s) ++ [req])%list
    /\ (forall resp first rest metadata n ys resp2,
          fst (send req s) = Ok resp ->
          is_success resp = true ->
          page_lines resp = first :: rest ->
          Json.loads first = Ok metadata ->
          PyVal.get metadata "totalEventCount" (VInt 0) = Ok (VInt n) ->
          yield_records rest = (ys, Ok tt) ->
          offset + page_size < n ->
          fst (send (page_request url headers page_size (offset + page_size)) s1)
          = Ok resp2 ->
          is_success resp2 = false ->
          paginate_loop (S (S fuel)) url headers page_size offset s
          = (ys, Raise (HTTPStatusError (status_code resp2) (text resp2)),
             snd (send (page_request url headers page_size (offset + page_size)) s1))).
Proof.
  intros fuel url headers page_size offset s req s1.
  split; [| split; [| split]].
  - intros resp Hs Hok. apply paginate_loop_failed_fetch.
    + intros r Hr. unfold req in Hs. rewrite Hs in Hr. injection Hr as <-.
      now split.
    + intros msg Hm. unfold req in Hs. rewrite Hs in Hm. discriminate Hm.
  - intros msg Hs. apply paginate_loop_failed_fetch.
    + intros r Hr. unfold req in Hs. rewrite Hs in Hr. discriminate Hr.
    + intros m Hm. unfold req in Hs. rewrite Hs in Hm. now injection Hm as <-.
  - apply send_requests.
  - intros resp first rest metadata n ys resp2 Hs Hok Hl Hm Ht Hy Hmore Hs2 Hok2.
    rewrite (paginate_loop_page _ _ _ _ _ _ _ _ _ _ _ _ Hs Hok Hl Hm Ht Hy).
    fold req. fold s1. unfold after_page, exhausted.
    replace (offset + page_size >=? n) with false
      by (symmetry; rewrite Z.geb_leb; apply Z.leb_gt; exact Hmore).
    rewrite (paginate_loop_failed_fetch fuel url headers page_size
               (offset + page_size) s1
               (HTTPStatusError (status_code resp2) (text resp2))).
    + now rewrite app_nil_r.
    + intros r Hr. rewrite Hs2 in Hr. injection Hr as <-. now split.
    + intros msg Hm'. rewrite Hs2 in Hm'. discriminate Hm'.
Qed.

(** The first page is served, the second is answered 500: the two records
    of the first page, then the error. *)
Lemma X9_failed_page_aborts_witness :
  let s := Fixtures.fresh 0 (Fixtures.scripted
             [Fixtures.respond 200 Fixtures.page1;
              Fixtures.respond 500 "Internal Server Error"]) in
  fst (paginate_loop 2 Fixtures.results_url [] 2 0 s)
  = ([VDict [("id", VInt 1)]; VDict [("id", VInt 2)]],
     Raise (HTTPStatusError 500 "Internal Server Error")).
Proof.
  intros s.
  rewrite (proj2 (proj2 (proj2 (X9_failed_page_aborts 0 Fixtures.results_url [] 2 0 s)))
             (mkResponse 200 Fixtures.page1 [])
             (q "{'isFinished':false,'totalEventCount':3,'offset':0}")
             [q "{'id':1}"; q "{'id':2}"]
             (VDict [("isFinished", VBool false); ("totalEventCount", VInt 3);
                     ("offset", VInt 0)])
             3 [VDict [("id", VInt 1)]; VDict [("id", VInt 2)]]
             (mkResponse 500 "Internal Server Error" []));
    vm_compute; reflexivity.
Defined.

(** The page of a server that serves a total, read by one turn of the
    loop. *)
Lemma served_page :
  forall fuel url headers page_size n offset s,
    serves_total (server s) n ->
    exists ys,
      paginate_loop (S fuel) url headers page_size offset s
      = after_page fuel url headers page_size (offset + page_size) (VInt n) ys
          (snd (send (page_request url headers page_size offset) s)).
Proof.
  intros fuel url headers page_size n offset s Hsrv.
  destruct (Hsrv (requests (trace s)
                  ++ [page_request url headers page_size offset])%list)
    as [resp [first [rest [metadata [ys [Hreply [Hok [Hl [Hm [Ht Hy]]]]]]]]]].
  assert (Hsend : fst (send (page_request url headers page_size offset) s) = Ok resp).
  { unfold send. cbn [log trace]. rewrite requests_app. simpl.
    rewrite Hreply. reflexivity. }
  exists ys.
  apply (paginate_loop_page _ _ _ _ _ _ _ _ _ _ _ _ Hsend Hok Hl Hm Ht Hy).
Qed.

(** X10.  With a page size of zero or less the offset never reaches a
    positive total: against a server that keeps serving pages the loop
    sends a request per unit of fuel and is never done. *)
Theorem X10_nonpositive_page_size_never_ends :
  forall url headers page_size n,
    page_size <= 0 ->
    forall fuel offset s,
      serves_total (server s) n ->
      offset + page_size < n ->
      let run := paginate_loop fuel url headers page_size offset s in
      snd (fst run) = OutOfFuel
      /\ requests (trace (snd run))
         = (requests (trace s) ++ page_requests url headers page_size offset fuel)%list.
Proof.
  intros url headers page_size n Hp.
  induction fuel as [| fuel IH]; intros offset s Hsrv Hlow run.
  - split; [reflexivity |]. cbn. now rewrite app_nil_r.
  - unfold run.
    destruct (served_page fuel url headers page_size n offset s Hsrv) as [ys Hpage].
    rewrite Hpage. unfold after_page, exhausted.
    replace (offset + page_size >=? n) with false
      by (symmetry; rewrite Z.geb_leb; apply Z.leb_gt; exact Hlow).
    set (s1 := snd (send (page_request url headers page_size offset) s)).
    destruct (IH (offset + page_size) s1) as [Hout Hreq].
    + unfold s1.
      destruct (steady_send (page_request url headers page_size offset) s) as [Hs _].
      now rewrite Hs.
    + lia.
    + destruct (paginate_loop fuel url headers page_size (offset + page_size) s1)
        as [[ys' r] s2].
      cbn [fst snd] in Hout, Hreq |- *. split; [exact Hout |].
      rewrite Hreq. unfold s1.
      rewrite send_requests, <- app_assoc, page_requests_succ.
      reflexivity.
Qed.

Lemma always_page_serves_total (body first : string) (rest : list string)
    (metadata : value) (ys : list value) (n : Z) :
  page_lines (mkResponse 200 body []) = first :: rest ->
  Json.loads first = Ok metadata ->
  PyVal.get metadata "totalEventCount" (VInt 0) = Ok (VInt n) ->
  yield_records rest = (ys, Ok tt) ->
  serves_total (Fixtures.always (Fixtures.respond 200 body)) n.
Proof.
  intros Hl Hm Ht Hy h.
  exists (mkResponse 200 body []), first, rest, metadata, ys.
  repeat split; assumption.
Qed.

(** Page size 0 against a server that reports three records: five units
    of fuel, five requests, all at offset 0, and no end. *)
Lemma X10_nonpositive_page_size_never_ends_witness :
  let s := Fixtures.fresh 0 (Fixtures.always (Fixtures.respond 200 Fixtures.page2)) in
  snd (fst (paginate_loop 5 Fixtures.results_url [] 0 0 s)) = OutOfFuel
  /\ requests (trace (snd (paginate_loop 5 Fixtures.results_url [] 0 0 s)))
     = page_requests Fixtures.results_url [] 0 0 5.
Proof.
  intros s.
  apply (X10_nonpositive_page_size_never_ends Fixtures.results_url [] 0 3
           ltac:(discriminate) 5%nat 0 s).
  - apply (always_page_serves_total Fixtures.page2
             (q "{'isFinished':true,'totalEventCount':3,'offset':2}")
             [q "{'id':3}"]
             (VDict [("isFinished", VBool true); ("totalEventCount", VInt 3);
                     ("offset", VInt 2)])
             [VDict [("id", VInt 3)]] 3); vm_compute; reflexivity.
  - reflexivity.
Defined.

(** Three records at page size 2 against a server that reports the total
    on every page: two requests, at offsets 0 and 2. *)
Lemma paginate_loop_walk_witness :
  let s := Fixtures.fresh 0 (Fixtures.always (Fixtures.respond 200 Fixtures.page2)) in
  exists ys s',
    paginate_loop 2 Fixtures.results_url [] 2 0 s = (ys, Ok tt, s')
    /\ requests (trace s')
       = [page_request Fixtures.results_url [] 2 0;
          page_request Fixtures.results_url [] 2 2].
Proof.
  intros s.
  apply (paginate_loop_walk Fixtures.results_url [] 2 3 1%nat 0 0%nat s).
  - apply (always_page_serves_total Fixtures.page2
             (q "{'isFinished':true,'totalEventCount':3,'offset':2}")
             [q "{'id':3}"]
             (VDict [("isFinished", VBool true); ("totalEventCount", VInt 3);
                     ("offset", VInt 2)])
             [VDict [("id", VInt 3)]] 3); vm_compute; reflexivity.
  - intros i Hi. assert (i = 1%nat) as -> by lia. reflexivity.
  - discriminate.
Defined.

(** X11.  When the metadata line has no ["totalEventCount"] (and the page
    size is not negative), or has it null, the first page is the last:
    its records are yielded, whatever their number, and no second request
    is sent. *)
Theorem X11_missing_total_stops_after_first_page :
  forall fuel url headers page_size s resp first rest members ys,
    fst (send (page_request url headers page_size 0) s) = Ok resp ->
    is_success resp = true ->
    page_lines resp = first :: rest ->
    Json.loads first = Ok (VDict members) ->
    yield_records rest = (ys, Ok tt) ->
    (PyVal.assoc_last "totalEventCount" members = None /\ 0 <= page_size)
    \/ PyVal.assoc_last "totalEventCount" members = Some VNone ->
    paginate_results (S fuel) url headers page_size s
    = (ys, Ok tt, snd (send (page_request url headers page_size 0) s))
    /\ requests (trace (snd (send (page_request url headers page_size 0) s)))
       = (requests (trace s) ++ [page_request url headers page_size 0])%list.
Proof.
  intros fuel url headers page_size s resp first rest members ys
         Hsend Hok Hl Hm Hy Htotal.
  split; [| apply send_requests].
  unfold paginate_results.
  destruct Htotal as [[Hnone Hp] | Hnull].
  - rewrite (paginate_loop_page _ _ _ _ _ _ _ _ _ _ (VInt 0) _ Hsend Hok Hl Hm
               ltac:(cbn; now rewrite Hnone) Hy).
    unfold after_page, exhausted.
    replace (0 + page_size >=? 0) with true
      by (symmetry; rewrite Z.geb_leb; apply Z.leb_le; lia).
    reflexivity.
  - rewrite (paginate_loop_page _ _ _ _ _ _ _ _ _ _ VNone _ Hsend Hok Hl Hm
               ltac:(cbn; now rewrite Hnull) Hy).
    reflexivity.
Qed.

(** A full first page of two records whose metadata names no total: both
    records, one request. *)
Lemma X11_missing_total_stops_after_first_page_witness :
  let body := q "{'isFinished':false}" ++ nl ++ q "{'id':1}" ++ nl ++ q "{'id':2}" in
  let s := Fixtures.fresh 0 (Fixtures.always (Fixtures.respond 200 body)) in
  fst (paginate_results 3 Fixtures.results_url [] 2 s)
  = ([VDict [("id", VInt 1)]; VDict [("id", VInt 2)]], Ok tt).
Proof.
  intros body s.
  rewrite (proj1 (X11_missing_total_stops_after_first_page 2 Fixtures.results_url
                    [] 2 s (mkResponse 200 body [])
                    (q "{'isFinished':false}") [q "{'id':1}"; q "{'id':2}"]
                    [("isFinished", VBool false)]
                    [VDict [("id", VInt 1)]; VDict [("id", VInt 2)]]
                    ltac:(vm_compute; reflexivity) ltac:(vm_compute; reflexivity)
                    ltac:(vm_compute; reflexivity) ltac:(vm_compute; reflexivity)
                    ltac:(vm_compute; reflexivity)
                    ltac:(left; split; [reflexivity | discriminate]))).
  reflexivity.
Defined.

(** Whatever the server answers, the pager's loop sends nothing but GETs
    of its URL with the headers it was given (plus [Accept]), the limit
    [page_size] and the offsets [offset], [offset + page_size], ... in
    that order, at most one per unit of fuel; it never sleeps and never
    touches the token cache. *)
Lemma paginate_loop_sends :
  forall fuel url headers page_size offset s,
    let s' := snd (paginate_loop fuel url headers page_size offset s) in
    exists k : nat,
      (k <= fuel)%nat
      /\ requests (trace s')
         = (requests (trace s) ++ page_requests url headers page_size offset k)%list
      /\ sleeps (trace s') = sleeps (trace s)
      /\ _token s' = _token s
      /\ _expires_at s' = _expires_at s.
Proof.
  induction fuel as [| fuel IH]; intros url headers page_size offset s s'.
  - exists 0%nat. unfold s'. cbn. rewrite app_nil_r. repeat split. lia.
  - set (req := page_request url headers page_size offset).
    set (s1 := snd (send req s)).
    assert (Hstop : exists k : nat,
               (k <= S fuel)%nat
               /\ requests (trace s1)
                  = (requests (trace s)
                     ++ page_requests url headers page_size offset k)%list
               /\ sleeps (trace s1) = sleeps (trace s)
               /\ _token s1 = _token s
               /\ _expires_at s1 = _expires_at s).
    { exists 1%nat. unfold s1, req.
      destruct (send_cache (page_request url headers page_size offset) s) as [Hc1 Hc2].
      rewrite send_requests, send_sleeps, page_requests_succ.
      repeat split; try assumption. lia. }
    unfold s'. cbn [paginate_loop]. unfold client_get.
    fold (page_request url headers page_size offset). fold req.
    unfold bind, raise_for_status.
    destruct (send req s) as [[response | e |] s1'] eqn:Hsend;
      cbn [snd] in s1; subst s1; try exact Hstop.
    destruct (is_success response); unfold ret; [| exact Hstop].
    destruct (page_lines response) as [| first rest]; [exact Hstop |].
    destruct (Json.loads first) as [metadata | e |]; try exact Hstop.
    destruct (PyVal.get metadata "totalEventCount" (VInt 0)) as [total | e |];
      try exact Hstop.
    destruct (yield_records rest) as [ys [[] | e |]]; try exact Hstop.
    destruct (exhausted total (offset + page_size)) as [[|] | e |];
      try exact Hstop.
    destruct (IH url headers page_size (offset + page_size) s1')
      as [k [Hk [Hreq [Hsl [Ht He]]]]].
    destruct (paginate_loop fuel url headers page_size (offset + page_size) s1')
      as [[ys' r] s2].
    cbn [snd] in *.
    destruct Hstop as [_ [_ [_ [Hsl1 [Ht1 He1]]]]].
    exists (S k). repeat split; try congruence; [lia |].
    rewrite Hreq, page_requests_succ.
    pose proof (send_requests req s) as Hr1. rewrite Hsend in Hr1. cbn [snd] in Hr1.
    rewrite Hr1, <- app_assoc. reflexivity.
Qed.

(** X12.  Whatever the server answers, streaming the results of a job
    sends, once it has its headers, nothing but GETs of that job's results
    URL with those headers plus [Accept: application/x-ndjson], the limit
    1000 and the offsets 0, 1000, 2000, ... in that order; it never sleeps
    and never touches the token cache, so a token that expires on the way
    is not renewed. *)
Theorem X12_stream_sends_only_page_requests :
  forall settings job_id fuel s headers s1,
    _get_headers settings s = (Ok headers, s1) ->
    let s' := snd (_stream_by_id settings job_id fuel s) in
    exists k : nat,
      (k <= fuel)%nat
      /\ requests (trace s')
         = (requests (trace s1)
            ++ page_requests (job_results_url settings job_id) headers 1000 0 k)%list
      /\ sleeps (trace s') = sleeps (trace s1)
      /\ _token s' = _token s1
      /\ _expires_at s' = _expires_at s1.
Proof.
  intros settings job_id fuel s headers s1 Hh s'.
  unfold s', _stream_by_id, paginate_results. rewrite Hh.
  apply paginate_loop_sends.
Qed.

(** The two pages of the test suite, read with a cached token. *)
Lemma X12_stream_sends_only_page_requests_witness :
  let s := Fixtures.holding 1000
             (Fixtures.scripted [Fixtures.respond 200 Fixtures.page1;
                                 Fixtures.respond 200 Fixtures.page2])
             "mock-token" 90000 in
  let s' := snd (_stream_by_id Fixtures.settings "job-123" 5 s) in
  exists k : nat,
    (k <= 5)%nat
    /\ requests (trace s')
       = page_requests (job_results_url Fixtures.settings "job-123")
           (auth_headers "mock-token") 1000 0 k
    /\ sleeps (trace s') = []
    /\ _token s' = VStr "mock-token"
    /\ _expires_at s' = 90000.
Proof.
  intros s.
  apply (X12_stream_sends_only_page_requests Fixtures.settings "job-123" 5 s
           (auth_headers "mock-token") s).
  reflexivity.
Defined.

Lemma yield_records_bad_line :
  forall good bad rest e,
    (forall line, In line good -> nonblank line = true ->
                  exists v, Json.loads line = Ok v) ->
    nonblank bad = true ->
    Json.loads bad = Raise e ->
    exists ys,
      yield_records (good ++ bad :: rest) = (ys, Raise e)
      /\ Forall2 (fun line v => Json.loads line = Ok v) (filter nonblank good) ys.
Proof.
  induction good as [| line good IH]; intros bad rest e Hdec Hb He.
  - exists []. split; [| constructor].
    cbn [app yield_records]. fold (nonblank bad). now rewrite Hb, He.
  - destruct (IH bad rest e) as [ys [Hy Hf]]; try assumption.
    { intros l Hin. apply Hdec. now right. }
    cbn [app yield_records filter]. fold (nonblank line).
    destruct (nonblank line) eqn:Hn.
    + destruct (Hdec line (or_introl eq_refl) Hn) as [v Hv].
      exists (v :: ys). rewrite Hv, Hy. split; [reflexivity |].
      constructor; assumption.
    + exists ys. split; assumption.
Qed.

(** X13.  A record line that does not decode ends the pagination with the
    decoder's exception: the records of the lines before it have been
    yielded, in order, those after it are not, and no further page is
    requested. *)
Theorem X13_bad_record_line_aborts :
  forall fuel url headers page_size offset s resp first good bad rest members e,
    fst (send (page_request url headers page_size offset) s) = Ok resp ->
    is_success resp = true ->
    page_lines resp = first :: (good ++ bad :: rest)%list ->
    Json.loads first = Ok (VDict members) ->
    (forall line, In line good -> nonblank line = true ->
                  exists v, Json.loads line = Ok v) ->
    nonblank bad = true ->
    Json.loads bad = Raise e ->
    exists ys,
      Forall2 (fun line v => Json.loads line = Ok v) (filter nonblank good) ys
      /\ paginate_loop (S fuel) url headers page_size offset s
         = (ys, Raise e, snd (send (page_request url headers page_size offset) s)).
Proof.
  intros fuel url headers page_size offset s resp first good bad rest members e
         Hsend Hok Hl Hm Hdec Hb He.
  destruct (yield_records_bad_line good bad rest e Hdec Hb He) as [ys [Hy Hf]].
  exists ys. split; [exact Hf |].
  apply pair_fst_snd in Hsend.
  cbn [paginate_loop]. unfold client_get.
  fold (page_request url headers page_size offset).
  unfold bind, raise_for_status. rewrite Hsend, Hok. unfold ret.
  rewrite Hl, Hm. cbn [PyVal.get]. rewrite Hy. reflexivity.
Qed.

(** A page cut in the middle of its second record. *)
Lemma X13_bad_record_line_aborts_witness :
  let body := q "{'totalEventCount':3}" ++ nl ++ q "{'id':1}" ++ nl
              ++ q "{'id':" ++ nl ++ q "{'id':3}" in
  let s := Fixtures.fresh 0 (Fixtures.always (Fixtures.respond 200 body)) in
  exists ys,
    Forall2 (fun line v => Json.loads line = Ok v) [q "{'id':1}"] ys
    /\ paginate_loop 4 Fixtures.results_url [] 2 0 s
       = (ys, Raise JSONDecodeError,
          snd (send (page_request Fixtures.results_url [] 2 0) s)).
Proof.
  intros body s.
  apply (X13_bad_record_line_aborts 3 Fixtures.results_url [] 2 0 s
           (mkResponse 200 body [])
           (q "{'totalEventCount':3}") [q "{'id':1}"] (q "{'id':") [q "{'id':3}"]
           [("totalEventCount", VInt 3)] JSONDecodeError).
  - reflexivity.
  - reflexivity.
  - vm_compute. reflexivity.
  - vm_compute. reflexivity.
  - intros line [<- | []] _. eexists. vm_compute. reflexivity.
  - reflexivity.
  - vm_compute. reflexivity.
Defined.

(* ===================================================================== *)
(** ** The exceptions of the decoder *)
(* ===================================================================== *)

Lemma scan_string_exn :
  forall (n : nat) (s : string) (e : exn),
    (String.length s <= n)%nat ->
    Json.scan_string s = Raise e -> decoder_exn e.
Proof.
  induction n as [| n IH]; intros s e Hlen.
  - destruct s; [| simpl in Hlen; lia]. cbn. intros [= <-]. now left.
  - destruct s as [| c r]; cbn [Json.scan_string].
    + intros [= <-]. now left.
    + simpl in Hlen.
      destruct (Ascii.eqb c Json.dq); [discriminate |].
      destruct (Ascii.eqb c "\").
      * destruct r as [| x r']; [intros [= <-]; now left |].
        simpl in Hlen.
        assert (Hrec : forall (a : ascii) (e : exn),
                   match Json.scan_string r' with
                   | Ok (t, rest) => Ok (String a t, rest)
                   | other => other
                   end = Raise e -> decoder_exn e).
        { intros a e0. destruct (Json.scan_string r') as [[t rest] | e1 |] eqn:E;
            try discriminate.
          intros [= <-]. apply (IH r' e1); [lia | exact E]. }
        repeat match goal with
               | |- context [if Ascii.eqb x ?b then _ else _] => destruct (Ascii.eqb x b)
               end; try (apply Hrec); try (intros [= <-]; now left).
        destruct r' as [| a [| b [| c0 [| d r4]]]];
          try (intros [= <-]; now left).
        destruct (Json.hex4 a b c0 d) as [k |]; [| intros [= <-]; now left].
        destruct (k <? 256)%nat; [| intros [= <-]; right; eexists; reflexivity].
        destruct (Json.scan_string r4) as [[t rest] | e1 |] eqn:E; try discriminate.
        intros [= <-]. apply (IH r4 e1); [simpl in Hlen; lia | exact E].
      * destruct (nat_of_ascii c <? 32)%nat; [intros [= <-]; now left |].
        destruct (Json.scan_string r) as [[t rest] | e1 |] eqn:E; try discriminate.
        intros [= <-]. apply (IH r e1); [lia | exact E].
Qed.

Ltac by_decoder := intros [= <-]; now left.

Ltac split_char c :=
  destruct c as [[|] [|] [|] [|] [|] [|] [|] [|]]; try by_decoder; try discriminate.

Lemma scan_once_exn :
  forall (fuel : nat) (s : string) (e : exn),
    Json.scan_once fuel s = Raise e -> decoder_exn e.
Proof.
  induction fuel as [| fuel IH]; intros s e.
  - discriminate.
  - cbn [Json.scan_once].
    set (arr := fix array_items (n : nat) (s0 : string) {struct n}
                  : Result (list value * string) := _).
    set (obj := fix object_members (n : nat) (s0 : string) {struct n}
                  : Result (list (string * value) * string) := _).
    assert (Harr : forall n s0 e0, arr n s0 = Raise e0 -> decoder_exn e0).
    { induction n as [| n IHn]; intros s0 e0; [discriminate |].
      subst arr.
      cbn -[Json.strip_prefix Json.scan_string Json.skip_ws Json.scan_once].
      destruct (Json.scan_once fuel s0) as [[v r] | e1 |] eqn:E; try discriminate.
      - destruct (Json.skip_ws r) as [| c r'] eqn:Er; [by_decoder |].
        split_char c.
        match goal with
        | |- context [match ?f n ?x with _ => _ end] =>
            destruct (f n x) as [[vs rest] | e1 |] eqn:E1; try discriminate
        end.
        intros [= <-]. apply (IHn _ _ E1).
      - intros [= <-]. apply (IH _ _ E). }
    assert (Hobj : forall n s0 e0, obj n s0 = Raise e0 -> decoder_exn e0).
    { induction n as [| n IHn]; intros s0 e0; [discriminate |].
      subst obj.
      cbn -[Json.strip_prefix Json.scan_string Json.skip_ws Json.scan_once].
      match goal with
      | |- context [Json.strip_prefix ?p s0] =>
          destruct (Json.strip_prefix p s0) as [r0 |]; [| by_decoder]
      end.
      destruct (Json.scan_string r0) as [[k r1] | e1 |] eqn:Es; try discriminate.
      2:{ intros [= <-]. apply (scan_string_exn _ _ _ (le_n _) Es). }
      destruct (Json.skip_ws r1) as [| c r2]; [by_decoder |].
      split_char c.
      destruct (Json.scan_once fuel (Json.skip_ws r2)) as [[v r3] | e1 |] eqn:E;
        try discriminate.
      2:{ intros [= <-]. apply (IH _ _ E). }
      destruct (Json.skip_ws r3) as [| c r4]; [by_decoder |].
      split_char c.
      match goal with
      | |- context [match ?f n ?x with _ => _ end] =>
          destruct (f n x) as [[ms rest] | e1 |] eqn:E1; try discriminate
      end.
      intros [= <-]. apply (IHn _ _ E1). }
    clearbody arr obj.
    destruct s as [| c r]; [by_decoder |].
    destruct (Ascii.eqb c Json.dq).
    { destruct (Json.scan_string r) as [[t rest] | e1 |] eqn:Es; try discriminate.
      intros [= <-]. apply (scan_string_exn _ _ _ (le_n _) Es). }
    destruct (Ascii.eqb c "{").
    { destruct (Json.skip_ws r) as [| c1 r1].
      - destruct (obj fuel EmptyString) as [[ms rest] | e1 |] eqn:E1; try discriminate.
        intros [= <-]. apply (Hobj _ _ _ E1).
      - assert (Hgo : match obj fuel (String c1 r1) with
                      | Ok (ms, rest) => Ok (VDict ms, rest)
                      | Raise e => Raise e
                      | OutOfFuel => OutOfFuel
                      end = Raise e -> decoder_exn e).
        { destruct (obj fuel (String c1 r1)) as [[ms rest] | e1 |] eqn:E1;
            try discriminate.
          intros [= <-]. apply (Hobj _ _ _ E1). }
        split_char c1; exact Hgo. }
    destruct (Ascii.eqb c "[").
    { destruct (Json.skip_ws r) as [| c1 r1].
      - destruct (arr fuel EmptyString) as [[vs rest] | e1 |] eqn:E1; try discriminate.
        intros [= <-]. apply (Harr _ _ _ E1).
      - assert (Hgo : match arr fuel (String c1 r1) with
                      | Ok (vs, rest) => Ok (VList vs, rest)
                      | Raise e => Raise e
                      | OutOfFuel => OutOfFuel
                      end = Raise e -> decoder_exn e).
        { destruct (arr fuel (String c1 r1)) as [[vs rest] | e1 |] eqn:E1;
            try discriminate.
          intros [= <-]. apply (Harr _ _ _ E1). }
        split_char c1; exact Hgo. }
    repeat match goal with
           | |- context [match ?x with _ => _ end] =>
               lazymatch x with
               | context [match _ with _ => _ end] => fail
               | _ => destruct x
               end
           end; try discriminate; by_decoder.
Qed.

Lemma loads_exn (s : string) (e : exn) :
  Json.loads s = Raise e -> decoder_exn e.
Proof.
  unfold Json.loads.
  destruct (Json.scan_once (S (String.length s)) (Json.skip_ws s))
    as [[v rest] | e1 |] eqn:E; try discriminate.
  - destruct (Json.skip_ws rest); [discriminate | by_decoder].
  - intros [= <-]. apply (scan_once_exn _ _ _ E).
Qed.

(* ===================================================================== *)
(** ** Which exceptions a call can raise *)
(* ===================================================================== *)

Lemma raises_only_ret {S A} (P : exn -> Prop) (a : A) : raises_only P (@ret S A a).
Proof. intros s e. discriminate. Qed.

Lemma raises_only_gets {S A} (P : exn -> Prop) (f : S -> A) : raises_only P (gets f).
Proof. intros s e. discriminate. Qed.

Lemma raises_only_modify {S} (P : exn -> Prop) (f : S -> S) : raises_only P (modify f).
Proof. intros s e. discriminate. Qed.

Lemma raises_only_raise {S A} (P : exn -> Prop) (e : exn) :
  P e -> raises_only P (@raise S A e).
Proof. intros HP s e'. cbn. now intros [= <-]. Qed.

Lemma raises_only_lift {S A} (P : exn -> Prop) (r : Result A) :
  fails_only P r -> raises_only P (@lift S A r).
Proof. intros Hr s e. cbn. apply Hr. Qed.

Lemma raises_only_bind {S A B} (P : exn -> Prop) (m : M S A) (k : A -> M S B) :
  raises_only P m -> (forall a, raises_only P (k a)) -> raises_only P (bind m k).
Proof.
  intros Hm Hk s e. unfold bind. specialize (Hm s).
  destruct (m s) as [[a | e1 |] s1]; cbn in *.
  - apply Hk.
  - intros [= <-]. now apply Hm.
  - discriminate.
Qed.

Lemma raises_only_try_except {S A} (P : exn -> Prop) (m : M S A)
    (h : exn -> option (M S A)) :
  raises_only P m ->
  (forall e handler, h e = Some handler -> raises_only P handler) ->
  raises_only P (try_except m h).
Proof.
  intros Hm Hh s e. unfold try_except. specialize (Hm s).
  destruct (m s) as [[a | e1 |] s1]; cbn in *; try discriminate.
  destruct (h e1) as [handler |] eqn:He.
  - apply (Hh e1 handler He).
  - intros [= <-]. now apply Hm.
Qed.

Lemma raises_only_send (P : exn -> Prop) (req : Request) :
  (forall msg, P (RequestError msg)) -> raises_only P (send req).
Proof.
  intros HP s e. unfold send. destruct (reply _); cbn; [discriminate |].
  intros [= <-]. apply HP.
Qed.

Lemma raises_only_raise_for_status {S} (P : exn -> Prop) (r : Response) :
  (forall code body, P (HTTPStatusError code body)) ->
  raises_only P (@raise_for_status S r).
Proof.
  intros HP. unfold raise_for_status.
  destruct (is_success r); [apply raises_only_ret | now apply raises_only_raise].
Qed.

Lemma fails_only_loads (s : string) : fails_only not_job_error (Json.loads s).
Proof.
  intros e He. destruct (loads_exn s e He) as [-> | [w ->]]; exact I.
Qed.

Lemma fails_only_getitem (v : value) (k : string) :
  fails_only not_job_error (PyVal.getitem v k).
Proof.
  intros e. destruct v; cbn; try (intros [= <-]; exact I).
  destruct (PyVal.assoc_last k members); [discriminate | intros [= <-]; exact I].
Qed.

Lemma fails_only_getitem0 (v : value) : fails_only not_job_error (PyVal.getitem0 v).
Proof.
  intros e. destruct v as [| | | | [|] | [|] |]; cbn;
    try discriminate; intros [= <-]; exact I.
Qed.

Lemma fails_only_get (v : value) (k : string) (d : value) :
  fails_only not_job_error (PyVal.get v k d).
Proof. intros e. destruct v; cbn; try discriminate; intros [= <-]; exact I. Qed.

Lemma fails_only_add_seconds (t : Z) (v : value) :
  fails_only not_job_error (add_seconds t v).
Proof. intros e. destruct v; cbn; try discriminate; intros [= <-]; exact I. Qed.

Lemma fails_only_str (v : value) : fails_only not_job_error (PyFmt.str v).
Proof.
  intros e. destruct v as [| [|] | | | | |]; cbn; try discriminate;
    intros [= <-]; exact I.
Qed.

Lemma fails_only_JobStatus (v : value) :
  fails_only not_job_error (JobStatus_of_value v).
Proof.
  intros e. unfold JobStatus_of_value. destruct v; try (intros [= <-]; exact I).
  repeat match goal with
         | |- context [if ?b then _ else _] => destruct b
         end; try discriminate; intros [= <-]; exact I.
Qed.

Lemma raises_only_authenticate (settings : CriblSettings) :
  raises_only not_job_error (_authenticate settings).
Proof.
  unfold _authenticate, client_post, response_json, time_time.
  apply raises_only_bind.
  - apply raises_only_try_except.
    + apply raises_only_bind; [now apply raises_only_send | intros r].
      apply raises_only_bind;
        [now apply raises_only_raise_for_status | intros _; apply raises_only_ret].
    + intros e handler He.
      destruct e; try discriminate He; injection He as <-;
        now apply raises_only_raise.
  - intros response.
    apply raises_only_bind; [apply raises_only_lift, fails_only_loads | intros data].
    apply raises_only_bind; [apply raises_only_lift, fails_only_getitem | intros tok].
    apply raises_only_bind; [apply raises_only_modify | intros _].
    apply raises_only_bind; [apply raises_only_gets | intros t].
    apply raises_only_bind; [apply raises_only_lift, fails_only_get | intros ttl].
    apply raises_only_bind; [apply raises_only_lift, fails_only_add_seconds | intros e].
    apply raises_only_modify.
Qed.

Lemma raises_only_get_token (settings : CriblSettings) :
  raises_only not_job_error (get_token settings).
Proof.
  unfold get_token.
  apply raises_only_bind.
  - unfold _is_token_valid, time_time.
    apply raises_only_bind; [apply raises_only_gets | intros tok].
    destruct tok; try apply raises_only_ret;
      (apply raises_only_bind; [apply raises_only_gets | intros t];
       apply raises_only_bind; [apply raises_only_gets | intros e];
       apply raises_only_ret).
  - intros valid.
    apply raises_only_bind; [| intros _; apply raises_only_gets].
    destruct (negb valid); [apply raises_only_authenticate | apply raises_only_ret].
Qed.

Lemma raises_only_get_headers (settings : CriblSettings) :
  raises_only not_job_error (_get_headers settings).
Proof.
  unfold _get_headers.
  apply raises_only_bind; [apply raises_only_get_token | intros token].
  apply raises_only_bind; [apply raises_only_lift, fails_only_str | intros b].
  apply raises_only_ret.
Qed.

Lemma fails_only_status_report (resp : Response) :
  fails_only not_job_error (status_report resp).
Proof.
  intros e. unfold status_report, and_then.
  destruct (is_success resp); [| intros [= <-]; exact I].
  destruct (Json.loads (text resp)) as [data | e1 |] eqn:E1; try discriminate.
  2:{ intros [= <-]. apply (fails_only_loads _ _ E1). }
  destruct (PyVal.getitem data "items") as [items | e1 |] eqn:E2; try discriminate.
  2:{ intros [= <-]. apply (fails_only_getitem _ _ _ E2). }
  destruct (PyVal.getitem0 items) as [item | e1 |] eqn:E3; try discriminate.
  2:{ intros [= <-]. apply (fails_only_getitem0 _ _ E3). }
  destruct (PyVal.getitem item "status") as [v | e1 |] eqn:E4; try discriminate.
  2:{ intros [= <-]. apply (fails_only_getitem _ _ _ E4). }
  destruct (JobStatus_of_value v) as [st | e1 |] eqn:E5; try discriminate.
  intros [= <-]. apply (fails_only_JobStatus _ _ E5).
Qed.

(* ===================================================================== *)
(** ** Polling: what a wait leaves in the job *)
(* ===================================================================== *)

Lemma wait_post_other (job0 job' : SearchJob) (timeout : Z) (e : exn) :
  not_job_error e ->
  id job' = id job0 ->
  record_count job' = record_count job0 \/ status job' = COMPLETED ->
  wait_post job0 timeout (Raise e) job'.
Proof.
  intros He Hid Hrc. unfold wait_post.
  split; [discriminate |].
  split; [intros msg jid [= ->]; destruct He |].
  split; [intros msg [= ->]; destruct He |].
  split; assumption.
Qed.

Lemma wait_post_fuel (job0 job' : SearchJob) (timeout : Z) :
  id job' = id job0 ->
  record_count job' = record_count job0 \/ status job' = COMPLETED ->
  wait_post job0 timeout OutOfFuel job'.
Proof.
  intros Hid Hrc. unfold wait_post. repeat split; try assumption; discriminate.
Qed.

Lemma wait_loop_post :
  forall fuel url headers start_time poll_interval timeout job0 s job,
    pending job0 job ->
    wait_post job0 timeout
      (fst (wait_loop fuel url headers start_time poll_interval timeout (s, job)))
      (snd (snd (wait_loop fuel url headers start_time poll_interval timeout (s, job)))).
Proof.
  induction fuel as [| fuel IH];
    intros url headers start_time poll_interval timeout job0 s job Hp.
  - destruct Hp as [Hid [Hrc _]]. apply wait_post_fuel; [exact Hid | now left].
  - cbn [wait_loop]. unfold bind.
    destruct (Z.le_gt_cases (now s - start_time) timeout) as [Hin | Hlate].
    2:{ rewrite wait_iteration_timeout by lia. cbn.
        destruct Hp as [Hid [Hrc Hst]]. unfold wait_post.
        split; [discriminate |]. split; [discriminate |].
        split; [intros m [= <-]; now rewrite Hid |].
        split; [exact Hid | now left]. }
    rewrite (wait_iteration_poll _ _ _ _ _ _ _ Hin).
    pose proof (raises_only_send not_job_error (status_request url headers)
                  (fun _ => I) s) as Hsend.
    destruct Hp as [Hid [Hrc Hst]].
    destruct (send (status_request url headers) s) as [[resp | e |] s1]; cbn in Hsend.
    + pose proof (fails_only_status_report resp) as Hrep.
      unfold after_report.
      destruct (status_report resp) as [[item st] | e |].
      * destruct st; cbn [fst snd];
          try (apply IH; repeat split; cbn; try assumption; now right).
        -- destruct (PyVal.get item "numEvents" (VInt 0)) as [n | e |] eqn:Hget; cbn.
           ++ unfold wait_post. cbn.
              split; [reflexivity |]. split; [discriminate |].
              split; [discriminate |]. split; [exact Hid | now right].
           ++ apply wait_post_other; cbn; try assumption;
                [apply (fails_only_get _ _ _ _ Hget) | now right].
           ++ apply wait_post_fuel; cbn; [assumption | now right].
        -- destruct (PyVal.get item "error" (VStr "Unknown error"))
             as [msg | e |] eqn:Hget; cbn.
           ++ unfold wait_post. cbn.
              split; [discriminate |].
              split; [intros m jid [= _ <-]; split; [exact Hid | now left] |].
              split; [discriminate |]. split; [exact Hid | now left].
           ++ apply wait_post_other; cbn; try assumption;
                [apply (fails_only_get _ _ _ _ Hget) | now left].
           ++ apply wait_post_fuel; cbn; [assumption | now left].
        -- cbn. unfold wait_post. cbn.
           split; [discriminate |].
           split; [intros m jid [= _ <-]; split; [exact Hid | now right] |].
           split; [discriminate |]. split; [exact Hid | now left].
      * cbn. apply wait_post_other; try assumption; [now apply Hrep | now left].
      * cbn. apply wait_post_fuel; [assumption | now left].
    + cbn. apply wait_post_other; try assumption; [now apply Hsend | now left].
    + cbn. apply wait_post_fuel; [assumption | now left].
Qed.

(** X14.  What [_wait_for_job] leaves behind, however it ends.  It returns
    only with the job COMPLETED; it raises [JobFailedError] only with the
    job FAILED or CANCELED, and with that job's id; it raises
    [JobTimeoutError] only with this job's id and timeout in the message
    and the job untouched or in a status that is not terminal; it never
    changes the job's id, and changes [record_count] only when it sets the
    status COMPLETED. *)
Theorem X14_wait_outcome_matches_job :
  forall settings poll_interval timeout fuel s job,
    let run := _wait_for_job settings poll_interval timeout fuel (s, job) in
    let job' := snd (snd run) in
    (fst run = Ok tt -> status job' = COMPLETED)
    /\ (forall msg jid,
          fst run = Raise (JobFailedError msg jid) ->
          jid = id job /\ (status job' = FAILED \/ status job' = CANCELED))
    /\ (forall msg,
          fst run = Raise (JobTimeoutError msg) ->
          msg = timeout_message (id job) timeout
          /\ (job' = job \/ terminal (status job') = false))
    /\ id job' = id job
    /\ (record_count job' = record_count job \/ status job' = COMPLETED).
Proof.
  intros settings poll_interval timeout fuel s job run job'.
  change (wait_post job timeout (fst run) job').
  unfold job', run, _wait_for_job, on_client, the_job, time_time. unfold_monad.
  cbn [fst snd].
  pose proof (raises_only_get_headers settings s) as Hh.
  destruct (_get_headers settings s) as [[hs | e |] s1]; cbn [fst snd] in *.
  - apply wait_loop_post. repeat split. now left.
  - apply wait_post_other; [now apply Hh | reflexivity | now left].
  - apply wait_post_fuel; [reflexivity | now left].
Qed.

(* ===================================================================== *)
(** ** Polling: how many polls, and what they are *)
(* ===================================================================== *)

Section Keeps.

Variable R : State -> State -> Prop.
Hypothesis R_refl : forall s, R s s.
Hypothesis R_trans : forall a b c, R a b -> R b c -> R a c.









End Keeps.


(** The polls of the loop: [k] copies of the one status request, a sleep
    after each but possibly the last, the token cache untouched, and, for
    a poll interval of a second or more, no more polls than fit between
    the time already elapsed and the timeout. *)
Lemma wait_loop_polls :
  forall fuel url headers start_time poll_interval timeout s job,
    let s' := fst (snd (wait_loop fuel url headers start_time poll_interval
                          timeout (s, job))) in
    exists k j : nat,
      (k <= fuel)%nat
      /\ (j <= k)%nat
      /\ requests (trace s')
         = (requests (trace s) ++ repeat (status_request url headers) k)%list
      /\ sleeps (trace s') = (sleeps (trace s) ++ repeat poll_interval j)%list
      /\ _token s' = _token s
      /\ _expires_at s' = _expires_at s
      /\ (1 <= poll_interval ->
          Z.of_nat k
          <= Z.max 0 ((timeout - (now s - start_time)) / poll_interval + 1)).
Proof.
  induction fuel as [| fuel IH];
    intros url headers start_time poll_interval timeout s job s'.
  - exists 0%nat, 0%nat. unfold s'. cbn. rewrite !app_nil_r.
    repeat split; lia.
  - unfold s'. cbn [wait_loop]. unfold bind.
    destruct (Z.le_gt_cases (now s - start_time) timeout) as [Hin | Hlate].
    2:{ rewrite wait_iteration_timeout by lia. cbn.
        exists 0%nat, 0%nat. cbn. rewrite !app_nil_r. repeat split; lia. }
    rewrite (wait_iteration_poll _ _ _ _ _ _ _ Hin).
    set (req := status_request url headers).
    pose proof (send_requests req s) as Hreq.
    pose proof (send_sleeps req s) as Hsl.
    pose proof (send_cache req s) as [Hc1 Hc2].
    pose proof (send_now_le req s) as Hnow.
    assert (Hone : forall s1,
               requests (trace s1) = (requests (trace s) ++ [req])%list ->
               sleeps (trace s1) = sleeps (trace s) ->
               _token s1 = _token s -> _expires_at s1 = _expires_at s ->
               exists k j : nat,
                 (k <= S fuel)%nat /\ (j <= k)%nat
                 /\ requests (trace s1)
                    = (requests (trace s) ++ repeat req k)%list
                 /\ sleeps (trace s1)
                    = (sleeps (trace s) ++ repeat poll_interval j)%list
                 /\ _token s1 = _token s
                 /\ _expires_at s1 = _expires_at s
                 /\ (1 <= poll_interval ->
                     Z.of_nat k
                     <= Z.max 0 ((timeout - (now s - start_time)) / poll_interval + 1))).
    { intros s1 H1 H2 H3 H4. exists 1%nat, 0%nat. cbn [repeat].
      rewrite app_nil_r. repeat split; try assumption; try lia.
      intros Hp.
      assert (0 <= (timeout - (now s - start_time)) / poll_interval)
        by (apply Z.div_pos; lia).
      lia. }
    destruct (send req s) as [[resp | e |] s1]; cbn [fst snd] in *;
      try (now apply Hone).
    assert (Hcont : forall job1,
               let s2 := fst (snd (wait_loop fuel url headers start_time
                                     poll_interval timeout
                                     (snd (sleep poll_interval s1), job1))) in
               exists k j : nat,
                 (k <= S fuel)%nat /\ (j <= k)%nat
                 /\ requests (trace s2)
                    = (requests (trace s) ++ repeat req k)%list
                 /\ sleeps (trace s2)
                    = (sleeps (trace s) ++ repeat poll_interval j)%list
                 /\ _token s2 = _token s
                 /\ _expires_at s2 = _expires_at s
                 /\ (1 <= poll_interval ->
                     Z.of_nat k
                     <= Z.max 0 ((timeout - (now s - start_time)) / poll_interval + 1))).
    { intros job1 s2.
      destruct (IH url headers start_time poll_interval timeout
                  (snd (sleep poll_interval s1)) job1)
        as [k [j [Hk [Hj [Hr [Hs [Ht [He Hb]]]]]]]].
      fold s2 in Hr, Hs, Ht, He.
      rewrite sleep_requests in Hr. rewrite sleep_sleeps in Hs.
      exists (S k), (S j). cbn [repeat].
      split; [lia |]. split; [lia |].
      split; [rewrite Hr, Hreq, <- app_assoc; reflexivity |].
      split; [rewrite Hs, Hsl, <- app_assoc; reflexivity |].
      split; [rewrite Ht; exact Hc1 |].
      split; [rewrite He; exact Hc2 |].
      intros Hp. specialize (Hb Hp).
      rewrite sleep_state in Hb. cbn [now set_now log] in Hb.
      replace (Z.max 0 poll_interval) with poll_interval in Hb by lia.
      set (a := timeout - (now s - start_time)) in *.
      assert (Ha : 0 <= a) by (unfold a; lia).
      assert (Hq : 0 <= a / poll_interval) by (apply Z.div_pos; lia).
      assert (Hle : (timeout - (now s1 + poll_interval - start_time)) / poll_interval
                    <= (a - poll_interval) / poll_interval).
      { apply Z.div_le_mono; [lia | unfold a; lia]. }
      assert (Hstep : (a - poll_interval) / poll_interval + 1 = a / poll_interval).
      { replace a with ((a - poll_interval) + 1 * poll_interval) at 2 by lia.
        rewrite Z.div_add by lia. reflexivity. }
      rewrite Nat2Z.inj_succ. lia. }
    unfold after_report.
    destruct (status_report resp) as [[item st] | e |]; try (now apply Hone).
    destruct st; cbn [fst snd]; try apply Hcont.
    + destruct (PyVal.get item "numEvents" (VInt 0)); now apply Hone.
    + destruct (PyVal.get item "error" (VStr "Unknown error")); now apply Hone.
    + now apply Hone.
Qed.







(** A poll whose answer cannot be read. *)
Lemma wait_loop_unreadable :
  forall fuel url headers start_time poll_interval timeout s job resp e,
    now s - start_time <= timeout ->
    fst (send (status_request url headers) s) = Ok resp ->
    status_report resp = Raise e ->
    wait_loop (S fuel) url headers start_time poll_interval timeout (s, job)
    = (Raise e, (snd (send (status_request url headers) s), job)).
Proof.
  intros fuel url headers start_time poll_interval timeout s job resp e
         Hin Hsend Hrep.
  apply wait_loop_raise.
  rewrite (wait_iteration_poll _ _ _ _ _ _ _ Hin).
  rewrite (pair_fst_snd _ _ Hsend), Hrep. reflexivity.
Qed.

(** X17.  A poll whose answer cannot be read ends the wait with an
    exception and leaves the job as it was: a status outside 2xx raises
    [HTTPStatusError], a body without ["items"] raises [KeyError], an empty
    ["items"] list raises [IndexError], and a status string that names no
    [JobStatus] raises [ValueError]. *)
Theorem X17_unreadable_poll_leaves_job :
  forall fuel url headers start_time poll_interval timeout s job resp,
    now s - start_time <= timeout ->
    fst (send (status_request url headers) s) = Ok resp ->
    let run := wait_loop (S fuel) url headers start_time poll_interval timeout
                 (s, job) in
    let s1 := snd (send (status_request url headers) s) in
    (is_success resp = false ->
       run = (Raise (HTTPStatusError (status_code resp) (text resp)), (s1, job)))
    /\ (forall members,
          is_success resp = true ->
          Json.loads (text resp) = Ok (VDict members) ->
          PyVal.assoc_last "items" members = None ->
          run = (Raise KeyError, (s1, job)))
    /\ (forall members,
          is_success resp = true ->
          Json.loads (text resp) = Ok (VDict members) ->
          PyVal.assoc_last "items" members = Some (VList []) ->
          run = (Raise IndexError, (s1, job)))
    /\ (forall members item rest word,
          is_success resp = true ->
          Json.loads (text resp) = Ok (VDict members) ->
          PyVal.assoc_last "items" members = Some (VList (VDict item :: rest)) ->
          PyVal.assoc_last "status" item = Some (VStr word) ->
          JobStatus_of_value (VStr word) = Raise ValueError ->
          run = (Raise ValueError, (s1, job))).
Proof.
  intros fuel url headers start_time poll_interval timeout s job resp
         Hin Hsend run s1.
  unfold run, s1.
  split; [| split; [| split]].
  - intros Hok. apply (wait_loop_unreadable _ _ _ _ _ _ _ _ resp); try assumption.
    unfold status_report. now rewrite Hok.
  - intros members Hok Hdata Hitems.
    apply (wait_loop_unreadable _ _ _ _ _ _ _ _ resp); try assumption.
    unfold status_report. rewrite Hok, Hdata. cbn. now rewrite Hitems.
  - intros members Hok Hdata Hitems.
    apply (wait_loop_unreadable _ _ _ _ _ _ _ _ resp); try assumption.
    unfold status_report. rewrite Hok, Hdata. cbn. now rewrite Hitems.
  - intros members item rest word Hok Hdata Hitems Hstatus Hword.
    apply (wait_loop_unreadable _ _ _ _ _ _ _ _ resp); try assumption.
    unfold status_report. rewrite Hok, Hdata.
    cbn [and_then PyVal.getitem]. rewrite Hitems.
    cbn [and_then PyVal.getitem0 PyVal.getitem]. rewrite Hstatus.
    cbn [and_then]. rewrite Hword. reflexivity.
Qed.

(** A job the server calls "paused": [ValueError], and the job still NEW. *)
Lemma X17_unreadable_poll_leaves_job_witness :
  let s := Fixtures.holding 1000
             (Fixtures.always (Fixtures.respond 200 (q "{'items': [{'status': 'paused'}]}")))
             "mock-token" 90000 in
  wait_loop 1 "u" [] 1000 2 5 (s, new_job "job-123")
  = (Raise ValueError, (snd (send (status_request "u" []) s), new_job "job-123")).
Proof.
  intros s.
  apply (proj2 (proj2 (proj2 (X17_unreadable_poll_leaves_job 0 "u" [] 1000 2 5 s
                                (new_job "job-123")
                                (mkResponse 200 (q "{'items': [{'status': 'paused'}]}") [])
                                ltac:(discriminate) eq_refl)))
           [("items", VList [VDict [("status", VStr "paused")]])]
           [("status", VStr "paused")] [] "paused");
    vm_compute; reflexivity.
Defined.

(** The job that never finishes of the test suite: the wait ends in
    [JobTimeoutError]. *)
Lemma wait_loop_times_out_witness :
  let s := Fixtures.holding 1000
             (Fixtures.always (Fixtures.respond 200 Fixtures.running_body))
             "mock-token" 90000 in
  exists fuel p',
    wait_loop fuel "u" [] 1000 2 5 (s, new_job "job-123")
    = (Raise (JobTimeoutError (timeout_message "job-123" 5)), p').
Proof.
  intros s.
  apply (wait_loop_times_out "u" [] 1000 2 5 ltac:(discriminate) 6%nat s
           (new_job "job-123")).
  - intros h. exists (mkResponse 200 Fixtures.running_body []),
      (VDict [("status", VStr "running")]), RUNNING.
    repeat split; vm_compute; reflexivity.
  - reflexivity.
Defined.

(* ===================================================================== *)
(** ** Submission, beyond the two rejections *)
(* ===================================================================== *)

Lemma submit_async_answered :
  forall settings query earliest latest s hs s1 resp,
    _get_headers settings s = (Ok hs, s1) ->
    fst (send (submit_request settings query earliest latest hs) s1) = Ok resp ->
    submit_async settings query earliest latest s
    = after_submit resp (snd (send (submit_request settings query earliest latest hs) s1)).
Proof.
  intros settings query earliest latest s hs s1 resp Hh Hsend.
  apply pair_fst_snd in Hsend.
  unfold submit_async. rewrite (bind_ok _ _ _ _ _ Hh).
  unfold client_post. fold (submit_request settings query earliest latest hs).
  now rewrite (bind_ok _ _ _ _ _ Hsend).
Qed.

Lemma is_success_codes (resp : Response) :
  is_success resp = true ->
  (status_code resp =? 400) = false /\ (status_code resp =? 429) = false.
Proof.
  unfold is_success. intros H.
  apply andb_true_iff in H. destruct H as [H1 H2].
  apply Z.leb_le in H1. apply Z.leb_le in H2.
  split; apply Z.eqb_neq; lia.
Qed.

(** X18.  A submission answered with a 2xx status whose body holds a
    string at [items[0].id] returns a job with that id, in status NEW and
    with no record count; the one request sent after the headers is the
    POST to [/search/jobs] with the query, both time bounds and
    [sampleRate] 1.  Nothing else of the body is looked at. *)
Theorem X18_submit_returns_new_job :
  forall settings query earliest latest s hs s1 resp members item rest jid,
    _get_headers settings s = (Ok hs, s1) ->
    fst (send (submit_request settings query earliest latest hs) s1) = Ok resp ->
    is_success resp = true ->
    Json.loads (text resp) = Ok (VDict members) ->
    PyVal.assoc_last "items" members = Some (VList (VDict item :: rest)) ->
    PyVal.assoc_last "id" item = Some (VStr jid) ->
    let run := submit_async settings query earliest latest s in
    fst run = Ok (mkJob jid NEW VNone)
    /\ requests (trace (snd run))
       = (requests (trace s1) ++ [submit_request settings query earliest latest hs])%list.
Proof.
  intros settings query earliest latest s hs s1 resp members item rest jid
         Hh Hsend Hok Hdata Hitems Hid run.
  unfold run. rewrite (submit_async_answered _ _ _ _ _ _ _ _ Hh Hsend).
  destruct (is_success_codes _ Hok) as [H400 H429].
  unfold after_submit, raise_for_status, response_json. unfold_monad.
  rewrite H400, H429, Hok, Hdata.
  cbn [PyVal.getitem]. rewrite Hitems.
  cbn [PyVal.getitem0 PyVal.getitem]. rewrite Hid.
  cbn [fst snd]. split; [reflexivity | apply send_requests].
Qed.

(** The submission of the test suite. *)
Lemma X18_submit_returns_new_job_witness :
  let s := Fixtures.holding 1000
             (Fixtures.always
                (Fixtures.respond 200 (q "{'items': [{'id': 'job-123', 'status': 'new'}]}")))
             "mock-token" 90000 in
  let run := submit_async Fixtures.settings "cribl dataset=logs" "-1h" "now" s in
  fst run = Ok (mkJob "job-123" NEW VNone)
  /\ requests (trace (snd run))
     = [submit_request Fixtures.settings "cribl dataset=logs" "-1h" "now"
          (auth_headers "mock-token")].
Proof.
  intros s.
  apply (X18_submit_returns_new_job Fixtures.settings "cribl dataset=logs" "-1h" "now"
           s (auth_headers "mock-token") s
           (mkResponse 200 (q "{'items': [{'id': 'job-123', 'status': 'new'}]}") [])
           [("items", VList [VDict [("id", VStr "job-123"); ("status", VStr "new")]])]
           [("id", VStr "job-123"); ("status", VStr "new")] [] "job-123");
    vm_compute; reflexivity.
Defined.

(** X19.  A submission answered with any status outside 2xx other than
    400 and 429 raises [HTTPStatusError] with that status and the body; a
    2xx answer whose body has no ["items"], an empty ["items"] list, or a
    first item without ["id"] raises [KeyError], [IndexError] and
    [KeyError]: no job is returned. *)
Theorem X19_submit_unusable_answer :
  forall settings query earliest latest s hs s1 resp,
    _get_headers settings s = (Ok hs, s1) ->
    fst (send (submit_request settings query earliest latest hs) s1) = Ok resp ->
    let r := fst (submit_async settings query earliest latest s) in
    (is_success resp = false ->
     status_code resp <> 400 -> status_code resp <> 429 ->
       r = Raise (HTTPStatusError (status_code resp) (text resp)))
    /\ (forall members,
          is_success resp = true ->
          Json.loads (text resp) = Ok (VDict members) ->
          PyVal.assoc_last "items" members = None ->
          r = Raise KeyError)
    /\ (forall members,
          is_success resp = true ->
          Json.loads (text resp) = Ok (VDict members) ->
          PyVal.assoc_last "items" members = Some (VList []) ->
          r = Raise IndexError)
    /\ (forall members item rest,
          is_success resp = true ->
          Json.loads (text resp) = Ok (VDict members) ->
          PyVal.assoc_last "items" members = Some (VList (VDict item :: rest)) ->
          PyVal.assoc_last "id" item = None ->
          r = Raise KeyError).
Proof.
  intros settings query earliest latest s hs s1 resp Hh Hsend r.
  unfold r. rewrite (submit_async_answered _ _ _ _ _ _ _ _ Hh Hsend).
  unfold after_submit, raise_for_status, response_json. unfold_monad.
  split; [| split; [| split]].
  - intros Hok H400 H429.
    apply Z.eqb_neq in H400. apply Z.eqb_neq in H429.
    rewrite H400, H429, Hok. reflexivity.
  - intros members Hok Hdata Hitems.
    destruct (is_success_codes _ Hok) as [H400 H429].
    rewrite H400, H429, Hok, Hdata. cbn [PyVal.getitem]. rewrite Hitems. reflexivity.
  - intros members Hok Hdata Hitems.
    destruct (is_success_codes _ Hok) as [H400 H429].
    rewrite H400, H429, Hok, Hdata. cbn [PyVal.getitem]. rewrite Hitems. reflexivity.
  - intros members item rest Hok Hdata Hitems Hid.
    destruct (is_success_codes _ Hok) as [H400 H429].
    rewrite H400, H429, Hok, Hdata. cbn [PyVal.getitem]. rewrite Hitems.
    cbn [PyVal.getitem0 PyVal.getitem]. rewrite Hid. reflexivity.
Qed.

(** A server error on submission. *)
Lemma X19_submit_unusable_answer_witness :
  let s := Fixtures.holding 1000
             (Fixtures.always (Fixtures.respond 503 "Service Unavailable"))
             "mock-token" 90000 in
  fst (submit_async Fixtures.settings "cribl dataset=logs" "-1h" "now" s)
  = Raise (HTTPStatusError 503 "Service Unavailable").
Proof.
  intros s.
  apply (proj1 (X19_submit_unusable_answer Fixtures.settings "cribl dataset=logs"
                  "-1h" "now" s (auth_headers "mock-token") s
                  (mkResponse 503 "Service Unavailable" []) eq_refl eq_refl));
    [reflexivity | discriminate | discriminate].
Defined.

(** X20.  A 429 whose [Retry-After] header does not spell an integer (an
    HTTP date, a decimal fraction) raises [ValueError] from [int()], not
    [RateLimitError]. *)
Theorem X20_retry_after_not_an_integer :
  forall settings query earliest latest s hs s1 resp v,
    _get_headers settings s = (Ok hs, s1) ->
    fst (send (submit_request settings query earliest latest hs) s1) = Ok resp ->
    status_code resp = 429 ->
    headers_get resp "Retry-After" = Some v ->
    PyStr.int_of_str v = None ->
    fst (submit_async settings query earliest latest s) = Raise ValueError.
Proof.
  intros settings query earliest latest s hs s1 resp v Hh Hsend H429 Hv Hint.
  rewrite (submit_async_answered _ _ _ _ _ _ _ _ Hh Hsend).
  unfold after_submit, retry_after_of. unfold_monad.
  rewrite H429, Hv, Hint. reflexivity.
Qed.

(** [Retry-After: 1.5]. *)
Lemma X20_retry_after_not_an_integer_witness :
  let s := Fixtures.holding 1000
             (Fixtures.always
                (mkExchange 0 (Responded (mkResponse 429 EmptyString
                                            [("retry-after", "1.5")]))))
             "mock-token" 90000 in
  fst (submit_async Fixtures.settings "cribl dataset=logs" "-1h" "now" s)
  = Raise ValueError.
Proof.
  intros s.
  apply (X20_retry_after_not_an_integer Fixtures.settings "cribl dataset=logs"
           "-1h" "now" s (auth_headers "mock-token") s
           (mkResponse 429 EmptyString [("retry-after", "1.5")]) "1.5");
    vm_compute; reflexivity.
Defined.

(** X21.  With no usable token and a token exchange that is refused or
    does not get through, [submit_async] raises [AuthenticationError] and
    the only request it has sent is the one for the token: the query is
    never posted. *)
Theorem X21_submit_without_token_posts_nothing :
  forall settings query earliest latest s,
    ~ token_usable s ->
    (forall resp, fst (send (auth_request settings) s) = Ok resp ->
                  is_success resp = false) ->
    let run := submit_async settings query earliest latest s in
    (exists msg, fst run = Raise (AuthenticationError msg))
    /\ requests (trace (snd run))
       = (requests (trace s) ++ [auth_request settings])%list.
Proof.
  intros settings query earliest latest s Hstale Hrefused run.
  assert (Hauth : exists msg,
            _authenticate settings s
            = (Raise (AuthenticationError msg), snd (send (auth_request settings) s))).
  { destruct (send_outcome (auth_request settings) s) as [[resp Hr] | [msg Hr]].
    - eexists. apply (authenticate_rejected _ _ _ Hr (Hrefused _ Hr)).
    - eexists. apply (authenticate_unreachable _ _ _ Hr). }
  destruct Hauth as [msg Hauth].
  assert (Hrun : run = (Raise (AuthenticationError msg),
                        snd (send (auth_request settings) s))).
  { unfold run, submit_async, _get_headers.
    apply bind_raise. apply bind_raise.
    rewrite (get_token_stale _ _ Hstale), Hauth. reflexivity. }
  rewrite Hrun. cbn [fst snd]. split; [now exists msg | apply send_requests].
Qed.

(** Bad credentials: the token endpoint says 401 and nothing is submitted. *)
Lemma X21_submit_without_token_posts_nothing_witness :
  let s := Fixtures.fresh 1000 (Fixtures.always (Fixtures.respond 401 "Unauthorized")) in
  let run := submit_async Fixtures.settings "cribl dataset=logs" "-1h" "now" s in
  (exists msg, fst run = Raise (AuthenticationError msg))
  /\ requests (trace (snd run)) = [auth_request Fixtures.settings].
Proof.
  intros s.
  apply (X21_submit_without_token_posts_nothing Fixtures.settings
           "cribl dataset=logs" "-1h" "now" s).
  - intros [Hne _]. apply Hne. reflexivity.
  - intros resp Hr. vm_compute in Hr. injection Hr as <-. reflexivity.
Defined.

(** X23.  Outside the token exchange a transport failure is not wrapped:
    when the submission POST or a status poll gets no answer, the
    transport's [RequestError] comes out as it is; the poll leaves the job
    as it was and is not repeated. *)
Theorem X23_transport_failure_not_wrapped :
  forall settings query earliest latest s hs s1 msg,
    _get_headers settings s = (Ok hs, s1) ->
    (fst (send (submit_request settings query earliest latest hs) s1)
     = Raise (RequestError msg) ->
     submit_async settings query earliest latest s
     = (Raise (RequestError msg),
        snd (send (submit_request settings query earliest latest hs) s1)))
    /\ (forall fuel poll_interval timeout job,
          fst (send (status_request (status_url settings (id job)) hs) s1)
          = Raise (RequestError msg) ->
          now s1 - now s <= timeout ->
          _wait_for_job settings poll_interval timeout (S fuel) (s, job)
          = (Raise (RequestError msg),
             (snd (send (status_request (status_url settings (id job)) hs) s1), job))).
Proof.
  intros settings query earliest latest s hs s1 msg Hh. split.
  - intros Hsend. apply pair_fst_snd in Hsend.
    unfold submit_async. rewrite (bind_ok _ _ _ _ _ Hh).
    unfold client_post. fold (submit_request settings query earliest latest hs).
    now rewrite (bind_raise _ _ _ _ _ Hsend).
  - intros fuel poll_interval timeout job Hsend Ht.
    unfold _wait_for_job, on_client, the_job, time_time. unfold_monad.
    cbn [fst snd]. rewrite Hh. cbn [fst snd].
    apply wait_loop_raise.
    rewrite (wait_iteration_poll _ _ _ _ _ _ _ Ht).
    now rewrite (pair_fst_snd _ _ Hsend).
Qed.

(** A server that is gone once the token is in hand. *)
Lemma X23_transport_failure_not_wrapped_witness :
  let s := Fixtures.holding 1000 (Fixtures.scripted []) "mock-token" 90000 in
  fst (submit_async Fixtures.settings "cribl dataset=logs" "-1h" "now" s)
  = Raise (RequestError "script exhausted")
  /\ fst (_wait_for_job Fixtures.settings 2 5 1 (s, new_job "job-123"))
     = Raise (RequestError "script exhausted").
Proof.
  intros s.
  pose proof (X23_transport_failure_not_wrapped Fixtures.settings
                "cribl dataset=logs" "-1h" "now" s (auth_headers "mock-token") s
                "script exhausted" eq_refl) as [Hsubmit Hpoll].
  split.
  - rewrite (Hsubmit eq_refl). reflexivity.
  - rewrite (Hpoll 0%nat 2 5 (new_job "job-123") eq_refl ltac:(discriminate)).
    reflexivity.
Defined.

(** X24.  The clock of a wait starts before the headers are built: when
    getting the token takes longer than [timeout], the wait raises
    [JobTimeoutError] without polling the job once. *)
Theorem X24_slow_token_times_out_unpolled :
  forall settings poll_interval timeout fuel s job headers s1,
    _get_headers settings s = (Ok headers, s1) ->
    timeout < now s1 - now s ->
    _wait_for_job settings poll_interval timeout (S fuel) (s, job)
    = (Raise (JobTimeoutError (timeout_message (id job) timeout)), (s1, job)).
Proof.
  intros settings poll_interval timeout fuel s job headers s1 Hh Hlate.
  unfold _wait_for_job, on_client, the_job, time_time. unfold_monad.
  cbn [fst snd]. rewrite Hh. cbn [fst snd].
  apply wait_loop_raise. now apply wait_iteration_timeout.
Qed.

(** A token endpoint that takes 10 seconds, a wait of at most 5: the one
    request sent is the one for the token. *)
Lemma X24_slow_token_times_out_unpolled_witness :
  let s := Fixtures.fresh 1000
             (Fixtures.always
                (mkExchange 10 (Responded (mkResponse 200 Fixtures.token_body [])))) in
  let run := _wait_for_job Fixtures.settings 2 5 1 (s, new_job "job-123") in
  fst run = Raise (JobTimeoutError (timeout_message "job-123" 5))
  /\ requests (trace (fst (snd run))) = [auth_request Fixtures.settings].
Proof.
  intros s run. unfold run.
  rewrite (X24_slow_token_times_out_unpolled Fixtures.settings 2 5 0 s
             (new_job "job-123") (auth_headers "mock-token")
             (snd (_get_headers Fixtures.settings s)));
    [split; reflexivity | reflexivity | reflexivity].
Defined.

(* ===================================================================== *)
(** ** The one-call query *)
(* ===================================================================== *)

Lemma wait_for_job_returns :
  forall settings poll_interval timeout fuel s job s' job',
    _wait_for_job settings poll_interval timeout fuel (s, job) = (Ok tt, (s', job')) ->
    status job' = COMPLETED /\ id job' = id job.
Proof.
  intros settings poll_interval timeout fuel s job s' job'.
  unfold _wait_for_job, on_client, the_job, time_time. unfold_monad.
  cbn [fst snd].
  destruct (_get_headers settings s) as [[hs | e |] s1]; cbn [fst snd];
    try discriminate.
  intros Hrun.
  assert (Hp : pending job job) by (repeat split; now left).
  pose proof (wait_loop_post fuel (status_url settings (id job)) hs (now s)
                poll_interval timeout job s1 job Hp) as Hpost.
  rewrite Hrun in Hpost. cbn [fst snd] in Hpost.
  destruct Hpost as [Hdone [_ [_ [Hid _]]]].
  split; [now apply Hdone | exact Hid].
Qed.

Section Query.

Variable DataFrame : Type.
Variable records_to_dataframe : list value -> Result DataFrame.

(** X25.  When [query_async] returns a frame, the query was submitted, the
    wait on the submitted job (polled every 2 seconds) returned with the
    job COMPLETED, and the frame is the conversion of exactly the records
    that [stream] gives for that job's id from there on. *)
Theorem X25_query_frame_comes_from_completed_job :
  forall settings query earliest latest timeout fuel s df,
    fst (query_async DataFrame records_to_dataframe settings query earliest latest
           timeout fuel s) = Ok df ->
    exists job s1 job' s2 records,
      submit_async settings query earliest latest s = (Ok job, s1)
      /\ _wait_for_job settings 2 timeout fuel (s1, job) = (Ok tt, (s2, job'))
      /\ status job' = COMPLETED
      /\ id job' = id job
      /\ fst (stream settings (id job) fuel s2) = Ok records
      /\ records_to_dataframe records = Ok df.
Proof.
  intros settings query earliest latest timeout fuel s df H.
  unfold query_async in H. unfold bind at 1 in H.
  destruct (submit_async settings query earliest latest s) as [[job | e |] s1]
    eqn:Hsub; try discriminate H.
  unfold bind at 1 in H. unfold with_job in H.
  destruct (_wait_for_job settings 2 timeout fuel (s1, job))
    as [[[] | e |] [s2 job']] eqn:Hwait; try discriminate H.
  destruct (wait_for_job_returns _ _ _ _ _ _ _ _ Hwait) as [Hst Hid].
  unfold _get_results_as_dataframe, _stream_results, bind, lift in H.
  rewrite Hid in H.
  change (collect (fun s0 : State => _stream_by_id settings (id job) fuel s0) s2)
    with (stream settings (id job) fuel s2) in H.
  destruct (stream settings (id job) fuel s2) as [[records | e |] s3] eqn:Hrec;
    try discriminate H.
  cbn [fst] in H.
  exists job, s1, job', s2, records.
  repeat split; try assumption.
  now rewrite Hrec.
Qed.

(** X26.  When the wait of [query_async] raises (the job failed, was
    canceled, timed out, or a poll could not be read), the query raises the
    same exception and no result is fetched: every request after the
    wait's headers is a status poll of the submitted job. *)
Theorem X26_query_stops_at_failed_wait :
  forall settings query earliest latest timeout fuel s job s1 headers s2 e,
    submit_async settings query earliest latest s = (Ok job, s1) ->
    _get_headers settings s1 = (Ok headers, s2) ->
    fst (_wait_for_job settings 2 timeout fuel (s1, job)) = Raise e ->
    let run := query_async DataFrame records_to_dataframe settings query earliest
                 latest timeout fuel s in
    fst run = Raise e
    /\ exists k : nat,
         requests (trace (snd run))
         = (requests (trace s2)
            ++ repeat (status_request (status_url settings (id job)) headers) k)%list.
Proof.
  intros settings query earliest latest timeout fuel s job s1 headers s2 e
         Hsub Hh Hwait run.
  assert (Hrun : run = (Raise e,
                        fst (snd (_wait_for_job settings 2 timeout fuel (s1, job))))).
  { unfold run, query_async. rewrite (bind_ok _ _ _ _ _ Hsub).
    apply bind_raise. unfold with_job.
    destruct (_wait_for_job settings 2 timeout fuel (s1, job)) as [r [s3 job']].
    cbn [fst snd] in *. now rewrite Hwait. }
  rewrite Hrun. cbn [fst snd]. split; [reflexivity |].
  unfold _wait_for_job, on_client, the_job, time_time. unfold_monad.
  cbn [fst snd]. rewrite Hh. cbn [fst snd].
  destruct (wait_loop_polls fuel (status_url settings (id job)) headers (now s1)
              2 timeout s2 job)
    as [k [j [_ [_ [Hr _]]]]].
  now exists k.
Qed.

End Query.

(** A query answered at once: submitted, found completed at the first
    poll, its two records fetched; the frame is taken to be the list of
    records. *)
Lemma X25_query_frame_comes_from_completed_job_witness :
  let s := Fixtures.holding 1000
             (Fixtures.scripted
                [Fixtures.respond 200 (q "{'items': [{'id': 'job-123'}]}");
                 Fixtures.respond 200 Fixtures.completed_body;
                 Fixtures.respond 200 Fixtures.blank_lines_page])
             "mock-token" 90000 in
  exists job s1 job' s2 records,
    submit_async Fixtures.settings "cribl dataset=logs" "-1h" "now" s = (Ok job, s1)
    /\ _wait_for_job Fixtures.settings 2 300 5 (s1, job) = (Ok tt, (s2, job'))
    /\ status job' = COMPLETED
    /\ id job' = id job
    /\ fst (stream Fixtures.settings (id job) 5 s2) = Ok records
    /\ Ok records = Ok [VDict [("id", VInt 1)]; VDict [("id", VInt 2)]].
Proof.
  intros s.
  apply (X25_query_frame_comes_from_completed_job (list value) (@Ok (list value))
           Fixtures.settings "cribl dataset=logs" "-1h" "now" 300 5 s
           [VDict [("id", VInt 1)]; VDict [("id", VInt 2)]]).
  vm_compute. reflexivity.
Defined.

(** A query whose job fails at the first poll: two requests, the
    submission and the poll, and no results request. *)
Lemma X26_query_stops_at_failed_wait_witness :
  let s := Fixtures.holding 1000
             (Fixtures.scripted
                [Fixtures.respond 200 (q "{'items': [{'id': 'job-123'}]}");
                 Fixtures.respond 200 Fixtures.failed_body])
             "mock-token" 90000 in
  let run := query_async (list value) (@Ok (list value)) Fixtures.settings
               "cribl dataset=logs" "-1h" "now" 300 5 s in
  fst run = Raise (JobFailedError (VStr "Dataset not found") "job-123")
  /\ exists k : nat,
       requests (trace (snd run))
       = (requests (trace (snd (submit_async Fixtures.settings "cribl dataset=logs"
                                  "-1h" "now" s)))
          ++ repeat (status_request (status_url Fixtures.settings "job-123")
                       (auth_headers "mock-token")) k)%list.
Proof.
  intros s.
  apply (X26_query_stops_at_failed_wait (list value) (@Ok (list value))
           Fixtures.settings "cribl dataset=logs" "-1h" "now" 300 5 s
           (new_job "job-123")
           (snd (submit_async Fixtures.settings "cribl dataset=logs" "-1h" "now" s))
           (auth_headers "mock-token")
           (snd (submit_async Fixtures.settings "cribl dataset=logs" "-1h" "now" s))
           (JobFailedError (VStr "Dataset not found") "job-123"));
    vm_compute; reflexivity.
Defined.
